(** * FADA: print-quality scoring, spaghetti detection and session monitoring

    A shallow embedding of [QualityAnalyzer], [SpaghettiDetector]
    (src/analysis/quality.js) and [PrintMonitor] (the monitor module), and the
    properties of the telemetry buffers, the layer tracker, the risk score,
    the confidence fusion, the recommendation policy and the alert list.

    Conventions of the embedding.
    - A JavaScript number that holds a measurement or a score is a rational
      [Q]: arithmetic is exact, rounding of doubles is not modelled.  The one
      non-finite value the code can produce from finite input, the [NaN] of
      an average over an empty array ([0 / 0]), is modelled where it arises
      ([jsnum], [None] is [NaN]).
    - Layer indices, counters of array lengths and millisecond time stamps
      are integers [Z]; the feedback counters, which start at 0 and are only
      ever incremented, are [nat].
    - [undefined] fields of the telemetry objects are [option] values.
    - [Date.now()] is the argument [now] of each entry point; [Math.random()]
      draws from a stream threaded through the effectful functions. *)

From Stdlib Require Import ZArith QArith Qround Qabs Lia Lqa String.
From stdpp Require Import base option list gmap.

Open Scope Q_scope.

(** ** JavaScript numbers, arrays and [Math] *)

Module Js.

Definition ltb (a b : Q) : bool := negb (Qle_bool b a).
Definition gtb (a b : Q) : bool := ltb b a.
Definition geb (a b : Q) : bool := Qle_bool b a.

(** [Math.min] and [Math.max] on finite numbers. *)
Definition Math_min (a b : Q) : Q := if Qle_bool a b then a else b.
Definition Math_max (a b : Q) : Q := if Qle_bool a b then b else a.

(** [Math.floor], and [Math.round], which rounds halves up. *)
Definition Math_floor (x : Q) : Z := Qfloor x.
Definition Math_round (x : Q) : Z := Qfloor (x + (1 # 2)).

(** [Math.sqrt] on a non-negative number: the real root cut to 53 binary
    fractional digits, exact on 0 and on squares of such fractions.  Its
    only caller, [calculateVariation], passes a mean of squares. *)
Definition Math_sqrt (x : Q) : Q :=
  if Qle_bool x 0 then 0
  else Z.sqrt (Qfloor (x * inject_Z (4 ^ 53))) # (2 ^ 53)%positive.

(** [data.length] as a number. *)
Definition len {A : Type} (data : list A) : Q := inject_Z (Z.of_nat (length data)).

(** [data.reduce((a, b) => a + b, 0)]. *)
Definition sum (data : list Q) : Q := fold_left Qplus data 0.

(** [data.slice(-n)]: the last [n] elements, the whole array when shorter. *)
Definition slice_last {A : Type} (n : nat) (data : list A) : list A :=
  drop (length data - n) data.

(** A number that may be [NaN]. *)
Definition jsnum : Type := option Q.
Definition NaN : jsnum := None.

(** [x || d] on a number: [0] and [NaN] are falsy. *)
Definition or_default (x : jsnum) (d : Q) : Q :=
  match x with
  | Some q => if Qeq_bool q 0 then d else q
  | None => d
  end.

(** A comparison with a possibly undefined or [NaN] operand is false. *)
Definition opt_ltb (x : option Q) (c : Q) : bool :=
  match x with Some q => ltb q c | None => false end.
Definition opt_gtb (x : option Q) (c : Q) : bool :=
  match x with Some q => gtb q c | None => false end.

(** [sum / length]: [NaN] on the empty array. *)
Definition mean (data : list Q) : jsnum :=
  match data with
  | [] => NaN
  | _ => Some (sum data / len data)
  end.

End Js.

Import Js.

(** ** QualityAnalyzer *)

Module QualityAnalyzer.

Inductive Issue :=
| TemperatureFluctuation
| UnusualTemperature (avgTemp : Q)
| ExcessiveVibration
| PeriodicVibration
| InconsistentLayerHeights
| InconsistentFilamentFlow
| UnderExtrusion
| OverExtrusion
| WarpingRisk
| HumidityStringing.

(** Every issue is pushed together with its recommendation. *)
Definition recommendation_of (i : Issue) : string :=
  match i with
  | TemperatureFluctuation => "Check thermal insulation and PID tuning"
  | UnusualTemperature _ => "Verify material temperature requirements"
  | ExcessiveVibration => "Check belt tension and frame stability"
  | PeriodicVibration => "Check for loose pulleys or worn bearings"
  | InconsistentLayerHeights => "Calibrate Z-axis steps/mm and check bed leveling"
  | InconsistentFilamentFlow => "Check extruder gear tension and hotend temperature"
  | UnderExtrusion => "Increase temperature or flow rate"
  | OverExtrusion => "Reduce flow rate or increase print speed"
  | WarpingRisk => "Increase bed temperature and consider enclosure"
  | HumidityStringing => "Store filament in dry environment"
  end%string.

Inductive Grade := Excellent | Good | Fair | Poor | Critical.

(** [calculateVariation]: population standard deviation, 0 on no data. *)
Definition calculateVariation (data : list Q) : Q :=
  match data with
  | [] => 0
  | _ =>
      let avg := sum data / len data in
      let variance :=
        fold_left (fun a b => a + (b - avg) * (b - avg)) data 0 / len data in
      Math_sqrt variance
  end.

Record TemperatureAnalysis := {
  temp_issues : list Issue;
  stability : Q
}.

Definition analyzeTemperatureProfile (temperatureData : list Q) : TemperatureAnalysis :=
  let tempVariation := calculateVariation temperatureData in
  let issues1 := if gtb tempVariation 5 then [TemperatureFluctuation] else [] in
  let avgTemp := mean temperatureData in
  let issues2 :=
    match avgTemp with
    | Some t => if ltb t 180 || gtb t 250 then [UnusualTemperature t] else []
    | None => []
    end in
  {| temp_issues := issues1 ++ issues2;
     stability := 100 - tempVariation * 10 |}.

(** [detectVibrationPatterns]: counts the jumps larger than 10 between
    neighbours. *)
Fixpoint periodicCount (data : list Q) : nat :=
  match data with
  | a :: (b :: _) as rest =>
      ((if gtb (Qabs (b - a)) 10 then 1 else 0) + periodicCount rest)%nat
  | _ => 0%nat
  end.

Definition detectVibrationPatterns (data : list Q) : bool :=
  gtb (inject_Z (Z.of_nat (periodicCount data))) (len data * 0.3).

Record VibrationAnalysis := {
  vib_issues : list Issue;
  vib_score : jsnum
}.

Definition analyzeVibrationData (vibrationData : list Q) : VibrationAnalysis :=
  let avgVibration := mean vibrationData in
  let issues1 := if opt_gtb avgVibration 50 then [ExcessiveVibration] else [] in
  let issues2 := if detectVibrationPatterns vibrationData then [PeriodicVibration] else [] in
  {| vib_issues := issues1 ++ issues2;
     vib_score :=
       match avgVibration with
       | Some v => Some (Math_max 0 (100 - v))
       | None => NaN
       end |}.

(** [extractLayerHeights].  A G-code line is represented by the number its
    [Z] word parses to, [None] when the line has no such word or the word
    is not a number. *)
Fixpoint layerHeightsFrom (currentZ : Q) (gCodeData : list (option Q)) : list Q :=
  match gCodeData with
  | [] => []
  | Some newZ :: rest =>
      if gtb newZ currentZ
      then (newZ - currentZ) :: layerHeightsFrom newZ rest
      else layerHeightsFrom currentZ rest
  | None :: rest => layerHeightsFrom currentZ rest
  end.

Definition extractLayerHeights (gCodeData : list (option Q)) : list Q :=
  match layerHeightsFrom 0 gCodeData with
  | [] => [0.2]
  | heights => heights
  end.

Record PrinterData := {
  temperatures : option (list Q);
  temperature_avg : option Q;       (* printerData.temperature?.avg *)
  bedTemp : option Q
}.

Record SensorData := {
  vibration : option (list Q);
  filamentFlow : option (list Q);
  filamentFlow_avg : option Q;      (* sensorData.filamentFlow?.avg *)
  temperature : option Q;
  humidity : option Q
}.

Record LayerAnalysis := {
  layer_issues : list Issue;
  layer_score : Q
}.

Definition analyzeLayerQuality (gCodeData : list (option Q)) (sensorData : SensorData)
  : LayerAnalysis :=
  let layerScore := 100 in
  let layerHeights := extractLayerHeights gCodeData in
  let heightVariation := calculateVariation layerHeights in
  let '(issues1, layerScore) :=
    if gtb heightVariation 0.05
    then ([InconsistentLayerHeights], layerScore - 20)
    else ([], layerScore) in
  let '(issues2, layerScore) :=
    match filamentFlow sensorData with
    | Some flow =>
        if gtb (calculateVariation flow) 10
        then ([InconsistentFilamentFlow], layerScore - 15)
        else ([], layerScore)
    | None => ([], layerScore)
    end in
  {| layer_issues := issues1 ++ issues2;
     layer_score := Math_max 0 layerScore |}.

Definition detectCommonIssues (temperature_avg flow_avg bedTemp ambientTemp humidity : option Q)
  : list Issue :=
  (if opt_ltb temperature_avg 200 && opt_ltb flow_avg 400 then [UnderExtrusion] else [])
  ++ (if opt_gtb flow_avg 800 then [OverExtrusion] else [])
  ++ (if opt_ltb bedTemp 50 && opt_ltb ambientTemp 20 then [WarpingRisk] else [])
  ++ (if opt_gtb humidity 60 then [HumidityStringing] else []).

Definition getQualityGrade (score : Q) : Grade :=
  if geb score 90 then Excellent
  else if geb score 80 then Good
  else if geb score 70 then Fair
  else if geb score 60 then Poor
  else Critical.

Record Metrics := {
  temperatureStability : Q;
  vibrationLevel : Q;
  layerQuality : Q
}.

Record QualityReport := {
  report_timestamp : Z;
  overallScore : Z;
  grade : Grade;
  issues : list Issue;
  recommendations : list string;
  metrics : Metrics
}.

Definition generateQualityReport (now : Z) (printerData : PrinterData)
    (sensorData : SensorData) (gCodeData : list (option Q)) : QualityReport :=
  let tempAnalysis := analyzeTemperatureProfile (default [] (temperatures printerData)) in
  let vibAnalysis := analyzeVibrationData (default [] (vibration sensorData)) in
  let layerAnalysis := analyzeLayerQuality gCodeData sensorData in
  let commonIssues :=
    detectCommonIssues (temperature_avg printerData) (filamentFlow_avg sensorData)
      (bedTemp printerData) (temperature sensorData) (humidity sensorData) in
  let allIssues :=
    temp_issues tempAnalysis ++ vib_issues vibAnalysis
    ++ layer_issues layerAnalysis ++ commonIssues in
  let scores :=
    [ or_default (Some (stability tempAnalysis)) 100;
      or_default (vib_score vibAnalysis) 100;
      or_default (Some (layer_score layerAnalysis)) 100 ] in
  let overallScore := sum scores / len scores in
  {| report_timestamp := now;
     overallScore := Math_round overallScore;
     grade := getQualityGrade overallScore;
     issues := allIssues;
     recommendations := map recommendation_of allIssues;
     metrics :=
       {| temperatureStability := or_default (Some (stability tempAnalysis)) 0;
          vibrationLevel := or_default (vib_score vibAnalysis) 0;
          layerQuality := or_default (Some (layer_score layerAnalysis)) 0 |} |}.

End QualityAnalyzer.

(** ** SpaghettiDetector *)

Module SpaghettiDetector.

Record Zone := { weight : Q; description : string }.

(** [this.riskZones] and [this.safeZones], set once by the constructor. *)
Definition riskZones_overhangs : Zone :=
  {| weight := 0.9; description := "Overhangs >45 degrees without support" |}.
Definition riskZones_bridges : Zone :=
  {| weight := 0.8; description := "Long bridges >20mm" |}.
Definition riskZones_smallFeatures : Zone :=
  {| weight := 0.7; description := "Features <2mm width" |}.
Definition riskZones_firstLayers : Zone :=
  {| weight := 0.95; description := "First 3 layers" |}.
Definition riskZones_tallThinWalls : Zone :=
  {| weight := 0.85; description := "Walls >20mm tall, <1mm thick" |}.
Definition riskZones_corners : Zone :=
  {| weight := 0.6; description := "Sharp external corners" |}.
Definition safeZones_solidInfill : Zone :=
  {| weight := 0.1; description := "Areas with 100% infill" |}.
Definition safeZones_thickWalls : Zone :=
  {| weight := 0.2; description := "Walls >3mm thick" |}.
Definition safeZones_lowHeight : Zone :=
  {| weight := 0.15; description := "Features <5mm tall" |}.
Definition safeZones_supported : Zone :=
  {| weight := 0.1; description := "Areas with support material" |}.

(** The structural snapshot of one layer, [gcodeAnalysis.layers[n]]. *)
Record LayerData := {
  overhangs : Q;
  bridges : Q;
  smallFeatures : Q;
  solidInfill : Q;
  supportMaterial : bool
}.

(** The empty object [{}] that stands in for a missing layer.  Each of its
    fields is [undefined]; the code reads a field only in a test [> c] with
    [0 <= c] or as a truth value, where [undefined] and [0] (or [false])
    give the same answer. *)
Definition emptyLayer : LayerData :=
  {| overhangs := 0; bridges := 0; smallFeatures := 0; solidInfill := 0;
     supportMaterial := false |}.

Record GcodeAnalysis := { layers : option (gmap Z LayerData) }.

(** [gcodeAnalysis.layers?.[currentLayer] || {}]. *)
Definition layerDataOf (gcodeAnalysis : GcodeAnalysis) (currentLayer : Z) : LayerData :=
  match layers gcodeAnalysis with
  | Some ls => default emptyLayer (ls !! currentLayer)
  | None => emptyLayer
  end.

Inductive Severity := high | medium | low.

Definition Severity_eqb (a b : Severity) : bool :=
  match a, b with
  | high, high | medium, medium | low, low => true
  | _, _ => false
  end.

Inductive AlertType :=
| vibration_anomaly | temperature_instability | low_flow | erratic_flow.

Record Alert := {
  type : AlertType;
  severity : Severity;
  message : string;
  confidence : Q
}.

Record SensorData := {
  vibration : option (list Q);
  temperature : option (list Q);
  filamentFlow : option (list Q)
}.

Inductive PatternType := stringy_material | nozzle_buildup.

Record Pattern := {
  pattern_type : PatternType;
  location : Q * Q;
  pattern_confidence : Q;
  pattern_description : string
}.

Record VisualAnalysis := {
  visual_confidence : Q;
  patterns : list Pattern
}.

Inductive Factor :=
| first_layers | overhangs_present | bridges_present
| small_features | solid_infill | support_present.

Record RiskFactor := { factor : Factor; risk : Severity }.

Inductive Action := immediate_intervention | monitor_closely | continue_monitoring.

Record Recommendation := {
  action : Action;
  rec_message : string;
  urgency : Severity;
  suggestions : list string
}.

Record Detection := {
  timestamp : Z;
  layer : Z;
  riskScore : Q;
  det_confidence : Q;
  alerts : list Alert;
  riskFactors : list RiskFactor;
  recommendation : Recommendation
}.

Record t := {
  detectionHistory : list Detection;
  falsePositives : nat;
  truePositives : nat
}.

Definition constructor : t :=
  {| detectionHistory := []; falsePositives := 0; truePositives := 0 |}.

Record CameraSnapshot := { url : string; snapshot_timestamp : Z }.
Record CameraData := { lastSnapshot : option CameraSnapshot }.

(** *** Effects: [Math.random] and the record of evaluations

    [random] is the stream [Math.random()] draws from.  [evaluations]
    collects, oldest first, the detection returned by each call of
    [PrintMonitor.runSpaghettiDetection]; its callers drop that value, and
    the bounded [detectionHistory] forgets it after 50 more. *)
Record Env := { random : nat -> Q; evaluations : list Detection }.

Definition Eff (A : Type) : Type := Env -> A * Env.

#[global] Instance Eff_ret : MRet Eff := fun A a e => (a, e).
#[global] Instance Eff_bind : MBind Eff :=
  fun A B k m e => let '(a, e') := m e in k a e'.

Definition Math_random : Eff Q :=
  fun e => (random e 0%nat,
            {| random := fun n => random e (S n); evaluations := evaluations e |}).
Definition record_evaluation (d : Detection) : Eff unit :=
  fun e => (tt, {| random := random e; evaluations := evaluations e ++ [d] |}).

(** *** Risk score *)

Definition calculateRiskScore (gcodeAnalysis : GcodeAnalysis) (currentLayer : Z) : Q :=
  let totalRisk := 0 in
  let weightSum := 0 in
  let layerData := layerDataOf gcodeAnalysis currentLayer in
  let '(totalRisk, weightSum) :=
    if gtb (overhangs layerData) 0 then
      let overhangRisk :=
        Math_min (overhangs layerData / 10) 1 * weight riskZones_overhangs in
      (totalRisk + overhangRisk, weightSum + weight riskZones_overhangs)
    else (totalRisk, weightSum) in
  let '(totalRisk, weightSum) :=
    if gtb (bridges layerData) 0 then
      let bridgeRisk :=
        Math_min (bridges layerData / 5) 1 * weight riskZones_bridges in
      (totalRisk + bridgeRisk, weightSum + weight riskZones_bridges)
    else (totalRisk, weightSum) in
  let '(totalRisk, weightSum) :=
    if (currentLayer <=? 3)%Z then
      (totalRisk + weight riskZones_firstLayers,
       weightSum + weight riskZones_firstLayers)
    else (totalRisk, weightSum) in
  let '(totalRisk, weightSum) :=
    if gtb (smallFeatures layerData) 0 then
      let smallFeaturesRisk :=
        Math_min (smallFeatures layerData / 20) 1 * weight riskZones_smallFeatures in
      (totalRisk + smallFeaturesRisk, weightSum + weight riskZones_smallFeatures)
    else (totalRisk, weightSum) in
  let totalRisk :=
    if gtb (solidInfill layerData) 0.8
    then totalRisk * (1 - weight safeZones_solidInfill)
    else totalRisk in
  let totalRisk :=
    if supportMaterial layerData
    then totalRisk * (1 - weight safeZones_supported)
    else totalRisk in
  if gtb weightSum 0 then Math_min (totalRisk / weightSum) 1 else 0.

(** *** Sensor anomaly scan *)

(** [calculateVariation], the detector's own copy of the analyzer's. *)
Definition calculateVariation (data : list Q) : Q :=
  match data with
  | [] => 0
  | _ =>
      let avg := sum data / len data in
      let variance :=
        fold_left (fun a b => a + (b - avg) * (b - avg)) data 0 / len data in
      Math_sqrt variance
  end.

(** [sensorData.x?.length > n]: false when the array is missing. *)
Definition longer_than (n : nat) (data : option (list Q)) : option (list Q) :=
  match data with
  | Some l => if (n <? length l)%nat then Some l else None
  | None => None
  end.

Definition vibrationAlert : Alert :=
  {| type := vibration_anomaly; severity := high;
     message := "Unusual vibration pattern detected - possible detached print";
     confidence := 0.8 |}.
Definition temperatureAlert : Alert :=
  {| type := temperature_instability; severity := medium;
     message := "Temperature instability may indicate print failure";
     confidence := 0.6 |}.
Definition lowFlowAlert : Alert :=
  {| type := low_flow; severity := high;
     message := "Low filament flow - possible jam or detachment";
     confidence := 0.9 |}.
Definition erraticFlowAlert : Alert :=
  {| type := erratic_flow; severity := medium;
     message := "Erratic extrusion pattern detected";
     confidence := 0.7 |}.

Definition analyzeSensorPatterns (sensorData : SensorData) : list Alert :=
  let alerts := [] in
  let alerts :=
    match longer_than 10 (vibration sensorData) with
    | Some data =>
        let recentVibration := slice_last 10 data in
        let avgVibration := sum recentVibration / len recentVibration in
        let vibrationSpikes :=
          length (List.filter (fun v => gtb v (avgVibration * 2)) recentVibration) in
        if (3 <? vibrationSpikes)%nat then alerts ++ [vibrationAlert] else alerts
    | None => alerts
    end in
  let alerts :=
    match longer_than 5 (temperature sensorData) with
    | Some data =>
        let recentTemp := slice_last 5 data in
        let tempVariation := calculateVariation recentTemp in
        if gtb tempVariation 8 then alerts ++ [temperatureAlert] else alerts
    | None => alerts
    end in
  let alerts :=
    match longer_than 5 (filamentFlow sensorData) with
    | Some data =>
        let recentFlow := slice_last 5 data in
        let avgFlow := sum recentFlow / len recentFlow in
        let alerts := if ltb avgFlow 100 then alerts ++ [lowFlowAlert] else alerts in
        let flowVariation := calculateVariation recentFlow in
        if gtb flowVariation (avgFlow * 0.5) then alerts ++ [erraticFlowAlert] else alerts
    | None => alerts
    end in
  alerts.

(** *** Visual analysis (simulated in the source by one random draw) *)

Definition stringyPattern : Pattern :=
  {| pattern_type := stringy_material; location := (150, 120);
     pattern_confidence := 0.75;
     pattern_description := "Stringy material detected near print area" |}.
Definition buildupPattern : Pattern :=
  {| pattern_type := nozzle_buildup; location := (0, 0);
     pattern_confidence := 0.85;
     pattern_description := "Material buildup on nozzle detected" |}.

Definition analyzeVisualPatterns (cameraData : option CameraData) : Eff VisualAnalysis :=
  match cameraData with
  | Some {| lastSnapshot := Some _ |} =>
      random ← Math_random;
      (let patterns := [] in
       let patterns := if gtb random 0.8 then patterns ++ [stringyPattern] else patterns in
       let patterns := if gtb random 0.9 then patterns ++ [buildupPattern] else patterns in
       let overallConfidence :=
         if (0 <? length patterns)%nat
         then sum (map pattern_confidence patterns) / len patterns
         else 0 in
       mret {| visual_confidence := overallConfidence; patterns := patterns |})
  | _ => mret {| visual_confidence := 0; patterns := [] |}
  end.

(** *** Risk factors (explanatory only) *)

Definition identifyRiskFactors (gcodeAnalysis : GcodeAnalysis) (currentLayer : Z)
  : list RiskFactor :=
  let layerData := layerDataOf gcodeAnalysis currentLayer in
  (if (currentLayer <=? 3)%Z then [{| factor := first_layers; risk := high |}] else [])
  ++ (if gtb (overhangs layerData) 0
      then [{| factor := overhangs_present;
               risk := if gtb (overhangs layerData) 5 then high else medium |}]
      else [])
  ++ (if gtb (bridges layerData) 0
      then [{| factor := bridges_present;
               risk := if gtb (bridges layerData) 3 then high else medium |}]
      else [])
  ++ (if gtb (smallFeatures layerData) 10
      then [{| factor := small_features; risk := medium |}] else [])
  ++ (if gtb (solidInfill layerData) 0.8
      then [{| factor := solid_infill; risk := low |}] else [])
  ++ (if supportMaterial layerData
      then [{| factor := support_present; risk := low |}] else []).

(** *** Confidence fusion *)

Definition getHistoricalAccuracy (d : t) : Q :=
  let total := (truePositives d + falsePositives d)%nat in
  if (total =? 0)%nat then 0.8
  else inject_Z (Z.of_nat (truePositives d)) / inject_Z (Z.of_nat total).

Definition has_severity (s : Severity) (a : Alert) : bool := Severity_eqb (severity a) s.

Definition calculateConfidence (d : t) (riskScore : Q) (sensorAlerts : list Alert)
    (visualAnalysis : VisualAnalysis) : Q :=
  let confidence := riskScore * 0.4 in
  let highSeverityAlerts := List.filter (has_severity high) sensorAlerts in
  let mediumSeverityAlerts := List.filter (has_severity medium) sensorAlerts in
  let confidence :=
    confidence + (len highSeverityAlerts * 0.3 + len mediumSeverityAlerts * 0.1) in
  let confidence := confidence + visual_confidence visualAnalysis * 0.2 in
  let accuracy := getHistoricalAccuracy d in
  let confidence := confidence * accuracy in
  Math_min confidence 1.

(** *** Recommendation policy *)

Definition generateRecommendation (riskScore : Q) (sensorAlerts : list Alert)
  : Recommendation :=
  if gtb riskScore 0.8 || existsb (has_severity high) sensorAlerts then
    {| action := immediate_intervention;
       rec_message := "High spaghetti risk detected - consider pausing print for inspection";
       urgency := high;
       suggestions :=
         [ "Check bed adhesion and first layer quality";
           "Verify hotend temperature stability";
           "Inspect for filament jams or tangles";
           "Consider adding support material for overhangs" ]%string |}
  else if gtb riskScore 0.5 then
    {| action := monitor_closely;
       rec_message := "Moderate spaghetti risk - monitor next few layers carefully";
       urgency := medium;
       suggestions :=
         [ "Watch for temperature fluctuations";
           "Check camera feed for anomalies";
           "Prepare to intervene if conditions worsen" ]%string |}
  else
    {| action := continue_monitoring;
       rec_message := "Low spaghetti risk - continue normal monitoring";
       urgency := low;
       suggestions :=
         [ "Maintain current print settings";
           "Continue regular monitoring intervals" ]%string |}.

(** *** One evaluation *)

Definition analyzeCurrentPrint (now : Z) (cameraData : option CameraData)
    (sensorData : SensorData) (gcodeAnalysis : GcodeAnalysis) (currentLayer : Z)
    (d : t) : Eff (Detection * t) :=
  let riskScore := calculateRiskScore gcodeAnalysis currentLayer in
  let sensorAlerts := analyzeSensorPatterns sensorData in
  visualAnalysis ← analyzeVisualPatterns cameraData;
  (let detection :=
     {| timestamp := now;
        layer := currentLayer;
        riskScore := riskScore;
        det_confidence := calculateConfidence d riskScore sensorAlerts visualAnalysis;
        alerts := sensorAlerts;
        riskFactors := identifyRiskFactors gcodeAnalysis currentLayer;
        recommendation := generateRecommendation riskScore sensorAlerts |} in
   let history := detectionHistory d ++ [detection] in
   let history :=
     if (50 <? length history)%nat then slice_last 50 history else history in
   mret (detection,
         {| detectionHistory := history;
            falsePositives := falsePositives d;
            truePositives := truePositives d |})).

(** *** Operator feedback *)

Definition reportFeedback (wasActualSpaghetti : bool) (d : t) : t :=
  if wasActualSpaghetti then
    {| detectionHistory := detectionHistory d;
       falsePositives := falsePositives d;
       truePositives := S (truePositives d) |}
  else
    {| detectionHistory := detectionHistory d;
       falsePositives := S (falsePositives d);
       truePositives := truePositives d |}.

Record Stats := {
  totalDetections : nat;
  accuracy : Q;
  stats_truePositives : nat;
  stats_falsePositives : nat;
  recentDetections : list Detection
}.

Definition getDetectionStats (d : t) : Stats :=
  {| totalDetections := length (detectionHistory d);
     accuracy := getHistoricalAccuracy d;
     stats_truePositives := truePositives d;
     stats_falsePositives := falsePositives d;
     recentDetections := slice_last 10 (detectionHistory d) |}.

End SpaghettiDetector.

(** ** PrintMonitor *)

Module PrintMonitor.

Abbreviation Eff := SpaghettiDetector.Eff.

Inductive Status := printing | completed.

Record PrintSession := {
  id : Z;                         (* the number in `print_${Date.now()}` *)
  name : string;
  startTime : Z;
  endTime : option Z;
  status : Status;
  progress : Z
}.

Record Position := { x : Q; y : Q; z : Q }.

(** [{...printerData.position, timestamp: Date.now()}]. *)
Record PositionSample := {
  sample_position : Position;
  sample_timestamp : Z
}.

Record DataBuffer := {
  temperature : list Q;
  vibration : list Q;
  filamentFlow : list Q;
  positions : list PositionSample
}.

Inductive AlertType := warning | error | spaghetti_risk.

Inductive AlertMessage :=
| HighTemperature          (* 'High temperature detected' *)
| TemperatureDrop          (* 'Temperature drop detected' *)
| ExcessiveVibration       (* 'Excessive vibration detected' *)
| FilamentJam              (* 'Possible filament jam or runout' *)
| HighSpaghettiRisk (layer : Z).  (* `High spaghetti risk detected on layer ${layer}` *)

Record Alert := {
  type : AlertType;
  message : AlertMessage;
  value : option Q;
  confidence : option Q;
  recommendation : option SpaghettiDetector.Recommendation;
  timestamp : Z
}.

Record t := {
  spaghettiDetector : SpaghettiDetector.t;
  isMonitoring : bool;
  currentPrint : option PrintSession;
  dataBuffer : DataBuffer;
  alerts : list Alert;
  currentLayer : Z
}.

(** The telemetry objects the two producers hand in. *)
Record SensorData := {
  sensor_temperature : option Q;
  sensor_vibration : option Q;
  sensor_filamentFlow : option Q;
  sensor_humidity : option Q
}.

Record Temperatures := { hotend : Q; bed : Q }.

Record PrinterData := {
  position : option Position;
  printer_temperature : option Temperatures
}.

Record PrintJob := { job_name : option string }.

Definition emptyBuffer : DataBuffer :=
  {| temperature := []; vibration := []; filamentFlow := []; positions := [] |}.

Definition constructor : t :=
  {| spaghettiDetector := SpaghettiDetector.constructor;
     isMonitoring := false;
     currentPrint := None;
     dataBuffer := emptyBuffer;
     alerts := [];
     currentLayer := 0 |}.

(** Field updates, [this.f = v]. *)
Definition set_spaghettiDetector (d : SpaghettiDetector.t) (m : t) : t :=
  {| spaghettiDetector := d; isMonitoring := isMonitoring m;
     currentPrint := currentPrint m; dataBuffer := dataBuffer m;
     alerts := alerts m; currentLayer := currentLayer m |}.
Definition set_isMonitoring (b : bool) (m : t) : t :=
  {| spaghettiDetector := spaghettiDetector m; isMonitoring := b;
     currentPrint := currentPrint m; dataBuffer := dataBuffer m;
     alerts := alerts m; currentLayer := currentLayer m |}.
Definition set_currentPrint (p : option PrintSession) (m : t) : t :=
  {| spaghettiDetector := spaghettiDetector m; isMonitoring := isMonitoring m;
     currentPrint := p; dataBuffer := dataBuffer m;
     alerts := alerts m; currentLayer := currentLayer m |}.
Definition set_dataBuffer (b : DataBuffer) (m : t) : t :=
  {| spaghettiDetector := spaghettiDetector m; isMonitoring := isMonitoring m;
     currentPrint := currentPrint m; dataBuffer := b;
     alerts := alerts m; currentLayer := currentLayer m |}.
Definition set_alerts (a : list Alert) (m : t) : t :=
  {| spaghettiDetector := spaghettiDetector m; isMonitoring := isMonitoring m;
     currentPrint := currentPrint m; dataBuffer := dataBuffer m;
     alerts := a; currentLayer := currentLayer m |}.
Definition set_currentLayer (l : Z) (m : t) : t :=
  {| spaghettiDetector := spaghettiDetector m; isMonitoring := isMonitoring m;
     currentPrint := currentPrint m; dataBuffer := dataBuffer m;
     alerts := alerts m; currentLayer := l |}.

(** [this.dataBuffer.k.push(v)]. *)
Definition push_temperature (v : Q) (b : DataBuffer) : DataBuffer :=
  {| temperature := temperature b ++ [v]; vibration := vibration b;
     filamentFlow := filamentFlow b; positions := positions b |}.
Definition push_vibration (v : Q) (b : DataBuffer) : DataBuffer :=
  {| temperature := temperature b; vibration := vibration b ++ [v];
     filamentFlow := filamentFlow b; positions := positions b |}.
Definition push_filamentFlow (v : Q) (b : DataBuffer) : DataBuffer :=
  {| temperature := temperature b; vibration := vibration b;
     filamentFlow := filamentFlow b ++ [v]; positions := positions b |}.
Definition push_positions (v : PositionSample) (b : DataBuffer) : DataBuffer :=
  {| temperature := temperature b; vibration := vibration b;
     filamentFlow := filamentFlow b; positions := positions b ++ [v] |}.

(** [clearDataBuffer]: every key of the buffer is reset to []. *)
Definition clearDataBuffer (m : t) : t := set_dataBuffer emptyBuffer m.

(** [printJob.name || 'Unknown']: a missing or empty name is falsy. *)
Definition name_or_unknown (n : option string) : string :=
  match n with
  | Some EmptyString | None => "Unknown"
  | Some s => s
  end.

Definition startMonitoring (now : Z) (printJob : PrintJob) (m : t) : t * Z :=
  let m := set_isMonitoring true m in
  let m :=
    set_currentPrint
      (Some {| id := now; name := name_or_unknown (job_name printJob);
               startTime := now; endTime := None;
               status := printing; progress := 0 |}) m in
  let m := clearDataBuffer m in
  let m := set_alerts [] m in
  (m, now).

(** *** Reports *)

Definition getAverageValue (data : list Q) : Q :=
  match data with
  | [] => 0
  | _ => sum data / len data
  end.

Record DataCollected := {
  temperatureReadings : nat;
  vibrationReadings : nat;
  filamentReadings : nat
}.

Record FinalReport := {
  quality : QualityAnalyzer.QualityReport;
  print : PrintSession;
  totalRuntime : option Z;        (* NaN when the session has no endTime *)
  totalAlerts : nat;
  dataCollected : DataCollected
}.

Definition generateFinalReport (now : Z) (m : t) : option FinalReport :=
  match currentPrint m with
  | None => None
  | Some p =>
      let buf := dataBuffer m in
      let finalReport :=
        QualityAnalyzer.generateQualityReport now
          {| QualityAnalyzer.temperatures := Some (temperature buf);
             QualityAnalyzer.temperature_avg := None;
             QualityAnalyzer.bedTemp := None |}
          {| QualityAnalyzer.vibration := Some (vibration buf);
             QualityAnalyzer.filamentFlow := Some (filamentFlow buf);
             QualityAnalyzer.filamentFlow_avg := None;
             QualityAnalyzer.temperature := Some (getAverageValue (temperature buf));
             QualityAnalyzer.humidity := Some 50 |}
          [] in
      Some {| quality := finalReport;
              print := p;
              totalRuntime := (fun e => e - startTime p)%Z <$> endTime p;
              totalAlerts := length (alerts m);
              dataCollected :=
                {| temperatureReadings := length (temperature buf);
                   vibrationReadings := length (vibration buf);
                   filamentReadings := length (filamentFlow buf) |} |}
  end.

Definition stopMonitoring (now : Z) (m : t) : t * option FinalReport :=
  let m :=
    match currentPrint m with
    | Some p =>
        set_currentPrint
          (Some {| id := id p; name := name p; startTime := startTime p;
                   endTime := Some now; status := completed;
                   progress := progress p |}) m
    | None => m
    end in
  let m := set_isMonitoring false m in
  (m, generateFinalReport now m).

Record DataPoints := {
  points_temperature : nat;
  points_vibration : nat;
  points_filamentFlow : nat
}.

Record CurrentStatus := {
  status_print : PrintSession;
  runtime : Z;
  status_alerts : list Alert;
  dataPoints : DataPoints
}.

(** [getCurrentStatus]: [None] is the answer [{ monitoring: false }]. *)
Definition getCurrentStatus (now : Z) (m : t) : option CurrentStatus :=
  match isMonitoring m, currentPrint m with
  | true, Some p =>
      let runtime := (now - startTime p)%Z in
      let recentAlerts := slice_last 5 (alerts m) in
      Some {| status_print := p;
              runtime := runtime;
              status_alerts := recentAlerts;
              dataPoints :=
                {| points_temperature := length (temperature (dataBuffer m));
                   points_vibration := length (vibration (dataBuffer m));
                   points_filamentFlow := length (filamentFlow (dataBuffer m)) |} |}
  | _, _ => None
  end.

(** [getRecentAlerts(count)]; [slice(-0)] is the whole array. *)
Definition getRecentAlerts (count : nat) (m : t) : list Alert :=
  rev (match count with O => alerts m | _ => slice_last count (alerts m) end).

(** *** Sensor telemetry *)

Definition realTimeAlert (ty : AlertType) (msg : AlertMessage) (v : option Q) (now : Z)
  : Alert :=
  {| type := ty; message := msg; value := v; confidence := None;
     recommendation := None; timestamp := now |}.

(** [this.currentPrint.status === 'printing'].  [currentPrint] is set
    whenever [isMonitoring] is, so the dereference does not fail where
    [checkRealTimeAlerts] is called. *)
Definition isPrinting (m : t) : bool :=
  match currentPrint m with
  | Some {| status := printing |} => true
  | _ => false
  end.

Definition oneHour : Z := 60 * 60 * 1000.

Definition checkRealTimeAlerts (now : Z) (data : SensorData) (m : t) : t :=
  let alerts1 :=
    if opt_gtb (sensor_temperature data) 250
    then [realTimeAlert warning HighTemperature (sensor_temperature data) now] else [] in
  let alerts2 :=
    if opt_ltb (sensor_temperature data) 180 && isPrinting m
    then [realTimeAlert error TemperatureDrop (sensor_temperature data) now] else [] in
  let alerts3 :=
    if opt_gtb (sensor_vibration data) 80
    then [realTimeAlert warning ExcessiveVibration (sensor_vibration data) now] else [] in
  let alerts4 :=
    if opt_ltb (sensor_filamentFlow data) 100
    then [realTimeAlert error FilamentJam (sensor_filamentFlow data) now] else [] in
  let new_alerts := alerts1 ++ alerts2 ++ alerts3 ++ alerts4 in
  let all := alerts m ++ new_alerts in
  let oneHourAgo := (now - oneHour)%Z in
  set_alerts (List.filter (fun alert => (oneHourAgo <? timestamp alert)%Z) all) m.

(** The trimming loop of [updateSensorData] on one key. *)
Definition keepLast100 {A : Type} (data : list A) : list A :=
  if (100 <? length data)%nat then slice_last 100 data else data.

Definition trimBuffer (b : DataBuffer) : DataBuffer :=
  {| temperature := keepLast100 (temperature b);
     vibration := keepLast100 (vibration b);
     filamentFlow := keepLast100 (filamentFlow b);
     positions := keepLast100 (positions b) |}.

Definition push_if_defined (push : Q -> DataBuffer -> DataBuffer) (v : option Q)
    (b : DataBuffer) : DataBuffer :=
  match v with Some q => push q b | None => b end.

Definition updateSensorData (now : Z) (sensorData : SensorData) (m : t) : t :=
  if negb (isMonitoring m) then m
  else
    let buf := dataBuffer m in
    let buf := push_if_defined push_temperature (sensor_temperature sensorData) buf in
    let buf := push_if_defined push_vibration (sensor_vibration sensorData) buf in
    let buf := push_if_defined push_filamentFlow (sensor_filamentFlow sensorData) buf in
    let buf := trimBuffer buf in
    checkRealTimeAlerts now sensorData (set_dataBuffer buf m).

(** *** Spaghetti detection *)

Definition spaghettiAlert (now : Z) (layer : Z) (d : SpaghettiDetector.Detection) : Alert :=
  {| type := spaghetti_risk;
     message := HighSpaghettiRisk layer;
     value := None;
     confidence := Some (SpaghettiDetector.det_confidence d);
     recommendation := Some (SpaghettiDetector.recommendation d);
     timestamp := now |}.

(** The simulated G-code analysis: up to five random draws, in the order
    of the object literal. *)
Definition simulatedLayer (currentLayer : Z) : Eff SpaghettiDetector.LayerData :=
  overhangs ←
    (if (10 <? currentLayer)%Z
     then r ← SpaghettiDetector.Math_random; mret (inject_Z (Math_floor (r * 3)))
     else mret 0);
  bridges ←
    (if (15 <? currentLayer)%Z
     then r ← SpaghettiDetector.Math_random; mret (inject_Z (Math_floor (r * 2)))
     else mret 0);
  r3 ← SpaghettiDetector.Math_random;
  r4 ← SpaghettiDetector.Math_random;
  r5 ← SpaghettiDetector.Math_random;
  mret {| SpaghettiDetector.overhangs := overhangs;
          SpaghettiDetector.bridges := bridges;
          SpaghettiDetector.smallFeatures := inject_Z (Math_floor (r3 * 5));
          SpaghettiDetector.solidInfill := r4;
          SpaghettiDetector.supportMaterial := gtb r5 0.7 |}.

Definition runSpaghettiDetection (now : Z) (m : t)
  : Eff (SpaghettiDetector.Detection * t) :=
  layerData ← simulatedLayer (currentLayer m);
  (let gcodeAnalysis :=
     {| SpaghettiDetector.layers := Some {[ currentLayer m := layerData ]} |} in
   let cameraData :=
     Some {| SpaghettiDetector.lastSnapshot :=
               Some {| SpaghettiDetector.url := "simulated";
                       SpaghettiDetector.snapshot_timestamp := now |} |} in
   '(detection, detector) ←
     SpaghettiDetector.analyzeCurrentPrint now cameraData
       {| SpaghettiDetector.vibration := Some (vibration (dataBuffer m));
          SpaghettiDetector.temperature := Some (temperature (dataBuffer m));
          SpaghettiDetector.filamentFlow := Some (filamentFlow (dataBuffer m)) |}
       gcodeAnalysis (currentLayer m) (spaghettiDetector m);
   (let m := set_spaghettiDetector detector m in
    let m :=
      if gtb (SpaghettiDetector.det_confidence detection) 0.7
      then set_alerts (alerts m ++ [spaghettiAlert now (currentLayer m) detection]) m
      else m in
    SpaghettiDetector.record_evaluation detection;;
    mret (detection, m))).

(** *** Printer telemetry and layer tracking *)

Definition updateLayerTracking (now : Z) (currentZ : Q) (m : t) : Eff t :=
  let layerHeight := 0.2 in
  let newLayer := Math_floor (currentZ / layerHeight) in
  if (currentLayer m <? newLayer)%Z then
    let m := set_currentLayer newLayer m in
    if (newLayer <=? 5)%Z || (Z.rem newLayer 20 =? 0)%Z
    then '(_, m) ← runSpaghettiDetection now m; mret m
    else mret m
  else mret m.

Definition set_progress (v : Z) (p : PrintSession) : PrintSession :=
  {| id := id p; name := name p; startTime := startTime p; endTime := endTime p;
     status := status p; progress := v |}.

Definition estimateProgress (printerData : PrinterData) (m : t) : t :=
  match currentPrint m, position printerData with
  | Some p, Some pos =>
      let maxZ := 200 in
      let currentZ := z pos in
      let progress := Math_min 100 (currentZ / maxZ * 100) in
      set_currentPrint (Some (set_progress (Math_round progress) p)) m
  | _, _ => m
  end.

Definition updatePrinterData (now : Z) (printerData : PrinterData) (m : t) : Eff t :=
  if negb (isMonitoring m) then mret m
  else
    m ← match position printerData with
        | Some pos =>
            let sample := {| sample_position := pos; sample_timestamp := now |} in
            updateLayerTracking now (z pos)
              (set_dataBuffer (push_positions sample (dataBuffer m)) m)
        | None => mret m
        end;
    (let m :=
       match printer_temperature printerData with
       | Some temp => set_dataBuffer (push_temperature (hotend temp) (dataBuffer m)) m
       | None => m
       end in
     let m := estimateProgress printerData m in
     if (0 <? currentLayer m)%Z && (Z.rem (currentLayer m) 10 =? 0)%Z
     then '(_, m) ← runSpaghettiDetection now m; mret m
     else mret m).

Definition reportSpaghettiOutcome (wasActualSpaghetti : bool) (m : t) : t :=
  set_spaghettiDetector
    (SpaghettiDetector.reportFeedback wasActualSpaghetti (spaghettiDetector m)) m.

Definition getSpaghettiStats (m : t) : SpaghettiDetector.Stats :=
  SpaghettiDetector.getDetectionStats (spaghettiDetector m).

(** *** Runs: sequences of calls made by the two producers and the operator *)

Inductive Call :=
| StartMonitoring (printJob : PrintJob)
| StopMonitoring
| UpdateSensorData (sensorData : SensorData)
| UpdatePrinterData (printerData : PrinterData)
| ReportSpaghettiOutcome (wasActualSpaghetti : bool).

(** One call at wall-clock time [now]. *)
Definition call (now : Z) (c : Call) (m : t) : Eff t :=
  match c with
  | StartMonitoring printJob => mret (fst (startMonitoring now printJob m))
  | StopMonitoring => mret (fst (stopMonitoring now m))
  | UpdateSensorData sensorData => mret (updateSensorData now sensorData m)
  | UpdatePrinterData printerData => updatePrinterData now printerData m
  | ReportSpaghettiOutcome b => mret (reportSpaghettiOutcome b m)
  end.

Fixpoint run (calls : list (Z * Call)) (m : t) : Eff t :=
  match calls with
  | [] => mret m
  | (now, c) :: rest => m ← call now c m; run rest m
  end.

End PrintMonitor.


(** ** Names for the conditions the monitor tests *)

Module Cadence.

Import PrintMonitor.

(** The layer a position at height [currentZ] lies in. *)
Definition layerOf (currentZ : Q) : Z := Math_floor (currentZ / 0.2).

(** The layer-tracker cadence: a new layer up to 5, or a multiple of 20. *)
Definition layerCadence (currentLayer newLayer : Z) : bool :=
  (currentLayer <? newLayer)%Z && ((newLayer <=? 5)%Z || (Z.rem newLayer 20 =? 0)%Z).

(** The cadence checked at the end of [updatePrinterData]. *)
Definition tenthLayerCadence (currentLayer : Z) : bool :=
  (0 <? currentLayer)%Z && (Z.rem currentLayer 10 =? 0)%Z.

(** The layer [updatePrinterData] leaves the monitor in. *)
Definition layerAfter (printerData : PrinterData) (m : t) : Z :=
  match position printerData with
  | Some pos => if (currentLayer m <? layerOf (z pos))%Z
                then layerOf (z pos) else currentLayer m
  | None => currentLayer m
  end.

End Cadence.

(** ** Concrete sessions used in the examples *)

Module Scenarios.

Import PrintMonitor.

(** Random draws that are all 0, and no evaluation recorded yet. *)
Definition quietEnv : SpaghettiDetector.Env :=
  {| SpaghettiDetector.random := fun _ => 0; SpaghettiDetector.evaluations := [] |}.

(** A monitor on which [startMonitoring] was called once, at time 0. *)
Definition freshSession : t :=
  fst (startMonitoring 0 {| job_name := Some "benchy"%string |} constructor).

(** Printer telemetry with the nozzle at height [height]. *)
Definition printerAt (height : Q) : PrinterData :=
  {| position := Some {| x := 10; y := 10; z := height |};
     printer_temperature := Some {| hotend := 210; bed := 60 |} |}.

(** Sensor telemetry with a temperature reading only. *)
Definition temperatureReading (v : Q) : SensorData :=
  {| sensor_temperature := Some v; sensor_vibration := None;
     sensor_filamentFlow := None; sensor_humidity := None |}.

(** [n] calls of the same kind at the times 1, 2, ..., n (milliseconds). *)
Definition repeated (c : Call) (n : nat) : list (Z * Call) :=
  map (fun i => (Z.of_nat i, c)) (seq 1 n).

(** Temperature readings 1, 2, ..., n, one per call. *)
Definition readings (n : nat) : list (Z * Call) :=
  map (fun i => (Z.of_nat i, UpdateSensorData (temperatureReading (inject_Z (Z.of_nat i)))))
      (seq 1 n).

(** A flow history whose last five samples are 450, 460, 455, 440, 30. *)
Definition flowHistory : list Q := [500; 450; 460; 455; 440; 30].

(** A flow history whose last five samples average 42. *)
Definition starvedFlow : list Q := [500; 45; 46; 45; 44; 30].

Definition flowOnly (flow : list Q) : SpaghettiDetector.SensorData :=
  {| SpaghettiDetector.vibration := None;
     SpaghettiDetector.temperature := None;
     SpaghettiDetector.filamentFlow := Some flow |}.

(** A second layer with one small feature and nothing else. *)
Definition layerTwo : SpaghettiDetector.GcodeAnalysis :=
  {| SpaghettiDetector.layers :=
       Some {[ 2%Z := {| SpaghettiDetector.overhangs := 0;
                         SpaghettiDetector.bridges := 0;
                         SpaghettiDetector.smallFeatures := 1;
                         SpaghettiDetector.solidInfill := 0;
                         SpaghettiDetector.supportMaterial := false |} ]} |}.

(** A twelfth layer with two small features and nothing else. *)
Definition layerTwelve : SpaghettiDetector.GcodeAnalysis :=
  {| SpaghettiDetector.layers :=
       Some {[ 12%Z := {| SpaghettiDetector.overhangs := 0;
                          SpaghettiDetector.bridges := 0;
                          SpaghettiDetector.smallFeatures := 2;
                          SpaghettiDetector.solidInfill := 0;
                          SpaghettiDetector.supportMaterial := false |} ]} |}.

(** A hotend that swings between 200 and 220 degrees, and no other channel. *)
Definition swingingTemperature : SpaghettiDetector.SensorData :=
  {| SpaghettiDetector.vibration := None;
     SpaghettiDetector.temperature := Some [200; 200; 220; 200; 220; 200];
     SpaghettiDetector.filamentFlow := None |}.

Definition oneHourOneMinute : Z := 61 * 60 * 1000.

End Scenarios.

(** ** PrintMonitor: the live report *)

Module LiveReport.

Import PrintMonitor.

(** What a call ends in: a returned value or a thrown [TypeError]. *)
Inductive Outcome (A : Type) :=
| Returned (a : A)
| TypeError.
Arguments Returned {A} a.
Arguments TypeError {A}.

Definition andThen {A B : Type} (o : Outcome A) (k : A -> Outcome B) : Outcome B :=
  match o with
  | Returned a => k a
  | TypeError => TypeError
  end.

(** The channel names [getLatestValue] and [getAverageValue] are called
    with. *)
Inductive DataType := temperature_key | vibration_key | filamentFlow_key | humidity_key.

(** [this.dataBuffer[dataType]]: the buffer object has the keys
    [temperature], [vibration], [filamentFlow] and [positions]; any other key
    reads [undefined]. *)
Definition channel (dataType : DataType) (b : DataBuffer) : option (list Q) :=
  match dataType with
  | temperature_key => Some (temperature b)
  | vibration_key => Some (vibration b)
  | filamentFlow_key => Some (filamentFlow b)
  | humidity_key => None
  end.

(** [getLatestValue]: [data.length] on [undefined] throws. *)
Definition getLatestValue (dataType : DataType) (m : t) : Outcome Q :=
  match channel dataType (dataBuffer m) with
  | Some data => Returned (List.last data 0)
  | None => TypeError
  end.

Record LiveReport := {
  live_quality : QualityAnalyzer.QualityReport;
  printId : Z;
  live_progress : Z;
  live_runtime : Z;
  live_alerts : list Alert
}.

(** [generateLiveReport]: [None] is the answer [null]. *)
Definition generateLiveReport (now : Z) (m : t) : Outcome (option LiveReport) :=
  if negb (isMonitoring m) then Returned None
  else
    andThen (getLatestValue temperature_key m) (fun latestTemperature =>
    andThen (getLatestValue humidity_key m) (fun latestHumidity =>
      let report :=
        QualityAnalyzer.generateQualityReport now
          {| QualityAnalyzer.temperatures := Some (temperature (dataBuffer m));
             QualityAnalyzer.temperature_avg := None;
             QualityAnalyzer.bedTemp := None |}
          {| QualityAnalyzer.vibration := Some (vibration (dataBuffer m));
             QualityAnalyzer.filamentFlow := Some (filamentFlow (dataBuffer m));
             QualityAnalyzer.filamentFlow_avg := None;
             QualityAnalyzer.temperature := Some latestTemperature;
             QualityAnalyzer.humidity := Some latestHumidity |}
          [] in
      match currentPrint m with
      | Some p =>
          Returned
            (Some {| live_quality := report;
                     printId := id p;
                     live_progress := progress p;
                     live_runtime := (now - startTime p)%Z;
                     live_alerts := slice_last 10 (alerts m) |})
      | None => TypeError
      end)).

End LiveReport.

(** ** ESP32Manager and the listeners of index.js *)

Module App.

Import PrintMonitor.

(** [ESP32Manager.sensors]: the last value seen on each channel. *)
Record Sensors := {
  temperature : Q;
  humidity : Q;
  vibration : Q;
  filamentFlow : Q
}.

Definition initialSensors : Sensors :=
  {| temperature := 0; humidity := 0; vibration := 0; filamentFlow := 0 |}.

(** [handleESP32Data].  The message is given as [JSON.parse] leaves it:
    [None] when parsing throws (the handler then only logs), otherwise the
    fields of the parsed object.  The result is the new [sensors] and the
    object handed to the listeners, if any. *)
Definition handleESP32Data (data : option SensorData) (sensors : Sensors)
  : Sensors * option Sensors :=
  match data with
  | None => (sensors, None)
  | Some data =>
      let sensors :=
        {| temperature := default (temperature sensors) (sensor_temperature data);
           humidity := default (humidity sensors) (sensor_humidity data);
           vibration := default (vibration sensors) (sensor_vibration data);
           filamentFlow := default (filamentFlow sensors) (sensor_filamentFlow data) |} in
      (sensors, Some sensors)
  end.

(** The [sensors] object as [updateSensorData] reads it: every field is
    defined. *)
Definition asSensorData (sensors : Sensors) : SensorData :=
  {| sensor_temperature := Some (temperature sensors);
     sensor_vibration := Some (vibration sensors);
     sensor_filamentFlow := Some (filamentFlow sensors);
     sensor_humidity := Some (humidity sensors) |}.

Record t := {
  esp32 : Sensors;
  printMonitor : PrintMonitor.t
}.

Definition start : t := {| esp32 := initialSensors; printMonitor := constructor |}.

(** What the two event sources deliver. *)
Inductive Event :=
| Esp32Message (data : option SensorData)
| PrinterConnected
| PrinterLine (data : PrinterData).

(** The listeners registered by [app.start]. *)
Definition handle (now : Z) (e : Event) (a : t) : SpaghettiDetector.Eff t :=
  match e with
  | Esp32Message data =>
      let '(sensors, emitted) := handleESP32Data data (esp32 a) in
      mret {| esp32 := sensors;
              printMonitor :=
                match emitted with
                | Some s => updateSensorData now (asSensorData s) (printMonitor a)
                | None => printMonitor a
                end |}
  | PrinterConnected =>
      mret {| esp32 := esp32 a;
              printMonitor :=
                if negb (isMonitoring (printMonitor a))
                then fst (startMonitoring now
                            {| job_name := Some "Auto-detected print"%string |}
                            (printMonitor a))
                else printMonitor a |}
  | PrinterLine data =>
      m ← updatePrinterData now data (printMonitor a);
      mret {| esp32 := esp32 a; printMonitor := m |}
  end.

Fixpoint handleAll (events : list (Z * Event)) (a : t) : SpaghettiDetector.Eff t :=
  match events with
  | [] => mret a
  | (now, e) :: rest => a ← handle now e a; handleAll rest a
  end.

End App.

(** ** Quantities the properties are stated with *)

Module Observations.

Import PrintMonitor.

(** The highest [Z] value met from [currentZ] on. *)
Definition highestZ (currentZ : Q) (gCodeData : list (option Q)) : Q :=
  fold_left
    (fun cur line =>
       match line with
       | Some newZ => if gtb newZ cur then newZ else cur
       | None => cur
       end)
    gCodeData currentZ.

(** The grades from worst to best. *)
Definition gradeRank (g : QualityAnalyzer.Grade) : nat :=
  match g with
  | QualityAnalyzer.Critical => 0
  | QualityAnalyzer.Poor => 1
  | QualityAnalyzer.Fair => 2
  | QualityAnalyzer.Good => 3
  | QualityAnalyzer.Excellent => 4
  end.

(** The lowest score of a grade's band. *)
Definition gradeFloor (g : QualityAnalyzer.Grade) : option Z :=
  match g with
  | QualityAnalyzer.Critical => None
  | QualityAnalyzer.Poor => Some 60%Z
  | QualityAnalyzer.Fair => Some 70%Z
  | QualityAnalyzer.Good => Some 80%Z
  | QualityAnalyzer.Excellent => Some 90%Z
  end.

(** The score at which the next better grade begins. *)
Definition gradeCeiling (g : QualityAnalyzer.Grade) : option Z :=
  match g with
  | QualityAnalyzer.Critical => Some 60%Z
  | QualityAnalyzer.Poor => Some 70%Z
  | QualityAnalyzer.Fair => Some 80%Z
  | QualityAnalyzer.Good => Some 90%Z
  | QualityAnalyzer.Excellent => None
  end.

(** How often the operator reported the given outcome in a run. *)
Definition reports (outcome : bool) (calls : list (Z * Call)) : nat :=
  length
    (List.filter
       (fun c => match snd c with
                 | ReportSpaghettiOutcome b => Bool.eqb b outcome
                 | _ => false
                 end)
       calls).

(** A session is open: the monitor is monitoring a print in progress. *)
Definition sessionOpen (m : t) : Prop :=
  isMonitoring m = true -> exists p, currentPrint m = Some p /\ status p = printing.

(** A sensor reading inside every alert band. *)
Definition nominal (data : SensorData) : Prop :=
  (forall v, sensor_temperature data = Some v -> 180 <= v <= 250)
  /\ (forall v, sensor_vibration data = Some v -> v <= 80)
  /\ (forall v, sensor_filamentFlow data = Some v -> 100 <= v).

(** A property of the monitor that each step of [updatePrinterData] keeps. *)
Definition keptByUpdateSteps (P : t -> Prop) : Prop :=
  (forall b m, P m -> P (set_dataBuffer b m))
  /\ (forall l m, P m -> P (set_currentLayer l m))
  /\ (forall printerData m, P m -> P (estimateProgress printerData m))
  /\ (forall now m env, P m -> P (snd (fst (runSpaghettiDetection now m env)))).

End Observations.

(** * Properties *)

(** ** Arithmetic of the JavaScript helpers *)

Section JsFacts.

Lemma ltb_lt (a b : Q) : ltb a b = true <-> a < b.
Proof.
  unfold ltb. rewrite negb_true_iff.
  destruct (Qle_bool b a) eqn:E.
  - apply Qle_bool_iff in E. split; [discriminate | intros H; exfalso; lra].
  - split; [intros _ | reflexivity].
    apply Qnot_le_lt. intros H. apply Qle_bool_iff in H. congruence.
Qed.

Lemma ltb_ge (a b : Q) : ltb a b = false <-> b <= a.
Proof.
  split; intros H.
  - apply Qnot_lt_le. intros L. apply ltb_lt in L. congruence.
  - destruct (ltb a b) eqn:E; [apply ltb_lt in E; exfalso; lra | reflexivity].
Qed.

Lemma gtb_gt (a b : Q) : gtb a b = true <-> b < a.
Proof. apply ltb_lt. Qed.

Lemma gtb_le (a b : Q) : gtb a b = false <-> a <= b.
Proof. apply ltb_ge. Qed.

Lemma Math_min_le_r (a b : Q) : Math_min a b <= b.
Proof.
  unfold Math_min. destruct (Qle_bool a b) eqn:E; [now apply Qle_bool_iff | lra].
Qed.

Lemma Math_min_le_l (a b : Q) : Math_min a b <= a.
Proof.
  unfold Math_min. destruct (Qle_bool a b) eqn:E; [lra |].
  apply Qlt_le_weak, Qnot_le_lt. intros H. apply Qle_bool_iff in H. congruence.
Qed.

Lemma Math_min_glb (a b c : Q) : c <= a -> c <= b -> c <= Math_min a b.
Proof. unfold Math_min. now destruct (Qle_bool a b). Qed.

Lemma Math_max_0_nonneg (a : Q) : 0 <= Math_max 0 a.
Proof.
  unfold Math_max. destruct (Qle_bool 0 a) eqn:E; [now apply Qle_bool_iff | lra].
Qed.

Lemma len_nonneg {A : Type} (l : list A) : 0 <= len l.
Proof.
  unfold len. change 0 with (inject_Z 0). rewrite <- Zle_Qle. lia.
Qed.

(** A clamped share [min (c / k) 1] of a positive count lies in [0, 1]. *)
Lemma share_bounds (c k : Q) : 0 < c -> 0 < k -> 0 <= Math_min (c / k) 1 <= 1.
Proof.
  intros Hc Hk. split; [| apply Math_min_le_r].
  apply Math_min_glb; [| lra].
  apply Qle_shift_div_l; lra.
Qed.

(** [min (T / W) 1] for a non-negative total over a positive weight. *)
Lemma ratio_bounds (T W : Q) : 0 <= T -> 0 < W -> 0 <= Math_min (T / W) 1 <= 1.
Proof.
  intros HT HW. split; [| apply Math_min_le_r].
  apply Math_min_glb; [| lra].
  apply Qle_shift_div_l; lra.
Qed.

End JsFacts.

(** ** Risk score and confidence fusion *)

Section RiskAndConfidence.

Import SpaghettiDetector.

(** The score is a clamped ratio of a non-negative total, whatever the
    snapshot and the layer. *)
Lemma calculateRiskScore_bounds (g : GcodeAnalysis) (currentLayer : Z) :
  0 <= calculateRiskScore g currentLayer <= 1.
Proof.
  unfold calculateRiskScore.
  set (ld := layerDataOf g currentLayer).
  destruct (gtb (overhangs ld) 0) eqn:Ho;
    [ apply gtb_gt in Ho;
      pose proof (share_bounds (overhangs ld) 10 Ho ltac:(lra)) as Bo;
      set (so := Math_min (overhangs ld / 10) 1) in * | ];
  (destruct (gtb (bridges ld) 0) eqn:Hb;
    [ apply gtb_gt in Hb;
      pose proof (share_bounds (bridges ld) 5 Hb ltac:(lra)) as Bb;
      set (sb := Math_min (bridges ld / 5) 1) in * | ]);
  (destruct (gtb (smallFeatures ld) 0) eqn:Hs;
    [ apply gtb_gt in Hs;
      pose proof (share_bounds (smallFeatures ld) 20 Hs ltac:(lra)) as Bs;
      set (ss := Math_min (smallFeatures ld / 20) 1) in * | ]);
  destruct (currentLayer <=? 3)%Z; cbn [weight riskZones_overhangs riskZones_bridges
    riskZones_smallFeatures riskZones_firstLayers safeZones_solidInfill safeZones_supported];
  destruct (gtb (solidInfill ld) 0.8); destruct (supportMaterial ld);
  match goal with
  | |- context [if gtb ?w 0 then _ else _] =>
      destruct (gtb w 0) eqn:Hw; [apply gtb_gt in Hw | lra]
  end;
  apply ratio_bounds; lra.
Qed.

Lemma getHistoricalAccuracy_bounds (d : t) : 0 <= getHistoricalAccuracy d <= 1.
Proof.
  unfold getHistoricalAccuracy.
  destruct (truePositives d + falsePositives d =? 0)%nat eqn:E; [lra |].
  apply Nat.eqb_neq in E.
  assert (Hpos : 0 < inject_Z (Z.of_nat (truePositives d + falsePositives d))).
  { change 0 with (inject_Z 0). rewrite <- Zlt_Qlt. lia. }
  assert (Htp : 0 <= inject_Z (Z.of_nat (truePositives d))).
  { change 0 with (inject_Z 0). rewrite <- Zle_Qle. lia. }
  assert (Hle : inject_Z (Z.of_nat (truePositives d))
                <= inject_Z (Z.of_nat (truePositives d + falsePositives d))).
  { rewrite <- Zle_Qle. lia. }
  split.
  - apply Qle_shift_div_l; lra.
  - apply Qle_shift_div_r; lra.
Qed.

Lemma calculateConfidence_bounds (d : t) (riskScore : Q) (sensorAlerts : list Alert)
    (visualAnalysis : VisualAnalysis) :
  0 <= riskScore ->
  0 <= visual_confidence visualAnalysis ->
  0 <= calculateConfidence d riskScore sensorAlerts visualAnalysis <= 1.
Proof.
  intros Hr Hv. unfold calculateConfidence.
  split; [| apply Math_min_le_r].
  apply Math_min_glb; [| lra].
  pose proof (getHistoricalAccuracy_bounds d) as [Ha _].
  pose proof (len_nonneg (List.filter (has_severity high) sensorAlerts)) as Hh.
  pose proof (len_nonneg (List.filter (has_severity medium) sensorAlerts)) as Hm.
  apply Qmult_le_0_compat; lra.
Qed.

(** C1.  For every structural snapshot with non-negative overhang, bridge and
    small-feature counts and a solid-infill fraction in [0,1], every layer,
    every set of sensor windows, every external visual confidence in [0,1]
    and every pair of feedback counters, the risk score of
    [calculateRiskScore] lies in [0,1] and so does the fused confidence of
    [calculateConfidence].  (The counters are naturals; the bounds on the
    snapshot are the claim's and are not needed by the proof.) *)
Theorem C1_risk_and_confidence_in_unit_interval
    (snapshot : LayerData) (currentLayer : Z) (sensorData : SensorData)
    (visualAnalysis : VisualAnalysis) (truePos falsePos : nat)
    (history : list Detection) :
  0 <= overhangs snapshot ->
  0 <= bridges snapshot ->
  0 <= smallFeatures snapshot ->
  0 <= solidInfill snapshot <= 1 ->
  0 <= visual_confidence visualAnalysis <= 1 ->
  let gcodeAnalysis := {| layers := Some {[ currentLayer := snapshot ]} |} in
  let detector :=
    {| detectionHistory := history; falsePositives := falsePos;
       truePositives := truePos |} in
  let riskScore := calculateRiskScore gcodeAnalysis currentLayer in
  (0 <= riskScore <= 1)
  /\ 0 <= calculateConfidence detector riskScore
            (analyzeSensorPatterns sensorData) visualAnalysis <= 1.
Proof.
  intros _ _ _ _ [Hv _] gcodeAnalysis detector riskScore.
  pose proof (calculateRiskScore_bounds gcodeAnalysis currentLayer) as Hr.
  split; [exact Hr |].
  apply calculateConfidence_bounds; [apply Hr | exact Hv].
Qed.

End RiskAndConfidence.

(** ** Sensor anomaly scan and recommendation policy *)

Section ScanAndPolicy.

Import SpaghettiDetector.

Lemma generateRecommendation_immediate (riskScore : Q) (sensorAlerts : list Alert) :
  gtb riskScore 0.8 || existsb (has_severity high) sensorAlerts = true ->
  action (generateRecommendation riskScore sensorAlerts) = immediate_intervention
  /\ urgency (generateRecommendation riskScore sensorAlerts) = high.
Proof. intros H. unfold generateRecommendation. rewrite H. now split. Qed.

Lemma generateRecommendation_monitor (riskScore : Q) (sensorAlerts : list Alert) :
  gtb riskScore 0.8 || existsb (has_severity high) sensorAlerts = false ->
  gtb riskScore 0.5 = true ->
  action (generateRecommendation riskScore sensorAlerts) = monitor_closely
  /\ urgency (generateRecommendation riskScore sensorAlerts) = medium.
Proof. intros H1 H2. unfold generateRecommendation. rewrite H1, H2. now split. Qed.

Lemma generateRecommendation_continue (riskScore : Q) (sensorAlerts : list Alert) :
  gtb riskScore 0.8 || existsb (has_severity high) sensorAlerts = false ->
  gtb riskScore 0.5 = false ->
  action (generateRecommendation riskScore sensorAlerts) = continue_monitoring
  /\ urgency (generateRecommendation riskScore sensorAlerts) = low.
Proof. intros H1 H2. unfold generateRecommendation. rewrite H1, H2. now split. Qed.

Lemma has_severity_spec (s : Severity) (a : Alert) :
  has_severity s a = true <-> severity a = s.
Proof.
  unfold has_severity. destruct (severity a), s; cbn; split; congruence.
Qed.

Lemma existsb_high_spec (sensorAlerts : list Alert) :
  existsb (has_severity high) sensorAlerts = true
  <-> exists a, In a sensorAlerts /\ severity a = high.
Proof.
  rewrite existsb_exists. split; intros [a [Hin Ha]]; exists a;
    (split; [exact Hin | now apply has_severity_spec]).
Qed.

Lemma no_high_filter_nil (sensorAlerts : list Alert) :
  existsb (has_severity high) sensorAlerts = false ->
  List.filter (has_severity high) sensorAlerts = [].
Proof.
  induction sensorAlerts as [| a l IH]; [reflexivity |].
  cbn. destruct (has_severity high a); [discriminate |]. exact IH.
Qed.

(** The scan yields a sub-sequence of the four alerts, in a fixed order. *)
Lemma analyzeSensorPatterns_shape (sensorData : SensorData) :
  exists b1 b2 b3 b4 : bool,
    analyzeSensorPatterns sensorData =
      (if b1 then [vibrationAlert] else []) ++ (if b2 then [temperatureAlert] else [])
      ++ (if b3 then [lowFlowAlert] else []) ++ (if b4 then [erraticFlowAlert] else []).
Proof.
  unfold analyzeSensorPatterns.
  destruct (longer_than 10 (vibration sensorData)) as [vs |];
  [ match goal with |- context [if ?c then [] ++ _ else _] => destruct c end | ];
  (destruct (longer_than 5 (temperature sensorData)) as [ts |];
   [ destruct (gtb (calculateVariation (slice_last 5 ts)) 8) | ]);
  (destruct (longer_than 5 (filamentFlow sensorData)) as [fs |];
   [ destruct (ltb (sum (slice_last 5 fs) / len (slice_last 5 fs)) 100);
     destruct (gtb (calculateVariation (slice_last 5 fs))
                 (sum (slice_last 5 fs) / len (slice_last 5 fs) * 0.5)) | ]);
  cbn [app];
  first
    [ now exists true, true, true, true | now exists true, true, true, false
    | now exists true, true, false, true | now exists true, true, false, false
    | now exists true, false, true, true | now exists true, false, true, false
    | now exists true, false, false, true | now exists true, false, false, false
    | now exists false, true, true, true | now exists false, true, true, false
    | now exists false, true, false, true | now exists false, true, false, false
    | now exists false, false, true, true | now exists false, false, true, false
    | now exists false, false, false, true | now exists false, false, false, false ].
Qed.

Lemma analyzeSensorPatterns_medium_count (sensorData : SensorData) :
  len (List.filter (has_severity medium) (analyzeSensorPatterns sensorData)) <= 2.
Proof.
  destruct (analyzeSensorPatterns_shape sensorData) as (b1 & b2 & b3 & b4 & ->).
  destruct b1, b2, b3, b4; vm_compute; discriminate.
Qed.

Lemma analyzeVisualPatterns_bounds (cameraData : option CameraData) (env : Env) :
  0 <= visual_confidence (fst (analyzeVisualPatterns cameraData env)) <= 0.85.
Proof.
  unfold analyzeVisualPatterns.
  destruct cameraData as [[[s |]] |]; try (cbn; lra).
  unfold mbind, Eff_bind, Math_random, mret, Eff_ret.
  destruct (gtb (random env 0%nat) 0.8), (gtb (random env 0%nat) 0.9);
    vm_compute; split; discriminate.
Qed.

(** Without a high-severity alert the fused confidence cannot exceed 0.8. *)
Lemma confidence_without_high_alert (d : t) (riskScore : Q) (sensorAlerts : list Alert)
    (visualAnalysis : VisualAnalysis) :
  0 <= riskScore <= 1 ->
  0 <= visual_confidence visualAnalysis <= 0.85 ->
  len (List.filter (has_severity medium) sensorAlerts) <= 2 ->
  existsb (has_severity high) sensorAlerts = false ->
  calculateConfidence d riskScore sensorAlerts visualAnalysis <= 0.8.
Proof.
  intros Hr Hv Hm Hh. unfold calculateConfidence.
  rewrite (no_high_filter_nil _ Hh).
  pose proof (len_nonneg (List.filter (has_severity medium) sensorAlerts)) as Hm0.
  pose proof (getHistoricalAccuracy_bounds d) as Ha.
  set (acc := getHistoricalAccuracy d) in *.
  set (m := len (List.filter (has_severity medium) sensorAlerts)) in *.
  set (v := visual_confidence visualAnalysis) in *.
  change (len (@nil Alert)) with 0.
  eapply Qle_trans; [apply Math_min_le_l |].
  set (base := riskScore * 0.4 + (0 * 0.3 + m * 0.1) + v * 0.2).
  assert (Hb : 0 <= base <= 0.8) by (unfold base; lra).
  assert (Hprod : base * acc <= base * 1).
  { rewrite (Qmult_comm base acc), (Qmult_comm base 1).
    apply Qmult_le_compat_r; lra. }
  lra.
Qed.

End ScanAndPolicy.

Section Evaluation.

Import SpaghettiDetector.

(** What an evaluation reports of the score, the scan and the policy. *)
Lemma analyzeCurrentPrint_policy
    (now : Z) (cameraData : option CameraData) (sensorData : SensorData)
    (gcodeAnalysis : GcodeAnalysis) (currentLayer : Z) (d : t) (env : Env) :
  let detection :=
    fst (fst (analyzeCurrentPrint now cameraData sensorData gcodeAnalysis currentLayer d env)) in
  riskScore detection = calculateRiskScore gcodeAnalysis currentLayer
  /\ alerts detection = analyzeSensorPatterns sensorData
  /\ recommendation detection
     = generateRecommendation (calculateRiskScore gcodeAnalysis currentLayer)
         (analyzeSensorPatterns sensorData).
Proof.
  unfold analyzeCurrentPrint, mbind, Eff_bind.
  destruct (analyzeVisualPatterns cameraData env) as [va env1].
  cbn [fst snd mret Eff_ret alerts riskScore recommendation]. auto.
Qed.

(** C6, as the code has it.  For every evaluation ([analyzeCurrentPrint] on
    any camera data, sensor windows, structural analysis, layer, detector
    state and random draws): if the risk score exceeds 0.8 or a
    high-severity sensor alert is present, the recommendation is
    [immediate_intervention] with urgency high; otherwise, if the risk score
    exceeds 0.5, it is [monitor_closely] with urgency medium; otherwise it is
    [continue_monitoring] with urgency low.  The fused confidence is not
    consulted: the recommendation is the same whatever the camera data, the
    detector's history and feedback counters, the clock and the random
    draws. *)
Theorem C6_recommendation_policy
    (now : Z) (cameraData : option CameraData) (sensorData : SensorData)
    (gcodeAnalysis : GcodeAnalysis) (currentLayer : Z) (d : t) (env : Env) :
  let detection :=
    fst (fst (analyzeCurrentPrint now cameraData sensorData gcodeAnalysis currentLayer d env)) in
  let highAlert := exists a, In a (alerts detection) /\ severity a = high in
  let r := recommendation detection in
  (0.8 < riskScore detection \/ highAlert ->
   action r = immediate_intervention /\ urgency r = high)
  /\ (~ 0.8 < riskScore detection -> ~ highAlert -> 0.5 < riskScore detection ->
      action r = monitor_closely /\ urgency r = medium)
  /\ (~ 0.8 < riskScore detection -> ~ highAlert -> ~ 0.5 < riskScore detection ->
      action r = continue_monitoring /\ urgency r = low)
  /\ (forall (now' : Z) (cameraData' : option CameraData) (d' : t) (env' : Env),
         recommendation
           (fst (fst (analyzeCurrentPrint now' cameraData' sensorData gcodeAnalysis
                        currentLayer d' env')))
         = r).
Proof.
  intros detection highAlert r.
  destruct (analyzeCurrentPrint_policy now cameraData sensorData gcodeAnalysis
              currentLayer d env) as (Hrisk & Halerts & Hrec).
  fold detection in Hrisk, Halerts, Hrec. fold r in Hrec.
  unfold highAlert. rewrite Hrisk, Halerts, Hrec.
  set (risk := calculateRiskScore gcodeAnalysis currentLayer).
  set (sensorAlerts := analyzeSensorPatterns sensorData).
  assert (Hsame : forall (now' : Z) (cameraData' : option CameraData) (d' : t)
                         (env' : Env),
             recommendation
               (fst (fst (analyzeCurrentPrint now' cameraData' sensorData gcodeAnalysis
                            currentLayer d' env')))
             = generateRecommendation risk sensorAlerts).
  { intros now' cameraData' d' env'.
    apply (analyzeCurrentPrint_policy now' cameraData' sensorData gcodeAnalysis
             currentLayer d' env'). }
  destruct (gtb risk 0.8 || existsb (has_severity high) sensorAlerts) eqn:Hu.
  - split; [intros _; now apply generateRecommendation_immediate |].
    apply orb_true_iff in Hu.
    split; [| split]; [| | exact Hsame];
      (destruct Hu as [Hu | Hu];
       [ apply gtb_gt in Hu; intros Hn; contradiction
       | apply existsb_high_spec in Hu; intros _ Hn; contradiction ]).
  - pose proof Hu as Hu'. apply orb_false_iff in Hu'. destruct Hu' as [Hlow Hhigh].
    apply gtb_le in Hlow.
    split; [| split; [| split]].
    + intros [H | H]; [lra |].
      apply existsb_high_spec in H. congruence.
    + intros _ _ H. apply generateRecommendation_monitor; [exact Hu | now apply gtb_gt].
    + intros _ _ H. apply generateRecommendation_continue; [exact Hu |].
      apply gtb_le. now apply Qnot_lt_le.
    + exact Hsame.
Qed.

(** Offers a split of the scan's result around the flow alert. *)
Local Ltac split_alerts pre post := exists pre, post; split; [reflexivity |].

(** C4, as the code has it.  Over a flow history of more than five samples
    the scan raises the [low_flow] alert (severity high, confidence 0.9)
    exactly when the mean of the last five samples is below 100, and with
    that alert the recommendation is [immediate_intervention] whatever the
    risk score, hence at layer 2 as at any other layer. *)
Theorem C4_low_flow_alert (sensorData : SensorData) (flow : list Q) :
  filamentFlow sensorData = Some flow ->
  (5 < length flow)%nat ->
  let recentFlow := slice_last 5 flow in
  let avgFlow := sum recentFlow / len recentFlow in
  let sensorAlerts := analyzeSensorPatterns sensorData in
  (avgFlow < 100 ->
   (exists a, In a sensorAlerts /\ type a = low_flow /\ severity a = high
              /\ confidence a == 0.9)
   /\ forall riskScore,
        action (generateRecommendation riskScore sensorAlerts) = immediate_intervention)
  /\ (100 <= avgFlow -> forall a, In a sensorAlerts -> type a <> low_flow).
Proof.
  intros Hflow Hlen recentFlow avgFlow sensorAlerts.
  assert (Hl : longer_than 5 (filamentFlow sensorData) = Some flow).
  { rewrite Hflow. unfold longer_than.
    destruct (5 <? length flow)%nat eqn:E; [reflexivity |].
    apply Nat.ltb_ge in E. lia. }
  assert (Hshape : exists pre post,
             sensorAlerts
             = pre ++ (if ltb avgFlow 100 then [lowFlowAlert] else []) ++ post
             /\ (forall a, In a pre \/ In a post -> type a <> low_flow)).
  { unfold sensorAlerts, analyzeSensorPatterns. rewrite Hl.
    fold recentFlow. fold avgFlow.
    destruct (longer_than 10 (vibration sensorData)) as [vs |];
    [ match goal with |- context [if ?c then [] ++ _ else _] => destruct c end | ];
    (destruct (longer_than 5 (temperature sensorData)) as [ts |];
     [ destruct (gtb (calculateVariation (slice_last 5 ts)) 8) | ]);
    destruct (ltb avgFlow 100);
    destruct (gtb (calculateVariation recentFlow) (avgFlow * 0.5));
    cbn [app];
    first
      [ split_alerts (@nil Alert) (@nil Alert)
      | split_alerts (@nil Alert) [erraticFlowAlert]
      | split_alerts [vibrationAlert] (@nil Alert)
      | split_alerts [vibrationAlert] [erraticFlowAlert]
      | split_alerts [temperatureAlert] (@nil Alert)
      | split_alerts [temperatureAlert] [erraticFlowAlert]
      | split_alerts [vibrationAlert; temperatureAlert] (@nil Alert)
      | split_alerts [vibrationAlert; temperatureAlert] [erraticFlowAlert] ];
    intros a [Ha | Ha]; cbn in Ha; intuition (subst; discriminate). }
  destruct Hshape as (pre & post & -> & Hother).
  split.
  - intros Havg. apply ltb_lt in Havg. rewrite Havg.
    split.
    + exists lowFlowAlert. split; [| cbn; repeat split; reflexivity].
      apply in_or_app. right. now left.
    + intros riskScore. apply generateRecommendation_immediate.
      apply orb_true_iff. right. apply existsb_high_spec.
      exists lowFlowAlert. split; [| reflexivity].
      apply in_or_app. right. now left.
  - intros Havg a Hin. apply ltb_ge in Havg. rewrite Havg in Hin.
    apply in_app_or in Hin. destruct Hin as [Hin | Hin]; [now apply Hother; left |].
    now apply Hother; right.
Qed.

(** C7, as the code has it.  [reportFeedback] has no failure path: on every
    detector state, with or without earlier detections, it increments
    [truePositives] (on [true]) or [falsePositives] (on [false]) by one and
    leaves the other counter and the detection history as they were. *)
Theorem C7_reportFeedback_always_counts (wasActualSpaghetti : bool) (d : t) :
  detectionHistory (reportFeedback wasActualSpaghetti d) = detectionHistory d
  /\ truePositives (reportFeedback wasActualSpaghetti d)
     = (if wasActualSpaghetti then S (truePositives d) else truePositives d)
  /\ falsePositives (reportFeedback wasActualSpaghetti d)
     = (if wasActualSpaghetti then falsePositives d else S (falsePositives d)).
Proof. destruct wasActualSpaghetti; cbn; auto. Qed.

End Evaluation.

(** ** Effects of one evaluation on the monitor *)

Section MonitorFrames.

Import PrintMonitor.

Abbreviation evaluations := SpaghettiDetector.evaluations.

Lemma Math_random_evaluations (env : SpaghettiDetector.Env) :
  evaluations (snd (SpaghettiDetector.Math_random env)) = evaluations env.
Proof. reflexivity. Qed.

Lemma simulatedLayer_evaluations (currentLayer : Z) (env : SpaghettiDetector.Env) :
  evaluations (snd (simulatedLayer currentLayer env)) = evaluations env.
Proof.
  unfold simulatedLayer, mbind, SpaghettiDetector.Eff_bind, mret, SpaghettiDetector.Eff_ret.
  destruct (10 <? currentLayer)%Z, (15 <? currentLayer)%Z; reflexivity.
Qed.

Lemma analyzeVisualPatterns_evaluations
    (cameraData : option SpaghettiDetector.CameraData) (env : SpaghettiDetector.Env) :
  evaluations (snd (SpaghettiDetector.analyzeVisualPatterns cameraData env))
  = evaluations env.
Proof.
  unfold SpaghettiDetector.analyzeVisualPatterns.
  destruct cameraData as [[[s |]] |]; reflexivity.
Qed.

Lemma analyzeCurrentPrint_evaluations now cameraData sensorData gcodeAnalysis layer d env :
  evaluations
    (snd (SpaghettiDetector.analyzeCurrentPrint now cameraData sensorData gcodeAnalysis
            layer d env))
  = evaluations env.
Proof.
  unfold SpaghettiDetector.analyzeCurrentPrint, mbind, SpaghettiDetector.Eff_bind.
  pose proof (analyzeVisualPatterns_evaluations cameraData env) as H.
  destruct (SpaghettiDetector.analyzeVisualPatterns cameraData env) as [va e1].
  exact H.
Qed.

(** One evaluation records exactly one detection, may append one alert, and
    leaves the layer, the monitoring flag, the session and the buffers alone. *)
Lemma runSpaghettiDetection_frame (now : Z) (m : t) (env : SpaghettiDetector.Env) :
  let '((detection, m'), env') := runSpaghettiDetection now m env in
  currentLayer m' = currentLayer m
  /\ isMonitoring m' = isMonitoring m
  /\ currentPrint m' = currentPrint m
  /\ dataBuffer m' = dataBuffer m
  /\ (alerts m' = alerts m
      \/ alerts m' = alerts m ++ [spaghettiAlert now (currentLayer m) detection])
  /\ evaluations env' = evaluations env ++ [detection].
Proof.
  unfold runSpaghettiDetection, mbind, SpaghettiDetector.Eff_bind.
  pose proof (simulatedLayer_evaluations (currentLayer m) env) as H1.
  destruct (simulatedLayer (currentLayer m) env) as [layerData e1].
  match goal with
  | |- context [SpaghettiDetector.analyzeCurrentPrint ?a ?b ?c ?d ?e ?f e1] =>
      pose proof (analyzeCurrentPrint_evaluations a b c d e f e1) as H2;
      destruct (SpaghettiDetector.analyzeCurrentPrint a b c d e f e1)
        as [[detection detector] e2]
  end.
  cbn [fst snd] in *.
  destruct (gtb (SpaghettiDetector.det_confidence detection) 0.7);
    cbn; rewrite H2, H1; repeat split; auto.
Qed.

End MonitorFrames.

(** ** Layer tracking and the evaluation cadences *)

Section LayerTracking.

Import PrintMonitor Cadence.

Abbreviation evaluations := SpaghettiDetector.evaluations.

Lemma updateLayerTracking_spec (now : Z) (currentZ : Q) (m : t)
    (env : SpaghettiDetector.Env) :
  let newLayer := layerOf currentZ in
  let '(m', env') := updateLayerTracking now currentZ m env in
  currentLayer m' = (if (currentLayer m <? newLayer)%Z then newLayer else currentLayer m)
  /\ isMonitoring m' = isMonitoring m
  /\ currentPrint m' = currentPrint m
  /\ dataBuffer m' = dataBuffer m
  /\ exists fired,
       evaluations env' = evaluations env ++ fired
       /\ length fired = (if layerCadence (currentLayer m) newLayer then 1 else 0)%nat.
Proof.
  unfold updateLayerTracking, layerCadence, layerOf.
  set (newLayer := Math_floor (currentZ / 0.2)).
  destruct (currentLayer m <? newLayer)%Z; cbn [andb].
  - destruct ((newLayer <=? 5)%Z || (Z.rem newLayer 20 =? 0)%Z).
    + unfold mbind, SpaghettiDetector.Eff_bind.
      pose proof (runSpaghettiDetection_frame now (set_currentLayer newLayer m) env) as H.
      destruct (runSpaghettiDetection now (set_currentLayer newLayer m) env)
        as [[detection m'] env'].
      destruct H as (Hl & Hm & Hp & Hb & _ & He). cbn in *.
      repeat split; trivial. now exists [detection].
    + cbn. repeat split; trivial. exists []. now rewrite app_nil_r.
  - cbn. repeat split; trivial. exists []. now rewrite app_nil_r.
Qed.

(** A position that does not lie above the current layer changes nothing. *)
Lemma updateLayerTracking_idle (now : Z) (currentZ : Q) (m : t)
    (env : SpaghettiDetector.Env) :
  (layerOf currentZ <= currentLayer m)%Z ->
  updateLayerTracking now currentZ m env = (m, env).
Proof.
  intros H. unfold updateLayerTracking. fold (layerOf currentZ).
  destruct (currentLayer m <? layerOf currentZ)%Z eqn:E; [| reflexivity].
  apply Z.ltb_lt in E. lia.
Qed.

Lemma estimateProgress_frame (printerData : PrinterData) (m : t) :
  currentLayer (estimateProgress printerData m) = currentLayer m
  /\ isMonitoring (estimateProgress printerData m) = isMonitoring m
  /\ dataBuffer (estimateProgress printerData m) = dataBuffer m
  /\ alerts (estimateProgress printerData m) = alerts m
  /\ spaghettiDetector (estimateProgress printerData m) = spaghettiDetector m.
Proof.
  unfold estimateProgress.
  destruct (currentPrint m), (position printerData); cbn; auto.
Qed.

(** The part of [updatePrinterData] after layer tracking, from a monitor
    [m1] that monitors, in an environment [e1] whose record of evaluations
    has grown by [fired1]. *)
Local Ltac update_tail clock m1 e1 fired1 :=
  match goal with
  | Hl : currentLayer m1 = _, Hm : isMonitoring m1 = true,
    He1 : evaluations e1 = _ ++ fired1, Hn1 : length fired1 = _
    |- context [estimateProgress ?pd ?m2] =>
      let Hl2 := fresh "Hl2" in
      let Hl3 := fresh "Hl3" in
      let Hm3 := fresh "Hm3" in
      let H := fresh "Hframe" in
      let Ha := fresh "Hlayer" in
      let Hb := fresh "Hmon" in
      assert (Hl2 : currentLayer m2 = currentLayer m1 /\ isMonitoring m2 = isMonitoring m1)
        by (now destruct (printer_temperature pd));
      pose proof (estimateProgress_frame pd m2) as (Hl3 & Hm3 & _);
      destruct Hl2 as [Ha Hb];
      fold (tenthLayerCadence (currentLayer (estimateProgress pd m2)));
      replace (currentLayer (estimateProgress pd m2)) with (currentLayer m1) by congruence;
      try rewrite Hl;
      match goal with
      | |- context [if tenthLayerCadence ?l then _ else _] =>
          destruct (tenthLayerCadence l)
      end;
      [ pose proof (runSpaghettiDetection_frame clock (estimateProgress pd m2) e1) as H;
        let det := fresh "detection" in
        let He2 := fresh "He2" in
        destruct (runSpaghettiDetection clock (estimateProgress pd m2) e1)
          as [[det ?m4] ?e2];
        destruct H as (? & ? & _ & _ & _ & He2);
        unfold mret, SpaghettiDetector.Eff_ret; cbv beta iota;
        split; [congruence | split; [congruence |]];
        exists (fired1 ++ [det]); split;
        [ rewrite He2; rewrite He1 at 1; now rewrite app_assoc
        | rewrite length_app, Hn1; reflexivity ]
      | unfold mret, SpaghettiDetector.Eff_ret; cbv beta iota;
        split; [congruence | split; [congruence |]];
        exists fired1; split; [exact He1 | lia] ]
  end.

Lemma updatePrinterData_spec (now : Z) (printerData : PrinterData) (m : t)
    (env : SpaghettiDetector.Env) :
  isMonitoring m = true ->
  let '(m', env') := updatePrinterData now printerData m env in
  currentLayer m' = layerAfter printerData m
  /\ isMonitoring m' = true
  /\ exists fired,
       evaluations env' = evaluations env ++ fired
       /\ length fired =
          ((if match position printerData with
               | Some pos => layerCadence (currentLayer m) (layerOf (z pos))
               | None => false
               end then 1 else 0)
           + (if tenthLayerCadence (layerAfter printerData m) then 1 else 0))%nat.
Proof.
  intros Hmon. unfold updatePrinterData. rewrite Hmon. cbn [negb].
  unfold mbind, SpaghettiDetector.Eff_bind, layerAfter.
  destruct (position printerData) as [pos |].
  - match goal with
    | |- context [updateLayerTracking now (z pos) ?m0 env] =>
        pose proof (updateLayerTracking_spec now (z pos) m0 env) as H;
        destruct (updateLayerTracking now (z pos) m0 env) as [m1 e1]
    end.
    cbv zeta in H. cbn [set_dataBuffer currentLayer isMonitoring] in H.
    destruct H as (Hl & Hm & _ & _ & fired1 & He1 & Hn1).
    rewrite Hmon in Hm.
    update_tail now m1 e1 fired1.
  - cbn [mret SpaghettiDetector.Eff_ret].
    assert (He1 : evaluations env = evaluations env ++ []) by now rewrite app_nil_r.
    assert (Hn1 : length (@nil SpaghettiDetector.Detection) = 0%nat) by reflexivity.
    assert (Hl : currentLayer m = currentLayer m) by reflexivity.
    update_tail now m env (@nil SpaghettiDetector.Detection).
Qed.

End LayerTracking.

(** ** Runs of the monitor *)

Section MonitorRuns.

Import PrintMonitor Cadence.

Abbreviation evaluations := SpaghettiDetector.evaluations.

Lemma updatePrinterData_idle (now : Z) (printerData : PrinterData) (m : t)
    (env : SpaghettiDetector.Env) :
  isMonitoring m = false -> updatePrinterData now printerData m env = (m, env).
Proof. intros H. unfold updatePrinterData. now rewrite H. Qed.

Lemma updateSensorData_currentLayer (now : Z) (sensorData : SensorData) (m : t) :
  currentLayer (updateSensorData now sensorData m) = currentLayer m.
Proof. unfold updateSensorData. now destruct (isMonitoring m). Qed.

Lemma stopMonitoring_currentLayer (now : Z) (m : t) :
  currentLayer (fst (stopMonitoring now m)) = currentLayer m.
Proof. unfold stopMonitoring. now destruct (currentPrint m). Qed.

Lemma layerAfter_ge (printerData : PrinterData) (m : t) :
  (currentLayer m <= layerAfter printerData m)%Z.
Proof.
  unfold layerAfter. destruct (position printerData) as [pos |]; [| lia].
  destruct (currentLayer m <? layerOf (z pos))%Z eqn:E; [| lia].
  apply Z.ltb_lt in E. lia.
Qed.

Lemma call_currentLayer (now : Z) (c : Call) (m : t) (env : SpaghettiDetector.Env) :
  (currentLayer m <= currentLayer (fst (call now c m env)))%Z.
Proof.
  destruct c as [printJob | | sensorData | printerData | b]; cbn [call].
  - cbn. lia.
  - cbn [mret SpaghettiDetector.Eff_ret fst]. rewrite stopMonitoring_currentLayer. lia.
  - cbn [mret SpaghettiDetector.Eff_ret fst]. rewrite updateSensorData_currentLayer. lia.
  - destruct (isMonitoring m) eqn:Hmon.
    + pose proof (updatePrinterData_spec now printerData m env Hmon) as H.
      destruct (updatePrinterData now printerData m env) as [m' env'].
      destruct H as [H _]. cbn [fst]. rewrite H. apply layerAfter_ge.
    + rewrite updatePrinterData_idle by exact Hmon. cbn. lia.
  - cbn. lia.
Qed.

Lemma run_currentLayer (calls : list (Z * Call)) (m : t) (env : SpaghettiDetector.Env) :
  (currentLayer m <= currentLayer (fst (run calls m env)))%Z.
Proof.
  revert m env. induction calls as [| [now c] rest IH]; intros m env.
  - cbn. lia.
  - cbn [run]. unfold mbind, SpaghettiDetector.Eff_bind.
    pose proof (call_currentLayer now c m env) as H.
    destruct (call now c m env) as [m1 e1]. cbn [fst] in H.
    specialize (IH m1 e1). lia.
Qed.

(** C8.  The layer index never goes down.  [updateLayerTracking] moves
    [currentLayer] to [floor (z / layerHeight)] exactly when that value is
    strictly greater, and keeps it otherwise, also when [z] has dropped; and
    along every sequence of calls to the monitor (position updates, sensor
    updates, starts, stops, feedback) [currentLayer] is non-decreasing. *)
Theorem C8_currentLayer_monotonic :
  (forall (now : Z) (currentZ : Q) (m : t) (env : SpaghettiDetector.Env),
      currentLayer (fst (updateLayerTracking now currentZ m env))
      = (if (currentLayer m <? Math_floor (currentZ / 0.2))%Z
         then Math_floor (currentZ / 0.2) else currentLayer m))
  /\ (forall (calls : list (Z * Call)) (m : t) (env : SpaghettiDetector.Env),
         (currentLayer m <= currentLayer (fst (run calls m env)))%Z).
Proof.
  split.
  - intros now currentZ m env.
    pose proof (updateLayerTracking_spec now currentZ m env) as H.
    destruct (updateLayerTracking now currentZ m env) as [m' env'].
    destruct H as [H _]. exact H.
  - apply run_currentLayer.
Qed.

(** An accepted printer update whose position is not above the current
    layer leaves the layer where it is; only the tenth-layer check can then
    fire an evaluation. *)
Lemma updatePrinterData_below (now : Z) (printerData : PrinterData) (m : t)
    (env : SpaghettiDetector.Env) :
  isMonitoring m = true ->
  (forall pos, position printerData = Some pos -> (layerOf (z pos) <= currentLayer m)%Z) ->
  let '(m', env') := updatePrinterData now printerData m env in
  currentLayer m' = currentLayer m
  /\ isMonitoring m' = true
  /\ exists fired,
       evaluations env' = evaluations env ++ fired
       /\ length fired = (if tenthLayerCadence (currentLayer m) then 1 else 0)%nat.
Proof.
  intros Hmon Hbelow.
  pose proof (updatePrinterData_spec now printerData m env Hmon) as H.
  destruct (updatePrinterData now printerData m env) as [m' env'].
  assert (Hafter : layerAfter printerData m = currentLayer m).
  { unfold layerAfter. destruct (position printerData) as [pos |]; [| reflexivity].
    specialize (Hbelow pos eq_refl).
    destruct (currentLayer m <? layerOf (z pos))%Z eqn:E; [| reflexivity].
    apply Z.ltb_lt in E. lia. }
  assert (Hcad : match position printerData with
                 | Some pos => layerCadence (currentLayer m) (layerOf (z pos))
                 | None => false
                 end = false).
  { destruct (position printerData) as [pos |]; [| reflexivity].
    specialize (Hbelow pos eq_refl). unfold layerCadence.
    destruct (currentLayer m <? layerOf (z pos))%Z eqn:E; [| reflexivity].
    apply Z.ltb_lt in E. lia. }
  rewrite Hafter, Hcad in H. exact H.
Qed.

Lemma run_updates_below (updates : list (Z * PrinterData)) (m : t)
    (env : SpaghettiDetector.Env) :
  isMonitoring m = true ->
  (forall now printerData pos,
      In (now, printerData) updates -> position printerData = Some pos ->
      (layerOf (z pos) <= currentLayer m)%Z) ->
  let '(m', env') :=
    run (map (fun u => (fst u, UpdatePrinterData (snd u))) updates) m env in
  currentLayer m' = currentLayer m
  /\ exists fired,
       evaluations env' = evaluations env ++ fired
       /\ length fired
          = (if tenthLayerCadence (currentLayer m) then length updates else 0)%nat.
Proof.
  revert m env. induction updates as [| [now printerData] rest IH]; intros m env Hmon Hbelow.
  - cbn. split; [reflexivity |]. exists []. rewrite app_nil_r.
    now destruct (tenthLayerCadence (currentLayer m)).
  - cbn [map run fst snd call]. unfold mbind, SpaghettiDetector.Eff_bind.
    pose proof (updatePrinterData_below now printerData m env Hmon) as H.
    destruct (updatePrinterData now printerData m env) as [m1 e1].
    destruct H as (Hl & Hm & fired1 & He1 & Hn1).
    { intros pos Hpos. apply (Hbelow now printerData pos); [now left | exact Hpos]. }
    specialize (IH m1 e1 Hm).
    destruct (run (map (fun u => (fst u, UpdatePrinterData (snd u))) rest) m1 e1)
      as [m2 e2].
    destruct IH as (Hl2 & fired2 & He2 & Hn2).
    { intros now' pd' pos Hin Hpos. rewrite Hl.
      apply (Hbelow now' pd' pos); [now right | exact Hpos]. }
    split; [congruence |].
    exists (fired1 ++ fired2). split.
    + rewrite He2, He1. now rewrite app_assoc.
    + rewrite length_app, Hn1, Hn2, Hl.
      destruct (tenthLayerCadence (currentLayer m)); cbn [length]; lia.
Qed.

(** C9.  [startMonitoring] resets the buffers and the alert list but not
    [currentLayer].  After a session that ended at layer L, a stop and a new
    start, the monitor is again at layer L; printer updates whose positions
    give [floor (z / 0.2) <= L] then never move the layer, and the layer
    tracker fires no evaluation for them: every evaluation of such a run
    comes from the tenth-layer check, one per update when L is a positive
    multiple of 10 and none otherwise. *)
Theorem C9_startMonitoring_keeps_currentLayer
    (m : t) (stopTime startTime : Z) (printJob : PrintJob) :
  let restarted := fst (startMonitoring startTime printJob (fst (stopMonitoring stopTime m))) in
  currentLayer restarted = currentLayer m
  /\ isMonitoring restarted = true
  /\ dataBuffer restarted = emptyBuffer
  /\ alerts restarted = []
  /\ (forall (now : Z) (currentZ : Q) (env : SpaghettiDetector.Env),
         (Math_floor (currentZ / 0.2) <= currentLayer m)%Z ->
         updateLayerTracking now currentZ restarted env = (restarted, env))
  /\ (forall (updates : list (Z * PrinterData)) (env : SpaghettiDetector.Env),
         (forall now printerData pos,
             In (now, printerData) updates -> position printerData = Some pos ->
             (Math_floor (z pos / 0.2) <= currentLayer m)%Z) ->
         let '(m', env') :=
           run (map (fun u => (fst u, UpdatePrinterData (snd u))) updates) restarted env in
         currentLayer m' = currentLayer m
         /\ exists fired,
              evaluations env' = evaluations env ++ fired
              /\ length fired
                 = (if (0 <? currentLayer m)%Z && (Z.rem (currentLayer m) 10 =? 0)%Z
                    then length updates else 0)%nat).
Proof.
  intros restarted.
  assert (Hl : currentLayer restarted = currentLayer m).
  { unfold restarted. cbn. apply stopMonitoring_currentLayer. }
  repeat (split; [first [exact Hl | reflexivity] |]).
  split.
  - intros now currentZ env Hz. apply updateLayerTracking_idle.
    rewrite Hl. exact Hz.
  - intros updates env Hbelow.
    pose proof (run_updates_below updates restarted env eq_refl) as H.
    rewrite Hl in H. apply H. exact Hbelow.
Qed.

(** C3, as the code has it.  The monitor keeps no count of updates.  An
    accepted [updatePrinterData] fires, after whatever the layer tracker
    fired for a new layer, one further evaluation exactly when the layer it
    leaves the monitor in is a positive multiple of 10; an update received
    while idle fires nothing. *)
Theorem C3_tenth_layer_cadence
    (now : Z) (printerData : PrinterData) (m : t) (env : SpaghettiDetector.Env) :
  let '(m', env') := updatePrinterData now printerData m env in
  (isMonitoring m = false -> m' = m /\ env' = env)
  /\ (isMonitoring m = true ->
      exists fired,
        evaluations env' = evaluations env ++ fired
        /\ length fired
           = ((match position printerData with
               | Some pos =>
                   let newLayer := Math_floor (z pos / 0.2) in
                   if (currentLayer m <? newLayer)%Z
                      && ((newLayer <=? 5)%Z || (Z.rem newLayer 20 =? 0)%Z)
                   then 1 else 0
               | None => 0
               end)
              + (if (0 <? currentLayer m')%Z && (Z.rem (currentLayer m') 10 =? 0)%Z
                 then 1 else 0))%nat).
Proof.
  destruct (isMonitoring m) eqn:Hmon.
  - pose proof (updatePrinterData_spec now printerData m env Hmon) as H.
    destruct (updatePrinterData now printerData m env) as [m' env'].
    destruct H as (Hl & _ & fired & He & Hn).
    split; [discriminate |]. intros _.
    exists fired. split; [exact He |].
    rewrite Hn, Hl. unfold tenthLayerCadence, layerCadence, layerOf.
    now destruct (position printerData).
  - rewrite updatePrinterData_idle by exact Hmon.
    split; [now split | discriminate].
Qed.

End MonitorRuns.

(** ** Telemetry buffers and the alert list *)

Section BuffersAndAlerts.

Import PrintMonitor.

Lemma slice_last_length {A : Type} (n : nat) (data : list A) :
  length (slice_last n data) = Nat.min n (length data).
Proof. unfold slice_last. rewrite length_drop. lia. Qed.

Lemma keepLast100_length {A : Type} (data : list A) :
  (length (keepLast100 data) <= 100)%nat.
Proof.
  unfold keepLast100. destruct (100 <? length data)%nat eqn:E.
  - rewrite slice_last_length. lia.
  - apply Nat.ltb_ge in E. exact E.
Qed.

(** What [updateSensorData] does to the trimmed buffers: each of the four
    histories holds at most 100 entries when it returns. *)
Lemma updateSensorData_capacity (now : Z) (sensorData : SensorData) (m : t) :
  isMonitoring m = true ->
  let buf := dataBuffer (updateSensorData now sensorData m) in
  (length (temperature buf) <= 100)%nat
  /\ (length (vibration buf) <= 100)%nat
  /\ (length (filamentFlow buf) <= 100)%nat
  /\ (length (positions buf) <= 100)%nat.
Proof.
  intros Hmon. unfold updateSensorData. rewrite Hmon.
  cbn; repeat split; apply keepLast100_length.
Qed.

(** [updatePrinterData] pushes without trimming. *)
Lemma updateLayerTracking_dataBuffer (now : Z) (currentZ : Q) (m : t)
    (env : SpaghettiDetector.Env) :
  dataBuffer (fst (updateLayerTracking now currentZ m env)) = dataBuffer m.
Proof.
  pose proof (updateLayerTracking_spec now currentZ m env) as H.
  destruct (updateLayerTracking now currentZ m env) as [m' env'].
  now destruct H as (_ & _ & _ & H & _).
Qed.

Lemma checkRealTimeAlerts_recent (now : Z) (data : SensorData) (m : t) (a : Alert) :
  In a (alerts (checkRealTimeAlerts now data m)) -> (now - oneHour < timestamp a)%Z.
Proof.
  unfold checkRealTimeAlerts. cbn [alerts set_alerts].
  intros H. apply filter_In in H. destruct H as [_ H]. now apply Z.ltb_lt in H.
Qed.

Lemma checkRealTimeAlerts_keeps (now : Z) (data : SensorData) (m : t) (a : Alert) :
  In a (alerts m) -> (now - oneHour < timestamp a)%Z ->
  In a (alerts (checkRealTimeAlerts now data m)).
Proof.
  intros Hin Hrecent. unfold checkRealTimeAlerts. cbn [alerts set_alerts].
  apply filter_In. split; [| now apply Z.ltb_lt].
  apply in_or_app. now left.
Qed.

(** C5, as the code has it.  Pruning happens in one place, at the end of
    [checkRealTimeAlerts], that is on every accepted [updateSensorData]:
    when it returns at time [now], every alert of the session list is
    younger than one hour, and every alert that was in the list and is
    younger than one hour (one of 59 minutes, say) is still there.  A status
    query prunes nothing and hands back the last five entries of the list as
    it stands. *)
Theorem C5_alerts_pruned_on_sensor_update :
  (forall (now : Z) (sensorData : SensorData) (m : t),
      isMonitoring m = true ->
      (forall a, In a (alerts (updateSensorData now sensorData m)) ->
                 (now - 60 * 60 * 1000 < timestamp a)%Z)
      /\ (forall a, In a (alerts m) -> (now - 60 * 60 * 1000 < timestamp a)%Z ->
                    In a (alerts (updateSensorData now sensorData m))))
  /\ (forall (now : Z) (m : t) (st : CurrentStatus),
         getCurrentStatus now m = Some st ->
         status_alerts st = slice_last 5 (alerts m)).
Proof.
  split.
  - intros now sensorData m Hmon. unfold updateSensorData. rewrite Hmon. cbn [negb].
    split.
    + intros a. apply checkRealTimeAlerts_recent.
    + intros a Hin Hrecent. now apply checkRealTimeAlerts_keeps.
  - intros now m st. unfold getCurrentStatus.
    destruct (isMonitoring m), (currentPrint m); try discriminate.
    intros H. injection H as <-. reflexivity.
Qed.

End BuffersAndAlerts.

(** ** Quality report *)

Section QualityReport.

Import QualityAnalyzer.

Lemma or_default_zero (x d : Q) : x == 0 -> or_default (Some x) d = d.
Proof.
  intros H. unfold or_default.
  destruct (Qeq_bool x 0) eqn:E; [reflexivity |].
  apply Qeq_bool_neq in E. contradiction.
Qed.

Lemma sum3 (a b c : Q) : sum [a; b; c] / len [a; b; c] == (a + b + c) / 3.
Proof. unfold sum, len. cbn. field. Qed.

Lemma Math_max_0_nonpos (x : Q) : x <= 0 -> Math_max 0 x == 0.
Proof.
  intros H. unfold Math_max. destruct (Qle_bool 0 x) eqn:E; [| reflexivity].
  apply Qle_bool_iff in E. lra.
Qed.

(** C10.  A sub-score that is exactly 0 counts as 100 in [overallScore] and
    is shown as 0 in [metrics]: so it is for the vibration score, which is 0
    as soon as the average vibration reaches 100, and for the temperature
    stability; and there are inputs with [overallScore = 100] and
    [metrics.vibrationLevel = 0]. *)
Theorem C10_zero_subscore_counts_as_100 :
  (forall (now : Z) (printerData : PrinterData) (sensorData : SensorData)
          (gCodeData : list (option Q)),
      let report := generateQualityReport now printerData sensorData gCodeData in
      let T := stability (analyzeTemperatureProfile (default [] (temperatures printerData))) in
      let V := vib_score (analyzeVibrationData (default [] (vibration sensorData))) in
      let L := layer_score (analyzeLayerQuality gCodeData sensorData) in
      (forall v, V = Some v -> v == 0 ->
         vibrationLevel (metrics report) == 0
         /\ overallScore report
            = Math_round ((or_default (Some T) 100 + 100 + or_default (Some L) 100) / 3))
      /\ (T == 0 ->
          temperatureStability (metrics report) == 0
          /\ overallScore report
             = Math_round ((100 + or_default V 100 + or_default (Some L) 100) / 3))
      /\ (forall data, vibration sensorData = Some data -> data <> [] ->
                       100 <= sum data / len data ->
                       exists v, V = Some v /\ v == 0))
  /\ (exists (printerData : PrinterData) (sensorData : SensorData),
         let report := generateQualityReport 0 printerData sensorData [] in
         overallScore report = 100%Z /\ vibrationLevel (metrics report) == 0).
Proof.
  split.
  - intros now printerData sensorData gCodeData report T V L.
    split; [| split].
    + intros v HV Hv. unfold report, generateQualityReport.
      cbn [metrics vibrationLevel overallScore]. fold T. fold V. fold L.
      rewrite HV, !(or_default_zero v) by exact Hv.
      split; [reflexivity |].
      unfold Math_round. apply Qfloor_comp. now rewrite sum3.
    + intros HT. unfold report, generateQualityReport.
      cbn [metrics temperatureStability overallScore]. fold T. fold V. fold L.
      rewrite !(or_default_zero T) by exact HT.
      split; [reflexivity |].
      unfold Math_round. apply Qfloor_comp. now rewrite sum3.
    + intros data Hdata Hne Havg. unfold V. rewrite Hdata. cbn [default].
      unfold analyzeVibrationData. cbn [vib_score].
      destruct data as [| d0 rest]; [contradiction |].
      cbn [mean]. eexists. split; [reflexivity |].
      apply Math_max_0_nonpos. unfold id. lra.
  - exists {| temperatures := None; temperature_avg := None; bedTemp := None |},
           {| vibration := Some [100; 120]; filamentFlow := None;
              filamentFlow_avg := None; temperature := None; humidity := None |}.
    vm_compute. split; reflexivity.
Qed.

End QualityReport.

(** ** Concrete runs *)

Section ConcreteRuns.

Import PrintMonitor Scenarios.

(** C2.  The buffers are trimmed to their last 100 entries by
    [updateSensorData] only: [updatePrinterData] pushes a position and a
    hotend temperature and never trims.  After 101 accepted printer updates
    in a fresh session the position history and the temperature history hold
    101 entries each. *)
Theorem C2_printer_updates_exceed_capacity :
  let m := fst (run (repeated (UpdatePrinterData (printerAt 0)) 101) freshSession quietEnv) in
  isMonitoring m = true
  /\ length (positions (dataBuffer m)) = 101%nat
  /\ length (temperature (dataBuffer m)) = 101%nat.
Proof. vm_compute. repeat split. Qed.

(** On the sensor path the bound holds: of 150 temperature readings the
    last 100 remain, in the order they came. *)
Example sensor_readings_keep_last_100 :
  temperature (dataBuffer (fst (run (readings 150) freshSession quietEnv)))
  = map (fun i => inject_Z (Z.of_nat i)) (seq 51 100).
Proof. vm_compute. reflexivity. Qed.

(** Ten accepted printer updates on layer 0 trigger no evaluation, while on
    layer 10 (z = 2) each of three updates triggers one. *)
Lemma C3_counterexample :
  (let '(m, env) :=
     run (repeated (UpdatePrinterData (printerAt 0)) 10) freshSession quietEnv in
   isMonitoring m = true
   /\ length (positions (dataBuffer m)) = 10%nat
   /\ SpaghettiDetector.evaluations env = [])
  /\ (let '(m, env) :=
        run (repeated (UpdatePrinterData (printerAt 2)) 3) freshSession quietEnv in
      currentLayer m = 10%Z
      /\ length (SpaghettiDetector.evaluations env) = 3%nat).
Proof. vm_compute. repeat split. Qed.

(** An alert raised at time 0 is still reported by a status query 61
    minutes later. *)
Lemma C5_counterexample :
  let m := updateSensorData 0 (temperatureReading 300) freshSession in
  (fun st => map (fun a => (message a, timestamp a)) (status_alerts st))
    <$> getCurrentStatus oneHourOneMinute m
  = Some [(HighTemperature, 0%Z)].
Proof. vm_compute. reflexivity. Qed.

(** The window 450, 460, 455, 440, 30 has mean 367: the scan raises no
    alert, and on layer 2 with one small feature the recommendation is
    [monitor_closely]. *)
Lemma C4_counterexample :
  slice_last 5 flowHistory = [450; 460; 455; 440; 30]
  /\ SpaghettiDetector.analyzeSensorPatterns (flowOnly flowHistory) = []
  /\ SpaghettiDetector.action
       (SpaghettiDetector.generateRecommendation
          (SpaghettiDetector.calculateRiskScore layerTwo 2)
          (SpaghettiDetector.analyzeSensorPatterns (flowOnly flowHistory)))
     = SpaghettiDetector.monitor_closely.
Proof. vm_compute. repeat split. Qed.

(** The quotient of confidence and risk score decides nothing.  On layer 2
    without alerts the quotient is 0.32, below 0.8, and the recommendation
    is [immediate_intervention], not [monitor_closely]; on layer 12 with two
    small features and a temperature alert of medium severity the quotient
    is 1.12, above 0.8, and the recommendation is [continue_monitoring]. *)
Lemma C6_counterexample :
  let firstLayers :=
    fst (fst (SpaghettiDetector.analyzeCurrentPrint 0 None (flowOnly flowHistory)
                {| SpaghettiDetector.layers := None |} 2
                SpaghettiDetector.constructor quietEnv)) in
  let smallFeatures :=
    fst (fst (SpaghettiDetector.analyzeCurrentPrint 0 None swingingTemperature
                layerTwelve 12 SpaghettiDetector.constructor quietEnv)) in
  (SpaghettiDetector.alerts firstLayers = []
   /\ SpaghettiDetector.det_confidence firstLayers
        / SpaghettiDetector.riskScore firstLayers <= 0.8
   /\ 0.5 < SpaghettiDetector.riskScore firstLayers
   /\ SpaghettiDetector.action (SpaghettiDetector.recommendation firstLayers)
      = SpaghettiDetector.immediate_intervention)
  /\ (SpaghettiDetector.alerts smallFeatures = [SpaghettiDetector.temperatureAlert]
      /\ SpaghettiDetector.severity SpaghettiDetector.temperatureAlert
         = SpaghettiDetector.medium
      /\ 0.8 < SpaghettiDetector.det_confidence smallFeatures
               / SpaghettiDetector.riskScore smallFeatures
      /\ SpaghettiDetector.action (SpaghettiDetector.recommendation smallFeatures)
         = SpaghettiDetector.continue_monitoring).
Proof.
  cbv zeta. split; (split; [reflexivity | split; [| split]]);
    try reflexivity; try (apply Qle_bool_iff; reflexivity); apply ltb_lt; reflexivity.
Qed.

(** Feedback on a detector that has never detected anything is counted. *)
Lemma C7_counterexample :
  SpaghettiDetector.detectionHistory SpaghettiDetector.constructor = []
  /\ SpaghettiDetector.truePositives
       (SpaghettiDetector.reportFeedback true SpaghettiDetector.constructor) = 1%nat
  /\ SpaghettiDetector.falsePositives
       (SpaghettiDetector.reportFeedback false SpaghettiDetector.constructor) = 1%nat.
Proof. repeat split. Qed.

End ConcreteRuns.

(** ** The theorems at concrete inputs *)

Section Instances.

Import PrintMonitor Scenarios.

(** A layer with three overhangs, one bridge and four small features, seen
    by a detector with three confirmed and one refuted detection. *)
Lemma C1_witness :
  let snapshot :=
    {| SpaghettiDetector.overhangs := 3; SpaghettiDetector.bridges := 1;
       SpaghettiDetector.smallFeatures := 4; SpaghettiDetector.solidInfill := 0.9;
       SpaghettiDetector.supportMaterial := true |} in
  let visualAnalysis :=
    {| SpaghettiDetector.visual_confidence := 0.75;
       SpaghettiDetector.patterns := [SpaghettiDetector.stringyPattern] |} in
  let gcodeAnalysis := {| SpaghettiDetector.layers := Some {[ 12%Z := snapshot ]} |} in
  let detector :=
    {| SpaghettiDetector.detectionHistory := [];
       SpaghettiDetector.falsePositives := 1;
       SpaghettiDetector.truePositives := 3 |} in
  let riskScore := SpaghettiDetector.calculateRiskScore gcodeAnalysis 12 in
  (0 <= riskScore <= 1)
  /\ 0 <= SpaghettiDetector.calculateConfidence detector riskScore
            (SpaghettiDetector.analyzeSensorPatterns (flowOnly starvedFlow))
            visualAnalysis <= 1.
Proof.
  intros snapshot visualAnalysis.
  apply (C1_risk_and_confidence_in_unit_interval snapshot 12 (flowOnly starvedFlow)
           visualAnalysis 3 1 []);
    repeat split; apply Qle_bool_iff; reflexivity.
Defined.

Lemma C4_witness :
  (5 < length starvedFlow)%nat
  /\ sum (slice_last 5 starvedFlow) / len (slice_last 5 starvedFlow) < 100
  /\ (exists a,
         In a (SpaghettiDetector.analyzeSensorPatterns (flowOnly starvedFlow))
         /\ SpaghettiDetector.type a = SpaghettiDetector.low_flow
         /\ SpaghettiDetector.severity a = SpaghettiDetector.high
         /\ SpaghettiDetector.confidence a == 0.9)
  /\ forall riskScore,
       SpaghettiDetector.action
         (SpaghettiDetector.generateRecommendation riskScore
            (SpaghettiDetector.analyzeSensorPatterns (flowOnly starvedFlow)))
       = SpaghettiDetector.immediate_intervention.
Proof.
  assert (Hlen : (5 < length starvedFlow)%nat) by (apply Nat.ltb_lt; reflexivity).
  assert (Havg : sum (slice_last 5 starvedFlow) / len (slice_last 5 starvedFlow) < 100)
    by (apply ltb_lt; reflexivity).
  split; [exact Hlen | split; [exact Havg |]].
  exact (proj1 (C4_low_flow_alert (flowOnly starvedFlow) starvedFlow eq_refl Hlen) Havg).
Defined.

Lemma C6_witness :
  let detection :=
    fst (fst (SpaghettiDetector.analyzeCurrentPrint 0 None (flowOnly flowHistory)
                {| SpaghettiDetector.layers := None |} 2
                SpaghettiDetector.constructor quietEnv)) in
  0.8 < SpaghettiDetector.riskScore detection
  /\ SpaghettiDetector.action (SpaghettiDetector.recommendation detection)
     = SpaghettiDetector.immediate_intervention
  /\ SpaghettiDetector.urgency (SpaghettiDetector.recommendation detection)
     = SpaghettiDetector.high.
Proof.
  intros detection.
  assert (Hrisk : 0.8 < SpaghettiDetector.riskScore detection)
    by (apply ltb_lt; reflexivity).
  split; [exact Hrisk |].
  exact (proj1 (C6_recommendation_policy 0 None (flowOnly flowHistory)
                  {| SpaghettiDetector.layers := None |} 2
                  SpaghettiDetector.constructor quietEnv) (or_introl Hrisk)).
Defined.

Lemma C3_witness :
  isMonitoring freshSession = true
  /\ let '(m', env') := updatePrinterData 5 (printerAt 2) freshSession quietEnv in
     exists fired,
       SpaghettiDetector.evaluations env'
       = SpaghettiDetector.evaluations quietEnv ++ fired
       /\ length fired
          = ((match position (printerAt 2) with
              | Some pos =>
                  let newLayer := Math_floor (z pos / 0.2) in
                  if (currentLayer freshSession <? newLayer)%Z
                     && ((newLayer <=? 5)%Z || (Z.rem newLayer 20 =? 0)%Z)
                  then 1 else 0
              | None => 0
              end)
             + (if (0 <? currentLayer m')%Z && (Z.rem (currentLayer m') 10 =? 0)%Z
                then 1 else 0))%nat.
Proof.
  split; [reflexivity |].
  generalize (C3_tenth_layer_cadence 5 (printerAt 2) freshSession quietEnv).
  destruct (updatePrinterData 5 (printerAt 2) freshSession quietEnv) as [m' env'].
  intros [_ H]. exact (H eq_refl).
Defined.

Lemma C5_witness :
  isMonitoring freshSession = true
  /\ forall a,
       In a (alerts (updateSensorData 100 (temperatureReading 300) freshSession)) ->
       (100 - 60 * 60 * 1000 < timestamp a)%Z.
Proof.
  split; [reflexivity |].
  exact (proj1 (proj1 C5_alerts_pruned_on_sensor_update 100%Z (temperatureReading 300)
                  freshSession eq_refl)).
Defined.

Lemma C9_witness :
  let m := fst (run (repeated (UpdatePrinterData (printerAt 2)) 1) freshSession quietEnv) in
  let restarted :=
    fst (startMonitoring 900 {| job_name := None |} (fst (stopMonitoring 800 m))) in
  (Math_floor (1 / 0.2) <= currentLayer m)%Z
  /\ updateLayerTracking 950 1 restarted quietEnv = (restarted, quietEnv).
Proof.
  intros m restarted.
  assert (Hz : (Math_floor (1 / 0.2) <= currentLayer m)%Z)
    by (apply Z.leb_le; reflexivity).
  split; [exact Hz |].
  exact (proj1 (proj2 (proj2 (proj2 (proj2
           (C9_startMonitoring_keeps_currentLayer m 800 900 {| job_name := None |})))))
           950%Z 1 quietEnv Hz).
Defined.

Lemma C10_witness :
  let sensorData :=
    {| QualityAnalyzer.vibration := Some [100; 120];
       QualityAnalyzer.filamentFlow := None;
       QualityAnalyzer.filamentFlow_avg := None;
       QualityAnalyzer.temperature := None;
       QualityAnalyzer.humidity := None |} in
  100 <= sum [100; 120] / len [100; 120]
  /\ exists v,
       QualityAnalyzer.vib_score
         (QualityAnalyzer.analyzeVibrationData
            (default [] (QualityAnalyzer.vibration sensorData))) = Some v
       /\ v == 0.
Proof.
  intros sensorData.
  assert (Havg : 100 <= sum [100; 120] / len [100; 120])
    by (apply Qle_bool_iff; reflexivity).
  split; [exact Havg |].
  refine (proj2 (proj2 (proj1 C10_zero_subscore_counts_as_100 0%Z
            {| QualityAnalyzer.temperatures := None;
               QualityAnalyzer.temperature_avg := None;
               QualityAnalyzer.bedTemp := None |} sensorData []))
            [100; 120] eq_refl _ Havg).
  discriminate.
Defined.

End Instances.

(** * Further properties of the code *)

(** ** Sums and the square root *)

Section SumFacts.

Lemma fold_sum_acc (data : list Q) (a : Q) : fold_left Qplus data a == a + sum data.
Proof.
  unfold sum. revert a. induction data as [| x l IH]; intros a; cbn [fold_left].
  - lra.
  - rewrite (IH (a + x)), (IH (0 + x)). lra.
Qed.

Lemma sum_cons (x : Q) (data : list Q) : sum (x :: data) == x + sum data.
Proof. unfold sum at 1. cbn [fold_left]. rewrite fold_sum_acc. lra. Qed.

Lemma len_cons {A : Type} (x : A) (data : list A) : len (x :: data) == 1 + len data.
Proof.
  unfold len. cbn [length]. rewrite Nat2Z.inj_succ, <- Z.add_1_l, inject_Z_plus.
  reflexivity.
Qed.

Lemma len_cons_pos {A : Type} (x : A) (data : list A) : 0 < len (x :: data).
Proof. rewrite len_cons. pose proof (len_nonneg data). lra. Qed.

Lemma Math_sqrt_nonneg (x : Q) : 0 <= Math_sqrt x.
Proof.
  unfold Math_sqrt. destruct (Qle_bool x 0); [lra |].
  unfold Qle. cbn. rewrite Z.mul_1_r. apply Z.sqrt_nonneg.
Qed.

Lemma Math_sqrt_zero (x : Q) : x == 0 -> Math_sqrt x == 0.
Proof.
  intros H. unfold Math_sqrt.
  destruct (Qle_bool x 0) eqn:E; [reflexivity |].
  assert (Hle : x <= 0) by lra. apply Qle_bool_iff in Hle. congruence.
Qed.

End SumFacts.

(** ** QualityAnalyzer *)

Section AnalyzerFacts.

Import QualityAnalyzer Observations.

Lemma calculateVariation_nonneg (data : list Q) : 0 <= calculateVariation data.
Proof.
  unfold calculateVariation. destruct data; [lra | apply Math_sqrt_nonneg].
Qed.

Lemma calculateVariation_single (x : Q) : calculateVariation [x] == 0.
Proof.
  unfold calculateVariation. apply Math_sqrt_zero.
  unfold sum, len. cbn [fold_left length]. field.
Qed.

(** X1.  The temperature stability never exceeds 100, because the variation
    it is derived from is never negative; a fluctuation is reported exactly
    when the stability is below 50; and with no reading or a single one the
    variation is 0 and the stability is exactly 100. *)
Theorem X1_temperature_stability (temperatureData : list Q) :
  let analysis := analyzeTemperatureProfile temperatureData in
  0 <= calculateVariation temperatureData
  /\ stability analysis <= 100
  /\ (In TemperatureFluctuation (temp_issues analysis) <-> stability analysis < 50)
  /\ ((length temperatureData <= 1)%nat ->
      calculateVariation temperatureData == 0 /\ stability analysis == 100).
Proof.
  intros analysis.
  pose proof (calculateVariation_nonneg temperatureData) as Hv.
  split; [exact Hv |].
  unfold analysis, analyzeTemperatureProfile. cbn [stability temp_issues].
  split; [lra |]. split.
  - assert (Hother : ~ In TemperatureFluctuation
                         match mean temperatureData with
                         | Some t => if ltb t 180 || gtb t 250 then [UnusualTemperature t] else []
                         | None => []
                         end).
    { destruct (mean temperatureData) as [t |]; [| intros []].
      destruct (ltb t 180 || gtb t 250); cbn; intuition discriminate. }
    destruct (gtb (calculateVariation temperatureData) 5) eqn:E.
    + apply gtb_gt in E. split; [intros _; lra | intros _; now left].
    + apply gtb_le in E. cbn [app].
      split; [intros H; contradiction | intros H; exfalso; lra].
  - intros Hlen.
    assert (H0 : calculateVariation temperatureData == 0).
    { destruct temperatureData as [| x [| y l]]; [reflexivity | | cbn in Hlen; lia].
      apply calculateVariation_single. }
    split; [exact H0 | rewrite H0; lra].
Qed.

Lemma layerHeightsFrom_positive (currentZ : Q) (gCodeData : list (option Q)) :
  Forall (fun h => 0 < h) (layerHeightsFrom currentZ gCodeData).
Proof.
  revert currentZ. induction gCodeData as [| [newZ |] rest IH]; intros currentZ;
    cbn [layerHeightsFrom]; [constructor | | apply IH].
  destruct (gtb newZ currentZ) eqn:E; [| apply IH].
  apply gtb_gt in E. constructor; [lra | apply IH].
Qed.

Lemma highestZ_ge (currentZ : Q) (gCodeData : list (option Q)) :
  currentZ <= highestZ currentZ gCodeData.
Proof.
  unfold highestZ. revert currentZ.
  induction gCodeData as [| [newZ |] rest IH]; intros currentZ; cbn [fold_left];
    [lra | | apply IH].
  destruct (gtb newZ currentZ) eqn:E; [| apply IH].
  apply gtb_gt in E. specialize (IH newZ). lra.
Qed.

(** Nothing is pushed when no line rises above [currentZ]. *)
Lemma layerHeightsFrom_nil (currentZ : Q) (gCodeData : list (option Q)) :
  highestZ currentZ gCodeData <= currentZ -> layerHeightsFrom currentZ gCodeData = [].
Proof.
  unfold highestZ. revert currentZ.
  induction gCodeData as [| [newZ |] rest IH]; intros currentZ; cbn [fold_left layerHeightsFrom];
    [reflexivity | | apply IH].
  destruct (gtb newZ currentZ) eqn:E; [| apply IH].
  apply gtb_gt in E. intros H. exfalso.
  pose proof (highestZ_ge newZ rest) as Hge. unfold highestZ in Hge. lra.
Qed.

Lemma layerHeightsFrom_none (currentZ : Q) (gCodeData : list (option Q)) :
  layerHeightsFrom currentZ gCodeData = [] -> highestZ currentZ gCodeData = currentZ.
Proof.
  unfold highestZ. revert currentZ.
  induction gCodeData as [| [newZ |] rest IH]; intros currentZ; cbn [fold_left layerHeightsFrom];
    [reflexivity | | apply IH].
  destruct (gtb newZ currentZ); [discriminate | apply IH].
Qed.

(** Every height is a step between two running maxima. *)
Lemma layerHeightsFrom_le (currentZ : Q) (gCodeData : list (option Q)) :
  Forall (fun h => h <= highestZ currentZ gCodeData - currentZ)
         (layerHeightsFrom currentZ gCodeData).
Proof.
  unfold highestZ. revert currentZ.
  induction gCodeData as [| [newZ |] rest IH]; intros currentZ; cbn [fold_left layerHeightsFrom];
    [constructor | | apply IH].
  destruct (gtb newZ currentZ) eqn:E; [| apply IH].
  apply gtb_gt in E.
  pose proof (highestZ_ge newZ rest) as Hge. unfold highestZ in Hge.
  constructor; [lra |].
  eapply Forall_impl; [apply IH |]. cbn. intros h Hh. lra.
Qed.

Lemma layerHeightsFrom_length (currentZ : Q) (gCodeData : list (option Q)) :
  (length (layerHeightsFrom currentZ gCodeData) <= length gCodeData)%nat.
Proof.
  revert currentZ.
  induction gCodeData as [| [newZ |] rest IH]; intros currentZ; cbn [layerHeightsFrom length];
    [lia | | specialize (IH currentZ); lia].
  destruct (gtb newZ currentZ); [specialize (IH newZ) | specialize (IH currentZ)];
    cbn [length]; lia.
Qed.

(** X2.  [extractLayerHeights] never returns an empty list and every height
    in it is positive; it holds at most one height per line; when some line
    moves Z above 0 no height exceeds the highest Z reached, and otherwise
    the result is the single default height 0.2. *)
Theorem X2_layer_heights (gCodeData : list (option Q)) :
  extractLayerHeights gCodeData <> []
  /\ Forall (fun h => 0 < h) (extractLayerHeights gCodeData)
  /\ (length (extractLayerHeights gCodeData) <= Nat.max 1 (length gCodeData))%nat
  /\ (0 < highestZ 0 gCodeData ->
      Forall (fun h => h <= highestZ 0 gCodeData) (extractLayerHeights gCodeData))
  /\ (highestZ 0 gCodeData <= 0 -> extractLayerHeights gCodeData = [0.2]).
Proof.
  pose proof (layerHeightsFrom_positive 0 gCodeData) as Hpos.
  pose proof (layerHeightsFrom_le 0 gCodeData) as Hle.
  pose proof (layerHeightsFrom_length 0 gCodeData) as Hlen.
  pose proof (layerHeightsFrom_nil 0 gCodeData) as Hnil.
  unfold extractLayerHeights.
  destruct (layerHeightsFrom 0 gCodeData) as [| h rest] eqn:E.
  - split; [discriminate |]. split; [repeat constructor |].
    split; [cbn [length]; lia |].
    split; [| reflexivity].
    intros H. exfalso. rewrite (layerHeightsFrom_none 0 gCodeData E) in H. lra.
  - split; [discriminate |]. split; [exact Hpos |].
    split; [lia |]. split.
    + intros _. eapply Forall_impl; [exact Hle |]. cbn. intros x Hx. lra.
    + intros H. specialize (Hnil H). discriminate.
Qed.

End AnalyzerFacts.

Section AnalyzerScores.

Import QualityAnalyzer Observations.

Lemma sum_nonneg (data : list Q) : Forall (fun v => 0 <= v) data -> 0 <= sum data.
Proof.
  induction 1 as [| x l Hx _ IH].
  - change (sum []) with 0. lra.
  - rewrite sum_cons. lra.
Qed.

Lemma mean_nonneg (x : Q) (data : list Q) :
  Forall (fun v => 0 <= v) (x :: data) -> 0 <= sum (x :: data) / len (x :: data).
Proof.
  intros H. apply Qle_shift_div_l; [apply len_cons_pos |].
  pose proof (sum_nonneg _ H). lra.
Qed.

Lemma Math_max_0_le (x c : Q) : 0 <= c -> x <= c -> Math_max 0 x <= c.
Proof. intros Hc Hx. unfold Math_max. destruct (Qle_bool 0 x); lra. Qed.

(** X3.  The vibration score of an empty history is [NaN]; of a non-empty
    one it is a number that is never negative, is at most 100 when no
    reading is negative, and is below 50 whenever excessive vibration is
    reported. *)
Theorem X3_vibration_score :
  vib_score (analyzeVibrationData []) = NaN
  /\ forall vibrationData,
       vibrationData <> [] ->
       exists v,
         vib_score (analyzeVibrationData vibrationData) = Some v
         /\ 0 <= v
         /\ (Forall (fun x => 0 <= x) vibrationData -> v <= 100)
         /\ (In ExcessiveVibration (vib_issues (analyzeVibrationData vibrationData)) ->
             v < 50).
Proof.
  split; [reflexivity |].
  intros [| x l] Hne; [contradiction |].
  unfold analyzeVibrationData. cbn [mean vib_score vib_issues opt_gtb].
  set (avg := sum (x :: l) / len (x :: l)).
  eexists. split; [reflexivity |].
  split; [apply Math_max_0_nonneg |]. split.
  - intros Hpos. pose proof (mean_nonneg x l Hpos) as Havg. fold avg in Havg.
    apply Math_max_0_le; lra.
  - destruct (gtb avg 50) eqn:E.
    + intros _. apply gtb_gt in E.
      unfold Math_max. destruct (Qle_bool 0 (100 - avg)); lra.
    + cbn [app]. destruct (detectVibrationPatterns (x :: l)); cbn;
        intuition discriminate.
Qed.


Lemma layer_score_bounds (gCodeData : list (option Q)) (sensorData : SensorData) :
  65 <= layer_score (analyzeLayerQuality gCodeData sensorData) <= 100.
Proof.
  unfold analyzeLayerQuality.
  destruct (gtb (calculateVariation (extractLayerHeights gCodeData)) 0.05);
    destruct (filamentFlow sensorData) as [flow |];
    try destruct (gtb (calculateVariation flow) 10);
    cbn [layer_score]; split; vm_compute; discriminate.
Qed.

(** X4.  The layer-quality score is 100, 85, 80 or 65: it lies between 65
    and 100 on every input, and it is 100 exactly when no layer issue is
    reported. *)
Theorem X4_layer_score (gCodeData : list (option Q)) (sensorData : SensorData) :
  let analysis := analyzeLayerQuality gCodeData sensorData in
  65 <= layer_score analysis <= 100
  /\ (layer_issues analysis = [] <-> layer_score analysis == 100)
  /\ (length (layer_issues analysis) <= 2)%nat.
Proof.
  intros analysis. split; [apply layer_score_bounds |].
  unfold analysis, analyzeLayerQuality.
  destruct (gtb (calculateVariation (extractLayerHeights gCodeData)) 0.05);
    destruct (filamentFlow sensorData) as [flow |];
    try destruct (gtb (calculateVariation flow) 10);
    cbn [layer_issues layer_score app length];
    (split; [| lia]);
    split; intros H;
    first [ reflexivity | discriminate H | vm_compute; reflexivity
          | exfalso; revert H; vm_compute; discriminate ].
Qed.

(** X5.  The common-issue scan never reports under-extrusion and
    over-extrusion together, and reports neither when the flow average is
    missing. *)
Theorem X5_extrusion_issues_exclusive
    (temperature_avg flow_avg bedTemp ambientTemp humidity : option Q) :
  let found := detectCommonIssues temperature_avg flow_avg bedTemp ambientTemp humidity in
  ~ (In UnderExtrusion found /\ In OverExtrusion found)
  /\ (flow_avg = None -> ~ In UnderExtrusion found /\ ~ In OverExtrusion found).
Proof.
  unfold detectCommonIssues. split.
  - destruct flow_avg as [f |]; cbn [opt_ltb opt_gtb].
    + destruct (ltb f 400) eqn:E1, (gtb f 800) eqn:E2.
      * apply ltb_lt in E1. apply gtb_gt in E2. lra.
      * rewrite andb_true_r.
        destruct (opt_ltb temperature_avg 200), (opt_ltb bedTemp 50 && opt_ltb ambientTemp 20),
          (opt_gtb humidity 60); cbn; intuition discriminate.
      * rewrite andb_false_r.
        destruct (opt_ltb bedTemp 50 && opt_ltb ambientTemp 20), (opt_gtb humidity 60);
          cbn; intuition discriminate.
      * rewrite andb_false_r.
        destruct (opt_ltb bedTemp 50 && opt_ltb ambientTemp 20), (opt_gtb humidity 60);
          cbn; intuition discriminate.
    + rewrite andb_false_r.
      destruct (opt_ltb bedTemp 50 && opt_ltb ambientTemp 20), (opt_gtb humidity 60);
        cbn; intuition discriminate.
  - intros ->. cbn [opt_ltb opt_gtb]. rewrite andb_false_r.
    destruct (opt_ltb bedTemp 50 && opt_ltb ambientTemp 20), (opt_gtb humidity 60);
      cbn; intuition discriminate.
Qed.

Lemma geb_ge (a b : Q) : geb a b = true <-> b <= a.
Proof. unfold geb. apply Qle_bool_iff. Qed.

Lemma geb_lt (a b : Q) : geb a b = false <-> a < b.
Proof.
  unfold geb. split; intros H.
  - apply Qnot_le_lt. intros L. apply Qle_bool_iff in L. congruence.
  - destruct (Qle_bool b a) eqn:E; [apply Qle_bool_iff in E; lra | reflexivity].
Qed.

(** The band of a grade: its floor is reached, its ceiling is not. *)
Lemma getQualityGrade_band (score : Q) :
  (forall f, gradeFloor (getQualityGrade score) = Some f -> inject_Z f <= score)
  /\ (forall c, gradeCeiling (getQualityGrade score) = Some c -> score < inject_Z c).
Proof.
  unfold getQualityGrade.
  destruct (geb score 90) eqn:E90; [| destruct (geb score 80) eqn:E80;
    [| destruct (geb score 70) eqn:E70; [| destruct (geb score 60) eqn:E60]]];
  repeat match goal with
         | H : geb _ _ = true |- _ => apply geb_ge in H
         | H : geb _ _ = false |- _ => apply geb_lt in H
         end;
  split; intros z Hz; cbn in Hz; try discriminate;
  injection Hz as <-; unfold inject_Z; lra.
Qed.

(** X6.  [getQualityGrade] is monotone: a higher score never gets a worse
    grade; and the bands are closed below and open above (90 is Excellent,
    anything under 90 is at most Good, and so on down to 60). *)
Theorem X6_grade_monotone (score1 score2 : Q) :
  (score1 <= score2 ->
   (gradeRank (getQualityGrade score1) <= gradeRank (getQualityGrade score2))%nat)
  /\ (forall f, gradeFloor (getQualityGrade score1) = Some f -> inject_Z f <= score1)
  /\ (forall c, gradeCeiling (getQualityGrade score1) = Some c -> score1 < inject_Z c).
Proof.
  pose proof (getQualityGrade_band score1) as [Hf1 Hc1].
  pose proof (getQualityGrade_band score2) as [Hf2 Hc2].
  split; [| split; assumption].
  intros Hle.
  destruct (getQualityGrade score1) eqn:G1, (getQualityGrade score2) eqn:G2;
    cbn [gradeRank]; try lia; exfalso;
    cbn [gradeFloor gradeCeiling] in *;
    repeat match goal with
           | H : forall f, Some ?a = Some f -> _ |- _ =>
               specialize (H a eq_refl); unfold inject_Z in H
           | H : forall f, None = Some f -> _ |- _ => clear H
           end;
    lra.
Qed.

Lemma Math_round_ge (f : Z) (x : Q) : inject_Z f <= x -> (f <= Math_round x)%Z.
Proof.
  intros H. unfold Math_round. rewrite <- (Qfloor_Z f).
  apply Qfloor_resp_le. lra.
Qed.

Lemma Math_round_le (c : Z) (x : Q) : x <= inject_Z c -> (Math_round x <= c)%Z.
Proof.
  intros H. unfold Math_round.
  pose proof (Qfloor_le (x + (1 # 2))) as Hfl.
  assert (Hlt : inject_Z (Qfloor (x + (1 # 2))) < inject_Z (c + 1)).
  { rewrite inject_Z_plus. unfold inject_Z at 3. lra. }
  rewrite <- Zlt_Qlt in Hlt. lia.
Qed.

(** X7.  In a quality report the rounded [overallScore] lies in the closed
    band of the reported grade (a report graded Good shows a score from 80
    to 90, both included); it never exceeds 100 when no vibration reading is
    negative; and it has no lower bound at 0: a temperature history of 0 and
    1000 yields a negative score. *)
Theorem X7_report_score_and_grade :
  (forall (now : Z) (printerData : PrinterData) (sensorData : SensorData)
          (gCodeData : list (option Q)),
      let report := generateQualityReport now printerData sensorData gCodeData in
      (forall f, gradeFloor (grade report) = Some f -> (f <= overallScore report)%Z)
      /\ (forall c, gradeCeiling (grade report) = Some c -> (overallScore report <= c)%Z)
      /\ (Forall (fun x => 0 <= x) (default [] (vibration sensorData)) ->
          (overallScore report <= 100)%Z))
  /\ (exists (printerData : PrinterData) (sensorData : SensorData),
         (overallScore (generateQualityReport 0 printerData sensorData []) < 0)%Z).
Proof.
  split.
  - intros now printerData sensorData gCodeData.
    unfold generateQualityReport. cbn [grade overallScore].
    set (T := stability (analyzeTemperatureProfile (default [] (temperatures printerData)))).
    set (V := vib_score (analyzeVibrationData (default [] (vibration sensorData)))).
    set (L := layer_score (analyzeLayerQuality gCodeData sensorData)).
    set (x := sum _ / len _).
    pose proof (getQualityGrade_band x) as [Hf Hc].
    split; [| split].
    + intros f Hg. apply Math_round_ge. now apply Hf.
    + intros c Hg. apply Math_round_le. apply Qlt_le_weak. now apply Hc.
    + intros Hvib. apply (Math_round_le 100).
      assert (HT : or_default (Some T) 100 <= 100).
      { pose proof (calculateVariation_nonneg (default [] (temperatures printerData))) as HTb.
        unfold or_default. destruct (Qeq_bool T 0); [lra |].
        unfold T, analyzeTemperatureProfile. cbn [stability]. lra. }
      assert (HV : or_default V 100 <= 100).
      { unfold V. destruct (default [] (vibration sensorData)) as [| v0 l] eqn:Ev.
        - cbn. lra.
        - unfold analyzeVibrationData. cbn [mean vib_score or_default].
          pose proof (mean_nonneg v0 l Hvib) as Havg.
          match goal with |- (if ?b then _ else _) <= _ => destruct b end; [lra |].
          apply Math_max_0_le; lra. }
      assert (HL : or_default (Some L) 100 <= 100).
      { pose proof (layer_score_bounds gCodeData sensorData) as HLb.
        unfold or_default. destruct (Qeq_bool L 0); [lra |]. apply HLb. }
      unfold x. rewrite sum3. change (inject_Z 100) with 100.
      apply Qle_shift_div_r; lra.
  - exists {| temperatures := Some [0; 1000]; temperature_avg := None; bedTemp := None |},
           {| vibration := None; filamentFlow := None; filamentFlow_avg := None;
              temperature := None; humidity := None |}.
    vm_compute. reflexivity.
Qed.

End AnalyzerScores.

(** ** SpaghettiDetector *)

Section DetectorFacts.

Import SpaghettiDetector.

(** X8.  The scan looks at a channel only when it holds more than the
    window: with at most 10 vibration samples and at most 5 temperature and
    5 flow samples (or with a channel missing) no alert is raised, whatever
    the values; and on any input at most four alerts come back. *)
Theorem X8_short_windows_raise_nothing (sensorData : SensorData) :
  ((forall data, vibration sensorData = Some data -> (length data <= 10)%nat) ->
   (forall data, temperature sensorData = Some data -> (length data <= 5)%nat) ->
   (forall data, filamentFlow sensorData = Some data -> (length data <= 5)%nat) ->
   analyzeSensorPatterns sensorData = [])
  /\ (length (analyzeSensorPatterns sensorData) <= 4)%nat.
Proof.
  split.
  - intros Hv Ht Hf. unfold analyzeSensorPatterns, longer_than.
    destruct (vibration sensorData) as [vs |];
      [ specialize (Hv vs eq_refl); apply Nat.ltb_ge in Hv; rewrite Hv | ];
    (destruct (temperature sensorData) as [ts |];
      [ specialize (Ht ts eq_refl); apply Nat.ltb_ge in Ht; rewrite Ht | ]);
    (destruct (filamentFlow sensorData) as [fs |];
      [ specialize (Hf fs eq_refl); apply Nat.ltb_ge in Hf; rewrite Hf | ]);
    reflexivity.
  - destruct (analyzeSensorPatterns_shape sensorData) as (b1 & b2 & b3 & b4 & ->).
    destruct b1, b2, b3, b4; cbn; lia.
Qed.

Lemma share_pos (c k : Q) : 0 < c -> 0 < k -> 0 < Math_min (c / k) 1 <= 1.
Proof.
  intros Hc Hk. split; [| apply Math_min_le_r].
  unfold Math_min. destruct (Qle_bool (c / k) 1); [| lra].
  apply Qlt_shift_div_l; lra.
Qed.

(** A total between 0 and the weight sum: the ratio needs no clamping. *)
Lemma ratio_exact (T W : Q) : 0 <= T <= W -> 0 < W -> Math_min (T / W) 1 == T / W.
Proof.
  intros [H0 HW] Hpos. unfold Math_min.
  destruct (Qle_bool (T / W) 1) eqn:E; [reflexivity |].
  assert (H1 : T / W <= 1) by (apply Qle_shift_div_r; lra).
  apply Qle_bool_iff in H1. congruence.
Qed.

(** The score as a product: the undampened ratio [T / W] of some total
    [0 <= T <= W], times 0.9 for solid infill, times 0.9 for support. *)
Lemma calculateRiskScore_factors (g : GcodeAnalysis) (currentLayer : Z) :
  let ld := layerDataOf g currentLayer in
  let triggered :=
    gtb (overhangs ld) 0 || gtb (bridges ld) 0 || gtb (smallFeatures ld) 0
    || (currentLayer <=? 3)%Z in
  exists base : Q,
    (if triggered then 0 < base <= 1 else base == 0)
    /\ calculateRiskScore g currentLayer
       == base * (if gtb (solidInfill ld) 0.8 then 0.9 else 1)
               * (if supportMaterial ld then 0.9 else 1)
    /\ forall g' : GcodeAnalysis,
         overhangs (layerDataOf g' currentLayer) = overhangs ld ->
         bridges (layerDataOf g' currentLayer) = bridges ld ->
         smallFeatures (layerDataOf g' currentLayer) = smallFeatures ld ->
         calculateRiskScore g' currentLayer
         == base * (if gtb (solidInfill (layerDataOf g' currentLayer)) 0.8 then 0.9 else 1)
                 * (if supportMaterial (layerDataOf g' currentLayer) then 0.9 else 1).
Proof.
  intros ld triggered.
  set (so := if gtb (overhangs ld) 0 then Math_min (overhangs ld / 10) 1 * 0.9 else 0).
  set (wo := if gtb (overhangs ld) 0 then 0.9 else 0).
  set (sb := if gtb (bridges ld) 0 then Math_min (bridges ld / 5) 1 * 0.8 else 0).
  set (wb := if gtb (bridges ld) 0 then 0.8 else 0).
  set (sl := if (currentLayer <=? 3)%Z then 0.95 else 0).
  set (ss := if gtb (smallFeatures ld) 0
             then Math_min (smallFeatures ld / 20) 1 * 0.7 else 0).
  set (ws := if gtb (smallFeatures ld) 0 then 0.7 else 0).
  set (T := so + sb + sl + ss). set (W := wo + wb + sl + ws).
  assert (Hparts : (0 <= so <= wo) /\ (0 <= sb <= wb) /\ (0 <= ss <= ws)
                   /\ (0 <= sl)
                   /\ (if triggered then 0 < T else T == 0)
                   /\ (if triggered then 0 < W else W == 0)).
  { unfold triggered, T, W, so, wo, sb, wb, sl, ss, ws.
    destruct (gtb (overhangs ld) 0) eqn:Ho;
      [ apply gtb_gt in Ho; pose proof (share_pos (overhangs ld) 10 Ho ltac:(lra)) | ];
    (destruct (gtb (bridges ld) 0) eqn:Hb;
      [ apply gtb_gt in Hb; pose proof (share_pos (bridges ld) 5 Hb ltac:(lra)) | ]);
    (destruct (gtb (smallFeatures ld) 0) eqn:Hs;
      [ apply gtb_gt in Hs; pose proof (share_pos (smallFeatures ld) 20 Hs ltac:(lra)) | ]);
    destruct (currentLayer <=? 3)%Z; cbn [orb]; repeat split; lra. }
  destruct Hparts as (Ho & Hb & Hs & Hl & HT & HW).
  assert (Hcode : forall g' : GcodeAnalysis,
            overhangs (layerDataOf g' currentLayer) = overhangs ld ->
            bridges (layerDataOf g' currentLayer) = bridges ld ->
            smallFeatures (layerDataOf g' currentLayer) = smallFeatures ld ->
            calculateRiskScore g' currentLayer
            == (if triggered then T / W else 0)
               * (if gtb (solidInfill (layerDataOf g' currentLayer)) 0.8 then 0.9 else 1)
               * (if supportMaterial (layerDataOf g' currentLayer) then 0.9 else 1)).
  { intros g' Eo Eb Es. unfold calculateRiskScore.
    rewrite Eo, Eb, Es.
    cbn [weight riskZones_overhangs riskZones_bridges riskZones_smallFeatures
         riskZones_firstLayers safeZones_solidInfill safeZones_supported].
    unfold triggered, T, W, so, wo, sb, wb, sl, ss, ws in *.
    destruct (gtb (overhangs ld) 0); destruct (gtb (bridges ld) 0);
      destruct (gtb (smallFeatures ld) 0); destruct (currentLayer <=? 3)%Z;
      cbn [orb] in *;
      destruct (gtb (solidInfill (layerDataOf g' currentLayer)) 0.8);
      destruct (supportMaterial (layerDataOf g' currentLayer));
      match goal with
      | |- context [if gtb ?w 0 then _ else _] =>
          destruct (gtb w 0) eqn:Hw; [apply gtb_gt in Hw | apply gtb_le in Hw]
      end;
      try (exfalso; lra); try lra;
      (rewrite ratio_exact; [field; lra | lra | lra]). }
  exists (if triggered then T / W else 0). split; [| split].
  - destruct triggered; [| reflexivity]. split.
    + apply Qlt_shift_div_l; lra.
    + apply Qle_shift_div_r; [lra | unfold T, W; lra].
  - apply (Hcode g); reflexivity.
  - exact Hcode.
Qed.

End DetectorFacts.

Section RiskScoreFacts.

Import SpaghettiDetector.

(** The analysis that knows exactly one layer. *)
Lemma layerDataOf_singleton (currentLayer : Z) (ld : LayerData) :
  layerDataOf {| layers := Some {[ currentLayer := ld ]} |} currentLayer = ld.
Proof. unfold layerDataOf. cbn [layers]. now rewrite lookup_singleton_eq. Qed.

(** X9.  The risk score is 0 exactly when no risk zone triggers: no
    overhang, no bridge, no small feature and a layer above 3.  As soon as
    one zone triggers the score is positive, also with both safe zones
    present. *)
Theorem X9_risk_zero_iff_no_zone (g : GcodeAnalysis) (currentLayer : Z) :
  let ld := layerDataOf g currentLayer in
  let quiet :=
    overhangs ld <= 0 /\ bridges ld <= 0 /\ smallFeatures ld <= 0 /\ (3 < currentLayer)%Z in
  (calculateRiskScore g currentLayer == 0 <-> quiet)
  /\ (~ quiet -> 0 < calculateRiskScore g currentLayer).
Proof.
  intros ld quiet.
  destruct (calculateRiskScore_factors g currentLayer) as (base & Hbase & Hscore & _).
  fold ld in Hbase, Hscore.
  set (f1 := if gtb (solidInfill ld) 0.8 then 0.9 else 1) in *.
  set (f2 := if supportMaterial ld then 0.9 else 1) in *.
  assert (Hf1 : 0.9 <= f1 <= 1) by (unfold f1; destruct (gtb (solidInfill ld) 0.8); lra).
  assert (Hf2 : 0.9 <= f2 <= 1) by (unfold f2; destruct (supportMaterial ld); lra).
  assert (Hq : quiet <->
               gtb (overhangs ld) 0 || gtb (bridges ld) 0 || gtb (smallFeatures ld) 0
               || (currentLayer <=? 3)%Z = false).
  { unfold quiet. rewrite !orb_false_iff, !gtb_le, Z.leb_gt. tauto. }
  destruct (gtb (overhangs ld) 0 || gtb (bridges ld) 0 || gtb (smallFeatures ld) 0
            || (currentLayer <=? 3)%Z).
  - assert (Hpos : 0 < base * f1 * f2).
    { apply Qmult_lt_0_compat; [apply Qmult_lt_0_compat |]; lra. }
    split.
    + split; [intros H0; exfalso; lra | intros H; apply Hq in H; discriminate].
    + intros _. lra.
  - assert (Hz : base * f1 * f2 == 0) by (rewrite Hbase; lra).
    split.
    + split; [intros _; now apply Hq | intros _; lra].
    + intros Hn. exfalso. apply Hn. now apply Hq.
Qed.

(** X10.  A layer the analysis has no snapshot for is treated as a layer
    without features: its score is 1 up to layer 3 and 0 above, and the only
    risk factor that can be listed is the first-layers one. *)
Theorem X10_missing_layer_snapshot (g : GcodeAnalysis) (currentLayer : Z) :
  (forall ls, layers g = Some ls -> ls !! currentLayer = None) ->
  calculateRiskScore g currentLayer == (if (currentLayer <=? 3)%Z then 1 else 0)
  /\ identifyRiskFactors g currentLayer
     = (if (currentLayer <=? 3)%Z then [{| factor := first_layers; risk := high |}] else []).
Proof.
  intros Hmissing.
  assert (Hld : layerDataOf g currentLayer = emptyLayer).
  { unfold layerDataOf. destruct (layers g) as [ls |]; [| reflexivity].
    now rewrite (Hmissing ls eq_refl). }
  unfold calculateRiskScore, identifyRiskFactors. rewrite Hld.
  destruct (currentLayer <=? 3)%Z; split; vm_compute; reflexivity.
Qed.

(** X11.  The safe zones only dampen.  With the same counts on the same
    layer, support material never raises the score, and neither does a
    solid-infill fraction above 0.8; the two together take off less than a
    fifth of the score of the snapshot without safe zone. *)
Theorem X11_safe_zones_only_dampen
    (o b s : Q) (infill otherInfill : Q) (support : bool) (currentLayer : Z) :
  let snapshot (i : Q) (sup : bool) :=
    {| layers := Some {[ currentLayer :=
         {| overhangs := o; bridges := b; smallFeatures := s; solidInfill := i;
            supportMaterial := sup |} ]} |} in
  infill <= 0.8 ->
  calculateRiskScore (snapshot otherInfill true) currentLayer
  <= calculateRiskScore (snapshot otherInfill false) currentLayer
  /\ calculateRiskScore (snapshot otherInfill support) currentLayer
     <= calculateRiskScore (snapshot infill support) currentLayer
  /\ 0.8 * calculateRiskScore (snapshot infill false) currentLayer
     <= calculateRiskScore (snapshot otherInfill support) currentLayer.
Proof.
  intros snapshot Hlow.
  destruct (calculateRiskScore_factors (snapshot infill false) currentLayer)
    as (base & Hbase & _ & Hcode).
  unfold snapshot in Hcode, Hbase. rewrite layerDataOf_singleton in Hcode, Hbase.
  cbn [overhangs bridges smallFeatures] in Hcode, Hbase.
  assert (Hb : 0 <= base).
  { destruct (gtb o 0 || gtb b 0 || gtb s 0 || (currentLayer <=? 3)%Z); lra. }
  assert (Hall : forall i sup,
             calculateRiskScore (snapshot i sup) currentLayer
             == base * (if gtb i 0.8 then 0.9 else 1) * (if sup then 0.9 else 1)).
  { intros i sup. unfold snapshot. rewrite Hcode; rewrite layerDataOf_singleton;
      reflexivity. }
  apply gtb_le in Hlow. rewrite !Hall, Hlow.
  destruct (gtb otherInfill 0.8), support; repeat split; nra.
Qed.

(** X12.  Operator feedback moves the accuracy the way it points: a
    confirmed detection never lowers [getHistoricalAccuracy] and a false
    alarm never raises it, starting from the default 0.8 as from any
    recorded ratio. *)
Theorem X12_feedback_moves_accuracy (d : t) :
  getHistoricalAccuracy d <= getHistoricalAccuracy (reportFeedback true d)
  /\ getHistoricalAccuracy (reportFeedback false d) <= getHistoricalAccuracy d.
Proof.
  unfold getHistoricalAccuracy, reportFeedback. cbn [truePositives falsePositives].
  set (tp := truePositives d). set (fp := falsePositives d).
  assert (Htp : 0 <= inject_Z (Z.of_nat tp))
    by (change 0 with (inject_Z 0); rewrite <- Zle_Qle; lia).
  assert (Hfp : 0 <= inject_Z (Z.of_nat fp))
    by (change 0 with (inject_Z 0); rewrite <- Zle_Qle; lia).
  assert (Hadd : forall a b : nat,
             inject_Z (Z.of_nat (a + b)) == inject_Z (Z.of_nat a) + inject_Z (Z.of_nat b))
    by (intros a b; rewrite Nat2Z.inj_add, inject_Z_plus; reflexivity).
  assert (HS : forall a : nat, inject_Z (Z.of_nat (S a)) == inject_Z (Z.of_nat a) + 1)
    by (intros a; rewrite Nat2Z.inj_succ, <- Z.add_1_r, inject_Z_plus; reflexivity).
  assert (Hzero : (tp + fp = 0)%nat ->
                  inject_Z (Z.of_nat tp) == 0 /\ inject_Z (Z.of_nat fp) == 0).
  { intros E. replace tp with 0%nat by lia. replace fp with 0%nat by lia.
    split; reflexivity. }
  assert (Hpos : (tp + fp <> 0)%nat ->
                 0 < inject_Z (Z.of_nat tp) + inject_Z (Z.of_nat fp)).
  { intros E. rewrite <- Hadd. change 0 with (inject_Z 0). rewrite <- Zlt_Qlt. lia. }
  split.
  - replace (S tp + fp)%nat with (S (tp + fp)) by lia. cbn [Nat.eqb].
    destruct (tp + fp =? 0)%nat eqn:E.
    + apply Nat.eqb_eq in E. destruct (Hzero E) as [Hx Hy].
      rewrite !HS, Hadd, Hx, Hy. apply Qle_shift_div_l; lra.
    + apply Nat.eqb_neq in E. specialize (Hpos E).
      rewrite !HS, !Hadd.
      set (x := inject_Z (Z.of_nat tp)) in *. set (y := inject_Z (Z.of_nat fp)) in *.
      assert (Hr : x / (x + y) * (x + y) == x) by (field; lra).
      assert (Hr1 : 0 <= x / (x + y) <= 1)
        by (split; [apply Qle_shift_div_l | apply Qle_shift_div_r]; lra).
      set (r := x / (x + y)) in *.
      apply Qle_shift_div_l; [lra | nra].
  - replace (tp + S fp)%nat with (S (tp + fp)) by lia. cbn [Nat.eqb].
    destruct (tp + fp =? 0)%nat eqn:E.
    + apply Nat.eqb_eq in E. destruct (Hzero E) as [Hx Hy].
      rewrite !HS, Hadd, Hx, Hy. apply Qle_shift_div_r; lra.
    + apply Nat.eqb_neq in E. specialize (Hpos E).
      rewrite !HS, !Hadd.
      set (x := inject_Z (Z.of_nat tp)) in *. set (y := inject_Z (Z.of_nat fp)) in *.
      assert (Hr : x / (x + y) * (x + y) == x) by (field; lra).
      assert (Hr1 : 0 <= x / (x + y) <= 1)
        by (split; [apply Qle_shift_div_l | apply Qle_shift_div_r]; lra).
      set (r := x / (x + y)) in *.
      apply Qle_shift_div_r; [lra | nra].
Qed.

End RiskScoreFacts.

(** ** What an evaluation does to the detector and to the alert list *)

Section EvaluationEffects.

Import PrintMonitor Observations.

Lemma keep50_slice {A : Type} (l : list A) :
  (if (50 <? length l)%nat then slice_last 50 l else l) = slice_last 50 l.
Proof.
  destruct (50 <? length l)%nat eqn:E; [reflexivity |].
  apply Nat.ltb_ge in E. unfold slice_last.
  replace (length l - 50)%nat with 0%nat by lia. reflexivity.
Qed.

Lemma analyzeCurrentPrint_result now cameraData sensorData gcodeAnalysis layer d env :
  let '((detection, d'), env') :=
    SpaghettiDetector.analyzeCurrentPrint now cameraData sensorData gcodeAnalysis layer d env in
  SpaghettiDetector.truePositives d' = SpaghettiDetector.truePositives d
  /\ SpaghettiDetector.falsePositives d' = SpaghettiDetector.falsePositives d
  /\ SpaghettiDetector.detectionHistory d'
     = slice_last 50 (SpaghettiDetector.detectionHistory d ++ [detection])
  /\ SpaghettiDetector.timestamp detection = now
  /\ SpaghettiDetector.layer detection = layer
  /\ exists visualAnalysis,
       SpaghettiDetector.det_confidence detection
       = SpaghettiDetector.calculateConfidence d
           (SpaghettiDetector.calculateRiskScore gcodeAnalysis layer)
           (SpaghettiDetector.analyzeSensorPatterns sensorData) visualAnalysis.
Proof.
  unfold SpaghettiDetector.analyzeCurrentPrint, mbind, SpaghettiDetector.Eff_bind.
  destruct (SpaghettiDetector.analyzeVisualPatterns cameraData env) as [va e1].
  unfold mret, SpaghettiDetector.Eff_ret.
  cbn [SpaghettiDetector.truePositives SpaghettiDetector.falsePositives
       SpaghettiDetector.detectionHistory SpaghettiDetector.timestamp
       SpaghettiDetector.layer SpaghettiDetector.det_confidence].
  rewrite keep50_slice.
  do 5 (split; [reflexivity |]). now exists va.
Qed.

(** One evaluation, seen from the monitor. *)
Lemma runSpaghettiDetection_result (now : Z) (m : t) (env : SpaghettiDetector.Env) :
  let '((detection, m'), env') := runSpaghettiDetection now m env in
  SpaghettiDetector.truePositives (spaghettiDetector m')
  = SpaghettiDetector.truePositives (spaghettiDetector m)
  /\ SpaghettiDetector.falsePositives (spaghettiDetector m')
     = SpaghettiDetector.falsePositives (spaghettiDetector m)
  /\ SpaghettiDetector.detectionHistory (spaghettiDetector m')
     = slice_last 50
         (SpaghettiDetector.detectionHistory (spaghettiDetector m) ++ [detection])
  /\ SpaghettiDetector.timestamp detection = now
  /\ SpaghettiDetector.layer detection = currentLayer m
  /\ alerts m'
     = alerts m
       ++ (if gtb (SpaghettiDetector.det_confidence detection) 0.7
           then [spaghettiAlert now (currentLayer m) detection] else [])
  /\ exists riskScore sensorAlerts visualAnalysis,
       SpaghettiDetector.det_confidence detection
       = SpaghettiDetector.calculateConfidence (spaghettiDetector m)
           riskScore sensorAlerts visualAnalysis.
Proof.
  unfold runSpaghettiDetection, mbind, SpaghettiDetector.Eff_bind.
  destruct (simulatedLayer (currentLayer m) env) as [layerData e1].
  match goal with
  | |- context [SpaghettiDetector.analyzeCurrentPrint ?a ?b ?c ?d ?e ?f e1] =>
      pose proof (analyzeCurrentPrint_result a b c d e f e1) as H;
      destruct (SpaghettiDetector.analyzeCurrentPrint a b c d e f e1)
        as [[detection detector] e2]
  end.
  destruct H as (Htp & Hfp & Hh & Ht & Hl & va & Hc).
  destruct (gtb (SpaghettiDetector.det_confidence detection) 0.7) eqn:E; cbn;
    rewrite E, ?app_nil_r; repeat (split; [assumption || reflexivity |]); eauto.
Qed.

(** A property kept by each of these steps is kept by [updatePrinterData]. *)
Lemma updatePrinterData_keeps (P : t -> Prop) (now : Z) (printerData : PrinterData)
    (m : t) (env : SpaghettiDetector.Env) :
  keptByUpdateSteps P -> P m -> P (fst (updatePrinterData now printerData m env)).
Proof.
  intros (Hbuf & Hlayer & Hprog & Heval) HP. unfold updatePrinterData.
  destruct (isMonitoring m); cbn [negb]; [| exact HP].
  unfold mbind, SpaghettiDetector.Eff_bind.
  assert (Hstage : forall m0 e0, P m0 ->
            forall printerZ, P (fst (updateLayerTracking now printerZ m0 e0))).
  { intros m0 e0 HP0 printerZ. unfold updateLayerTracking.
    destruct (currentLayer m0 <? Math_floor (printerZ / 0.2))%Z; [| exact HP0].
    match goal with |- context [set_currentLayer ?l m0] => set (m1 := set_currentLayer l m0) end.
    assert (HP1 : P m1) by (apply Hlayer; exact HP0).
    match goal with |- context [if ?c then _ else _] => destruct c end; [| exact HP1].
    unfold mbind, SpaghettiDetector.Eff_bind.
    specialize (Heval now m1 e0 HP1).
    destruct (runSpaghettiDetection now m1 e0) as [[d m2] e2]. exact Heval. }
  assert (Htail : forall m1 e1, P m1 ->
            P (fst ((let m2 :=
                       estimateProgress printerData
                         match printer_temperature printerData with
                         | Some temp =>
                             set_dataBuffer (push_temperature (hotend temp) (dataBuffer m1)) m1
                         | None => m1
                         end in
                     if (0 <? currentLayer m2)%Z && (Z.rem (currentLayer m2) 10 =? 0)%Z
                     then '(_, m3) ← runSpaghettiDetection now m2; mret m3
                     else mret m2) e1))).
  { intros m1 e1 H1. cbv zeta.
    match goal with
    | |- context [estimateProgress printerData ?m2] =>
        assert (H3 : P (estimateProgress printerData m2));
        [ apply Hprog; destruct (printer_temperature printerData);
          [apply Hbuf |]; exact H1
        | set (m3 := estimateProgress printerData m2) in * ]
    end.
    destruct ((0 <? currentLayer m3)%Z && (Z.rem (currentLayer m3) 10 =? 0)%Z);
      [| exact H3].
    unfold mbind, SpaghettiDetector.Eff_bind.
    specialize (Heval now m3 e1 H3).
    destruct (runSpaghettiDetection now m3 e1) as [[d m4] e2]. exact Heval. }
  destruct (position printerData) as [pos |].
  - match goal with
    | |- context [updateLayerTracking now (z pos) ?m0 env] =>
        assert (H1 : P (fst (updateLayerTracking now (z pos) m0 env)))
          by (apply Hstage; apply Hbuf; exact HP);
        destruct (updateLayerTracking now (z pos) m0 env) as [m1 e1]
    end.
    apply (Htail m1 e1 H1).
  - apply (Htail m env HP).
Qed.

(** The same for a whole run, when the other calls keep the property too. *)
Lemma run_keeps (P : t -> Prop) (calls : list (Z * Call)) (m : t)
    (env : SpaghettiDetector.Env) :
  keptByUpdateSteps P ->
  (forall now c m1 e1,
      In (now, c) calls ->
      match c with UpdatePrinterData _ => False | _ => True end ->
      P m1 -> P (fst (call now c m1 e1))) ->
  P m -> P (fst (run calls m env)).
Proof.
  intros Hsteps. revert m env.
  induction calls as [| [now c] rest IH]; intros m env Hother HP; [exact HP |].
  cbn [run]. unfold mbind, SpaghettiDetector.Eff_bind.
  assert (H1 : P (fst (call now c m env))).
  { destruct c as [j | | sd | pd | b];
      try (apply Hother; [now left | exact I | exact HP]).
    cbn [call]. now apply updatePrinterData_keeps. }
  destruct (call now c m env) as [m1 e1]. cbn [fst] in H1.
  apply IH; [| exact H1].
  intros now' c' m' e' Hin. apply Hother. now right.
Qed.

(** A property that reads only the detector and the alert list is kept by
    the steps as soon as an evaluation keeps it. *)
Lemma keptByUpdateSteps_detector (P : t -> Prop) :
  (forall m1 m2, spaghettiDetector m1 = spaghettiDetector m2 -> alerts m1 = alerts m2 ->
                 P m1 -> P m2) ->
  (forall now m env, P m -> P (snd (fst (runSpaghettiDetection now m env)))) ->
  keptByUpdateSteps P.
Proof.
  intros Hread Heval. repeat split; try exact Heval.
  - intros b m. now apply Hread.
  - intros l m. now apply Hread.
  - intros printerData m.
    pose proof (estimateProgress_frame printerData m) as (_ & _ & _ & Ha & Hd).
    now apply Hread.
Qed.

End EvaluationEffects.

(** ** Invariants of runs *)

Section RunInvariants.

Import PrintMonitor Observations.

Lemma Math_min_zero (x : Q) : x == 0 -> Math_min x 1 == 0.
Proof.
  intros H. unfold Math_min. destruct (Qle_bool x 1) eqn:E; [exact H |].
  assert (Hle : x <= 1) by lra. apply Qle_bool_iff in Hle. congruence.
Qed.

Lemma calculateConfidence_silenced (d : SpaghettiDetector.t) riskScore sensorAlerts visual :
  SpaghettiDetector.truePositives d = 0%nat ->
  SpaghettiDetector.falsePositives d <> 0%nat ->
  SpaghettiDetector.calculateConfidence d riskScore sensorAlerts visual == 0.
Proof.
  intros Htp Hfp. unfold SpaghettiDetector.calculateConfidence.
  apply Math_min_zero.
  assert (Hacc : SpaghettiDetector.getHistoricalAccuracy d == 0).
  { unfold SpaghettiDetector.getHistoricalAccuracy. rewrite Htp. cbn [Nat.add].
    destruct (SpaghettiDetector.falsePositives d =? 0)%nat eqn:E;
      [apply Nat.eqb_eq in E; contradiction |].
    unfold Qdiv. change (inject_Z (Z.of_nat 0)) with 0. lra. }
  rewrite Hacc. lra.
Qed.

(** X13.  A detector whose feedback so far consists of false alarms only
    fuses every confidence to 0; along any run in which no detection is
    confirmed, the monitor then never adds a spaghetti-risk alert. *)
Theorem X13_false_alarms_silence_detector :
  (forall (d : SpaghettiDetector.t) riskScore sensorAlerts visual,
      SpaghettiDetector.truePositives d = 0%nat ->
      SpaghettiDetector.falsePositives d <> 0%nat ->
      SpaghettiDetector.calculateConfidence d riskScore sensorAlerts visual == 0)
  /\ (forall (calls : list (Z * Call)) (m : t) (env : SpaghettiDetector.Env),
         SpaghettiDetector.truePositives (spaghettiDetector m) = 0%nat ->
         SpaghettiDetector.falsePositives (spaghettiDetector m) <> 0%nat ->
         (forall now, ~ In (now, ReportSpaghettiOutcome true) calls) ->
         (forall a, In a (alerts m) -> type a <> spaghetti_risk) ->
         forall a, In a (alerts (fst (run calls m env))) -> type a <> spaghetti_risk).
Proof.
  split; [exact calculateConfidence_silenced |].
  intros calls m env Htp Hfp Hnone Hclean.
  set (P := fun m : t =>
              SpaghettiDetector.truePositives (spaghettiDetector m) = 0%nat
              /\ SpaghettiDetector.falsePositives (spaghettiDetector m) <> 0%nat
              /\ forall a, In a (alerts m) -> type a <> spaghetti_risk).
  assert (HP : P (fst (run calls m env))); [| apply HP].
  apply run_keeps; [| | now repeat split].
  - apply keptByUpdateSteps_detector.
    + intros m1 m2 Hd Ha (H1 & H2 & H3). unfold P. now rewrite <- Hd, <- Ha.
    + intros now m1 e1 (H1 & H2 & H3).
      pose proof (runSpaghettiDetection_result now m1 e1) as H.
      destruct (runSpaghettiDetection now m1 e1) as [[d m2] e2].
      destruct H as (Htp' & Hfp' & _ & _ & _ & Ha & r & sa & va & Hc).
      cbn [fst snd]. unfold P. rewrite Htp', Hfp', Ha.
      assert (Hz : gtb (SpaghettiDetector.det_confidence d) 0.7 = false).
      { apply gtb_le. rewrite Hc, calculateConfidence_silenced by assumption. lra. }
      rewrite Hz, app_nil_r. now repeat split.
  - intros now c m1 e1 Hin Hc (H1 & H2 & H3).
    destruct c as [j | | sd | pd | b]; try contradiction; cbn [call mret
      SpaghettiDetector.Eff_ret fst]; unfold P.
    + cbn. repeat split; trivial. intros a [].
    + unfold stopMonitoring. destruct (currentPrint m1); cbn; now repeat split.
    + unfold updateSensorData. destruct (isMonitoring m1); cbn [negb];
        [| now repeat split].
      unfold checkRealTimeAlerts.
      cbn [spaghettiDetector alerts set_alerts set_dataBuffer].
      repeat split; trivial.
      intros a Ha. apply filter_In in Ha. destruct Ha as [Ha _].
      apply in_app_or in Ha. destruct Ha as [Ha | Ha]; [now apply H3 |].
      repeat (apply in_app_or in Ha; destruct Ha as [Ha | Ha]);
        match type of Ha with
        | In _ (if ?c then _ else _) => destruct c
        end; cbn in Ha; intuition (subst; discriminate).
    + destruct b; [exfalso; now apply (Hnone now) |].
      cbn. repeat split; trivial. discriminate.
Qed.

(** X14.  The detection history is a FIFO of capacity 50: an evaluation
    appends its detection and keeps the last 50 entries, so along every run
    that starts with at most 50 entries the history never holds more, and
    the statistics report at most 50 detections in total and at most 10
    recent ones. *)
Theorem X14_detection_history_capacity :
  (forall now cameraData sensorData gcodeAnalysis layer (d : SpaghettiDetector.t) env,
      let '((detection, d'), _) :=
        SpaghettiDetector.analyzeCurrentPrint now cameraData sensorData gcodeAnalysis
          layer d env in
      SpaghettiDetector.detectionHistory d'
      = slice_last 50 (SpaghettiDetector.detectionHistory d ++ [detection])
      /\ List.last (SpaghettiDetector.detectionHistory d') detection = detection
      /\ (length (SpaghettiDetector.detectionHistory d') <= 50)%nat)
  /\ (forall (calls : list (Z * Call)) (m : t) (env : SpaghettiDetector.Env),
         (length (SpaghettiDetector.detectionHistory (spaghettiDetector m)) <= 50)%nat ->
         let stats := getSpaghettiStats (fst (run calls m env)) in
         (SpaghettiDetector.totalDetections stats <= 50)%nat
         /\ (length (SpaghettiDetector.recentDetections stats) <= 10)%nat).
Proof.
  split.
  - intros now cameraData sensorData gcodeAnalysis layer d env.
    pose proof (analyzeCurrentPrint_result now cameraData sensorData gcodeAnalysis
                  layer d env) as H.
    destruct (SpaghettiDetector.analyzeCurrentPrint now cameraData sensorData
                gcodeAnalysis layer d env) as [[detection d'] e1].
    destruct H as (_ & _ & Hh & _). rewrite Hh.
    split; [reflexivity |]. split.
    + unfold slice_last. rewrite length_app. cbn [length].
      set (h := SpaghettiDetector.detectionHistory d).
      rewrite drop_app_le by lia. now rewrite last_last.
    + rewrite slice_last_length. lia.
  - intros calls m env Hlen.
    set (P := fun m : t =>
                (length (SpaghettiDetector.detectionHistory (spaghettiDetector m)) <= 50)%nat).
    assert (HP : P (fst (run calls m env))).
    { apply run_keeps; [| | exact Hlen].
      - apply keptByUpdateSteps_detector.
        + intros m1 m2 Hd _. unfold P. now rewrite Hd.
        + intros now m1 e1 _.
          pose proof (runSpaghettiDetection_result now m1 e1) as H.
          destruct (runSpaghettiDetection now m1 e1) as [[d m2] e2].
          destruct H as (_ & _ & Hh & _). cbn [fst snd]. unfold P.
          rewrite Hh, slice_last_length. lia.
      - intros now c m1 e1 _ Hc H1.
        destruct c as [j | | sd | pd | b]; try contradiction;
          cbn [call mret SpaghettiDetector.Eff_ret fst]; unfold P.
        + exact H1.
        + unfold stopMonitoring. now destruct (currentPrint m1).
        + unfold updateSensorData. now destruct (isMonitoring m1).
        + now destruct b. }
    unfold getSpaghettiStats, SpaghettiDetector.getDetectionStats.
    cbn [SpaghettiDetector.totalDetections SpaghettiDetector.recentDetections].
    split; [exact HP | rewrite slice_last_length; lia].
Qed.

End RunInvariants.

Section SessionInvariants.

Import PrintMonitor Observations.

Lemma call_counters (now : Z) (c : Call) (m : t) (env : SpaghettiDetector.Env) :
  let m' := fst (call now c m env) in
  SpaghettiDetector.truePositives (spaghettiDetector m')
  = (SpaghettiDetector.truePositives (spaghettiDetector m) + reports true [(now, c)])%nat
  /\ SpaghettiDetector.falsePositives (spaghettiDetector m')
     = (SpaghettiDetector.falsePositives (spaghettiDetector m) + reports false [(now, c)])%nat.
Proof.
  destruct c as [j | | sd | pd | b]; cbn [call mret SpaghettiDetector.Eff_ret fst];
    unfold reports; cbn [List.filter snd length].
  - cbn. lia.
  - unfold stopMonitoring. destruct (currentPrint m); cbn; lia.
  - unfold updateSensorData. destruct (isMonitoring m); cbn; lia.
  - set (P := fun m' : t =>
                SpaghettiDetector.truePositives (spaghettiDetector m')
                = SpaghettiDetector.truePositives (spaghettiDetector m)
                /\ SpaghettiDetector.falsePositives (spaghettiDetector m')
                   = SpaghettiDetector.falsePositives (spaghettiDetector m)).
    assert (HP : P (fst (updatePrinterData now pd m env))).
    { apply updatePrinterData_keeps; [| now split].
      apply keptByUpdateSteps_detector.
      - intros m1 m2 Hd _. unfold P. now rewrite Hd.
      - intros now' m1 e1 [H1 H2].
        pose proof (runSpaghettiDetection_result now' m1 e1) as H.
        destruct (runSpaghettiDetection now' m1 e1) as [[d m2] e2].
        destruct H as (Htp & Hfp & _). cbn [fst snd]. unfold P. split; congruence. }
    destruct HP as [H1 H2]. rewrite H1, H2. lia.
  - destruct b; cbn; lia.
Qed.

Lemma reports_cons (outcome : bool) (c : Z * Call) (calls : list (Z * Call)) :
  reports outcome (c :: calls) = (reports outcome [c] + reports outcome calls)%nat.
Proof.
  unfold reports. cbn [List.filter].
  match goal with |- context [if ?b then _ else _] => destruct b end; reflexivity.
Qed.

(** X15.  The feedback counters are written by the feedback operation and
    by nothing else: after any run, [truePositives] has grown by the number
    of confirmed outcomes reported in it and [falsePositives] by the number
    of false alarms, whatever telemetry, starts and stops came in between. *)
Theorem X15_counters_count_reports
    (calls : list (Z * Call)) (m : t) (env : SpaghettiDetector.Env) :
  let m' := fst (run calls m env) in
  SpaghettiDetector.truePositives (spaghettiDetector m')
  = (SpaghettiDetector.truePositives (spaghettiDetector m) + reports true calls)%nat
  /\ SpaghettiDetector.falsePositives (spaghettiDetector m')
     = (SpaghettiDetector.falsePositives (spaghettiDetector m) + reports false calls)%nat.
Proof.
  revert m env. induction calls as [| [now c] rest IH]; intros m env.
  - cbn. unfold reports. cbn. lia.
  - cbn [run]. unfold mbind, SpaghettiDetector.Eff_bind.
    pose proof (call_counters now c m env) as H1.
    destruct (call now c m env) as [m1 e1]. cbn [fst] in H1.
    specialize (IH m1 e1). cbv zeta in *.
    rewrite (reports_cons true), (reports_cons false). lia.
Qed.

Lemma sessionOpen_steps : keptByUpdateSteps sessionOpen.
Proof.
  unfold keptByUpdateSteps, sessionOpen. repeat split.
  - intros b m H. exact H.
  - intros l m H. exact H.
  - intros printerData m H. unfold estimateProgress.
    destruct (currentPrint m) as [p |] eqn:Ep; [| now rewrite Ep].
    destruct (position printerData); [| now rewrite Ep].
    cbn. intros Hmon. destruct (H Hmon) as (q & Hq & Hs).
    injection Hq as <-. eexists. split; [reflexivity | exact Hs].
  - intros now m env H.
    pose proof (runSpaghettiDetection_frame now m env) as Hf.
    destruct (runSpaghettiDetection now m env) as [[d m'] e'].
    destruct Hf as (_ & Hm & Hp & _). cbn [fst snd]. now rewrite Hm, Hp.
Qed.

(** X16.  Whenever the monitor is monitoring it has a current print whose
    status is 'printing': this holds for a new monitor and is kept by every
    call, so the status test inside [checkRealTimeAlerts] never meets a
    missing session and a reading below 180 always raises the
    temperature-drop alert. *)
Theorem X16_monitoring_has_open_session :
  sessionOpen constructor
  /\ (forall (calls : list (Z * Call)) (m : t) (env : SpaghettiDetector.Env),
         sessionOpen m -> sessionOpen (fst (run calls m env)))
  /\ (forall (now : Z) (sensorData : SensorData) (m : t) (v : Q),
         sessionOpen m -> isMonitoring m = true ->
         sensor_temperature sensorData = Some v -> v < 180 ->
         In (realTimeAlert error TemperatureDrop (Some v) now)
            (alerts (updateSensorData now sensorData m))).
Proof.
  split; [| split].
  - intros H. discriminate H.
  - intros calls m env H. apply run_keeps; [exact sessionOpen_steps | | exact H].
    intros now c m1 e1 _ Hc H1.
    destruct c as [j | | sd | pd | b]; try contradiction;
      cbn [call mret SpaghettiDetector.Eff_ret fst]; unfold sessionOpen in *.
    + cbn. intros _. eexists. split; reflexivity.
    + unfold stopMonitoring. destruct (currentPrint m1); cbn; intros Hf; discriminate Hf.
    + unfold updateSensorData. destruct (isMonitoring m1) eqn:E; cbn [negb].
      * cbn. intros _. now apply H1.
      * rewrite E. intros Hf. discriminate Hf.
    + cbn. exact H1.
  - intros now sensorData m v Hopen Hmon Hv Hlow.
    destruct (Hopen Hmon) as (p & Hp & Hs).
    unfold updateSensorData. rewrite Hmon. cbn [negb].
    unfold checkRealTimeAlerts. cbn [alerts set_alerts set_dataBuffer].
    apply filter_In. split.
    + apply in_or_app. right. apply in_or_app. right. apply in_or_app. left.
      rewrite Hv. cbn [opt_ltb]. apply ltb_lt in Hlow. rewrite Hlow.
      unfold isPrinting. cbn [currentPrint set_dataBuffer]. rewrite Hp.
      destruct p as [i n s e st pr]. cbn in Hs. subst st. cbn. now left.
    + cbn. unfold oneHour. apply Z.ltb_lt. lia.
Qed.

(** X17.  While idle the two update operations do nothing at all: a run of
    sensor and printer updates on a monitor that is not monitoring returns
    the very same monitor, draws no random number and records no
    evaluation. *)
Theorem X17_idle_monitor_ignores_updates
    (calls : list (Z * Call)) (m : t) (env : SpaghettiDetector.Env) :
  isMonitoring m = false ->
  Forall (fun c => match snd c with
                   | UpdateSensorData _ | UpdatePrinterData _ => True
                   | _ => False
                   end) calls ->
  run calls m env = (m, env).
Proof.
  intros Hidle Hcalls. induction Hcalls as [| [now c] rest Hc _ IH]; [reflexivity |].
  cbn [run]. unfold mbind, SpaghettiDetector.Eff_bind.
  destruct c as [j | | sd | pd | b]; try contradiction; cbn [call].
  - unfold updateSensorData. rewrite Hidle. cbn. exact IH.
  - rewrite updatePrinterData_idle by exact Hidle. exact IH.
Qed.

End SessionInvariants.

(** ** The sensor path *)

Section SensorPath.

Import PrintMonitor Observations.

Lemma keepLast100_slice {A : Type} (data : list A) : keepLast100 data = slice_last 100 data.
Proof.
  unfold keepLast100. destruct (100 <? length data)%nat eqn:E; [reflexivity |].
  apply Nat.ltb_ge in E. unfold slice_last.
  replace (length data - 100)%nat with 0%nat by lia. reflexivity.
Qed.

(** Trimming twice is trimming once. *)
Lemma slice_last_app {A : Type} (n : nat) (a b : list A) :
  slice_last n (slice_last n a ++ b) = slice_last n (a ++ b).
Proof.
  unfold slice_last. rewrite !length_app, length_drop.
  destruct (Nat.le_gt_cases (length a) n) as [Hle | Hgt].
  - replace (length a - n)%nat with 0%nat by lia. cbn [drop].
    f_equal. lia.
  - replace (length a - (length a - n) + length b - n)%nat with (length b) by lia.
    replace (length a + length b - n)%nat with ((length a - n) + length b)%nat by lia.
    rewrite <- drop_drop. f_equal.
    rewrite drop_app_le by lia. reflexivity.
Qed.

Lemma slice_last_short {A : Type} (n : nat) (a : list A) :
  (length a <= n)%nat -> slice_last n a = a.
Proof.
  intros H. unfold slice_last. now replace (length a - n)%nat with 0%nat by lia.
Qed.

(** What one accepted sensor update leaves in the buffer. *)
Lemma updateSensorData_buffer (now : Z) (sensorData : SensorData) (m : t) :
  isMonitoring m = true ->
  let m' := updateSensorData now sensorData m in
  let pushed (v : option Q) := match v with Some q => [q] | None => [] end in
  isMonitoring m' = true
  /\ temperature (dataBuffer m')
     = slice_last 100 (temperature (dataBuffer m) ++ pushed (sensor_temperature sensorData))
  /\ vibration (dataBuffer m')
     = slice_last 100 (vibration (dataBuffer m) ++ pushed (sensor_vibration sensorData))
  /\ filamentFlow (dataBuffer m')
     = slice_last 100 (filamentFlow (dataBuffer m) ++ pushed (sensor_filamentFlow sensorData))
  /\ positions (dataBuffer m') = slice_last 100 (positions (dataBuffer m)).
Proof.
  intros Hmon. unfold updateSensorData. rewrite Hmon. cbn [negb].
  unfold checkRealTimeAlerts, trimBuffer.
  cbn [isMonitoring dataBuffer set_alerts set_dataBuffer temperature vibration
       filamentFlow positions].
  rewrite !keepLast100_slice.
  destruct (sensor_temperature sensorData), (sensor_vibration sensorData),
    (sensor_filamentFlow sensorData); cbn [push_if_defined push_temperature
      push_vibration push_filamentFlow temperature vibration filamentFlow positions];
    rewrite ?app_nil_r; repeat split; trivial.
Qed.

(** X18.  On the sensor path each channel is a FIFO of capacity 100: after
    any run of accepted sensor updates the temperature, vibration and flow
    histories are the last 100 of what they held before followed by the
    values that arrived, in arrival order (an update without a value on a
    channel adds nothing to it). *)
Theorem X18_sensor_channels_are_fifo
    (updates : list (Z * SensorData)) (m : t) (env : SpaghettiDetector.Env) :
  isMonitoring m = true ->
  (length (temperature (dataBuffer m)) <= 100)%nat ->
  (length (vibration (dataBuffer m)) <= 100)%nat ->
  (length (filamentFlow (dataBuffer m)) <= 100)%nat ->
  let m' := fst (run (map (fun u => (fst u, UpdateSensorData (snd u))) updates) m env) in
  let arrived (f : SensorData -> option Q) := omap (fun u => f (snd u)) updates in
  temperature (dataBuffer m')
  = slice_last 100 (temperature (dataBuffer m) ++ arrived sensor_temperature)
  /\ vibration (dataBuffer m')
     = slice_last 100 (vibration (dataBuffer m) ++ arrived sensor_vibration)
  /\ filamentFlow (dataBuffer m')
     = slice_last 100 (filamentFlow (dataBuffer m) ++ arrived sensor_filamentFlow).
Proof.
  revert m env. induction updates as [| [now sd] rest IH]; intros m env Hmon Ht Hv Hf.
  - cbn. rewrite !app_nil_r, !slice_last_short by assumption. now repeat split.
  - cbn [map run fst snd call]. unfold mbind, SpaghettiDetector.Eff_bind.
    cbn [mret SpaghettiDetector.Eff_ret].
    pose proof (updateSensorData_buffer now sd m Hmon) as (Hm1 & Et & Ev & Ef & _).
    set (m1 := updateSensorData now sd m) in *.
    specialize (IH m1 env Hm1).
    destruct IH as (It & Iv & If).
    { rewrite Et, slice_last_length. lia. }
    { rewrite Ev, slice_last_length. lia. }
    { rewrite Ef, slice_last_length. lia. }
    cbv zeta in *. rewrite It, Iv, If, Et, Ev, Ef, !slice_last_app.
    cbn [omap list_omap snd].
    destruct (sensor_temperature sd), (sensor_vibration sd), (sensor_filamentFlow sd);
      cbn [app]; rewrite <- ?app_assoc, ?app_nil_r; cbn [app]; now repeat split.
Qed.

(** X19.  The alert rules of a sensor update.  A reading inside all bands
    (temperature from 180 to 250, vibration up to 80, flow from 100) adds no
    alert; any update adds at most three, since a temperature cannot be
    above 250 and below 180 at once; and every alert it adds carries the
    time of the update. *)
Theorem X19_real_time_alert_rules (now : Z) (sensorData : SensorData) (m : t) :
  isMonitoring m = true ->
  let recent := List.filter (fun a => (now - oneHour <? timestamp a)%Z) (alerts m) in
  (exists added,
      alerts (updateSensorData now sensorData m) = recent ++ added
      /\ (length added <= 3)%nat
      /\ (forall a, In a added -> timestamp a = now /\ type a <> spaghetti_risk))
  /\ (nominal sensorData -> alerts (updateSensorData now sensorData m) = recent).
Proof.
  intros Hmon recent. unfold updateSensorData. rewrite Hmon. cbn [negb].
  unfold checkRealTimeAlerts. cbn [alerts set_alerts set_dataBuffer].
  rewrite List.filter_app. fold recent.
  set (hot := opt_gtb (sensor_temperature sensorData) 250).
  set (cold := opt_ltb (sensor_temperature sensorData) 180).
  set (printingNow := isPrinting _).
  set (shaky := opt_gtb (sensor_vibration sensorData) 80).
  set (starved := opt_ltb (sensor_filamentFlow sensorData) 100).
  assert (Hexcl : hot && cold = false).
  { unfold hot, cold. destruct (sensor_temperature sensorData) as [v |]; [| reflexivity].
    cbn [opt_gtb opt_ltb]. destruct (gtb v 250) eqn:E1, (ltb v 180) eqn:E2; trivial.
    apply gtb_gt in E1. apply ltb_lt in E2. lra. }
  assert (Hnow : (now - oneHour <? now)%Z = true) by (apply Z.ltb_lt; unfold oneHour; lia).
  split.
  - eexists. split; [reflexivity |].
    destruct hot, cold, printingNow, shaky, starved; try discriminate Hexcl;
      cbn [andb app List.filter realTimeAlert timestamp]; rewrite ?Hnow;
      (split; [cbn; lia |]);
      intros a Ha; cbn in Ha; intuition (subst; cbn; (reflexivity || discriminate)).
  - intros (Ht & Hv & Hf).
    assert (hot = false /\ cold = false) as [-> ->].
    { unfold hot, cold. destruct (sensor_temperature sensorData) as [v |]; [| now split].
      specialize (Ht v eq_refl). cbn [opt_gtb opt_ltb].
      split; [apply gtb_le | apply ltb_ge]; lra. }
    assert (shaky = false) as ->.
    { unfold shaky. destruct (sensor_vibration sensorData) as [v |]; [| reflexivity].
      specialize (Hv v eq_refl). cbn [opt_gtb]. now apply gtb_le. }
    assert (starved = false) as ->.
    { unfold starved. destruct (sensor_filamentFlow sensorData) as [v |]; [| reflexivity].
      specialize (Hf v eq_refl). cbn [opt_ltb]. now apply ltb_ge. }
    cbn. now rewrite app_nil_r.
Qed.

End SensorPath.

(** ** Progress, reports and the end of a session *)

Section Reports.

Import PrintMonitor Observations LiveReport.

Lemma Math_min_mono (a b c : Q) : b <= c -> Math_min a b <= Math_min a c.
Proof.
  intros H. apply Math_min_glb; [apply Math_min_le_l |].
  eapply Qle_trans; [apply Math_min_le_r | exact H].
Qed.

(** X20.  [estimateProgress] writes the progress of the current print and
    nothing else: the session keeps its other fields and the monitor its
    detector, flag, buffers, alerts and layer.  The progress written is at
    most 100, is not negative when the nozzle height is not, is exactly 100
    from a height of 200 on, and never decreases with the height. *)
Theorem X20_progress_bounds (printerData : PrinterData) (m : t)
    (p : PrintSession) (pos : Position) :
  currentPrint m = Some p ->
  position printerData = Some pos ->
  exists v : Z,
    estimateProgress printerData m
    = {| spaghettiDetector := spaghettiDetector m;
         isMonitoring := isMonitoring m;
         currentPrint :=
           Some {| id := id p; name := name p; startTime := startTime p;
                   endTime := endTime p; status := status p; progress := v |};
         dataBuffer := dataBuffer m;
         alerts := alerts m;
         currentLayer := currentLayer m |}
    /\ (v <= 100)%Z
    /\ (0 <= z pos -> (0 <= v)%Z)
    /\ (200 <= z pos -> v = 100%Z)
    /\ forall (higher : PrinterData) (pos' : Position),
         position higher = Some pos' -> z pos <= z pos' ->
         exists p', currentPrint (estimateProgress higher m) = Some p'
                    /\ (v <= progress p')%Z.
Proof.
  intros Hp Hpos. unfold estimateProgress. rewrite Hp, Hpos.
  eexists. split; [reflexivity |].
  set (x := Math_min 100 (z pos / 200 * 100)).
  assert (Hx : x <= 100) by apply Math_min_le_l.
  split; [| split; [| split]].
  - apply (Math_round_le 100). exact Hx.
  - intros Hz. apply (Math_round_ge 0). unfold inject_Z.
    apply Math_min_glb; [lra |].
    apply Qmult_le_0_compat; [apply Qle_shift_div_l |]; lra.
  - intros Hz. apply Z.le_antisymm; [apply (Math_round_le 100); exact Hx |].
    apply (Math_round_ge 100). unfold inject_Z.
    apply Math_min_glb; [lra |].
    assert (1 <= z pos / 200) by (apply Qle_shift_div_l; lra). lra.
  - intros higher pos' Hpos' Hz. rewrite Hpos'.
    eexists. split; [reflexivity |]. cbn [progress set_progress].
    unfold Math_round. apply Qfloor_resp_le.
    assert (Hm : x <= Math_min 100 (z pos' / 200 * 100)).
    { apply Math_min_mono.
      assert (z pos / 200 <= z pos' / 200).
      { unfold Qdiv. apply Qmult_le_compat_r; [exact Hz | vm_compute; discriminate]. }
      lra. }
    lra.
Qed.

Lemma head_rev {A : Type} (l : list A) : head (rev l) = last l.
Proof. rewrite rev_alt. apply (head_reverse l). Qed.

Lemma last_drop_lt {A : Type} (k : nat) (l : list A) :
  (k < length l)%nat -> last (drop k l) = last l.
Proof.
  intros H. rewrite !last_lookup, lookup_drop, length_drop. f_equal. lia.
Qed.

Lemma In_drop {A : Type} (k : nat) (l : list A) (a : A) : In a (drop k l) -> In a l.
Proof.
  intros H. rewrite <- (take_drop k l). apply in_or_app. now right.
Qed.

(** X21.  [getRecentAlerts] lists the newest alert first and returns at
    most [count] alerts for a positive [count]; [getRecentAlerts(0)] returns
    the whole list. *)
Theorem X21_recent_alerts (count : nat) (m : t) :
  head (getRecentAlerts count m) = last (alerts m)
  /\ (count <> 0%nat -> (length (getRecentAlerts count m) <= count)%nat)
  /\ getRecentAlerts 0 m = rev (alerts m)
  /\ forall a, In a (getRecentAlerts count m) -> In a (alerts m).
Proof.
  unfold getRecentAlerts. split; [| split; [| split]].
  - destruct count as [| n]; [now rewrite head_rev |].
    rewrite head_rev. unfold slice_last.
    destruct (alerts m) as [| a l] eqn:E; [reflexivity |]. rewrite <- E.
    apply last_drop_lt. rewrite E. cbn [length]. lia.
  - intros Hc. destruct count as [| n]; [contradiction |].
    rewrite length_rev, slice_last_length. lia.
  - reflexivity.
  - intros a Ha. apply in_rev in Ha. destruct count as [| n]; [exact Ha |].
    unfold slice_last in Ha. eapply In_drop; exact Ha.
Qed.

(** X22.  [stopMonitoring] always leaves the monitor idle, keeps the
    buffers, the alerts and the detector, and hands back a final report exactly
    when a session was ever started; the report shows the session as
    completed, ended at the time of the call, with the time since its start
    as total runtime and the length of the alert list as alert count.
    After a stop a status query answers that nothing is monitored. *)
Theorem X22_stopMonitoring (now : Z) (m : t) :
  let '(m', report) := stopMonitoring now m in
  isMonitoring m' = false
  /\ dataBuffer m' = dataBuffer m /\ alerts m' = alerts m
  /\ spaghettiDetector m' = spaghettiDetector m
  /\ (forall later, getCurrentStatus later m' = None)
  /\ (report = None <-> currentPrint m = None)
  /\ forall p, currentPrint m = Some p ->
       exists r,
         report = Some r
         /\ status (print r) = completed
         /\ endTime (print r) = Some now
         /\ totalRuntime r = Some (now - startTime p)%Z
         /\ totalAlerts r = length (alerts m)
         /\ currentPrint m' = Some (print r).
Proof.
  unfold stopMonitoring, generateFinalReport.
  destruct (currentPrint m) as [p |] eqn:Ep;
    cbn [isMonitoring dataBuffer alerts spaghettiDetector currentPrint set_isMonitoring
         set_currentPrint]; rewrite ?Ep;
    repeat (split; [reflexivity |]).
  - split; [split; intros H; discriminate H |].
    intros q Hq. injection Hq as <-. eexists. split; [reflexivity |].
    cbn. repeat split.
  - split; [tauto |]. intros q Hq. discriminate Hq.
Qed.

(** X23.  [generateLiveReport] never returns a report.  While idle it
    returns null; while monitoring it asks [getLatestValue] for the
    'humidity' channel, which the buffer does not have, and the read of
    [length] on the missing array throws. *)
Theorem X23_live_report_never_returned (now : Z) (m : t) :
  (isMonitoring m = false -> generateLiveReport now m = Returned None)
  /\ (isMonitoring m = true -> generateLiveReport now m = TypeError)
  /\ (forall dataType,
         getLatestValue dataType m = TypeError <-> dataType = humidity_key).
Proof.
  split; [| split].
  - intros H. unfold generateLiveReport. now rewrite H.
  - intros H. unfold generateLiveReport. rewrite H. reflexivity.
  - intros dataType. unfold getLatestValue.
    destruct dataType; cbn; split; intros H; (reflexivity || discriminate H).
Qed.

(** X24.  The final report of the monitor never contains one of the four
    common issues (under-extrusion, over-extrusion, warping risk, humidity
    stringing): the monitor passes none of the averages and no bed
    temperature to the scan, and a fixed humidity of 50. *)
Theorem X24_final_report_has_no_common_issue (now : Z) (m : t) (r : FinalReport) :
  generateFinalReport now m = Some r ->
  forall i, In i (QualityAnalyzer.issues (quality r)) ->
            i <> QualityAnalyzer.UnderExtrusion /\ i <> QualityAnalyzer.OverExtrusion
            /\ i <> QualityAnalyzer.WarpingRisk /\ i <> QualityAnalyzer.HumidityStringing.
Proof.
  unfold generateFinalReport. destruct (currentPrint m) as [p |]; [| discriminate].
  intros H. injection H as <-. cbn [quality].
  intros i Hi.
  unfold QualityAnalyzer.generateQualityReport, QualityAnalyzer.analyzeTemperatureProfile,
    QualityAnalyzer.analyzeVibrationData, QualityAnalyzer.analyzeLayerQuality,
    QualityAnalyzer.detectCommonIssues in Hi.
  cbn [QualityAnalyzer.issues QualityAnalyzer.temp_issues QualityAnalyzer.vib_issues
       QualityAnalyzer.layer_issues QualityAnalyzer.temperatures QualityAnalyzer.vibration
       QualityAnalyzer.filamentFlow QualityAnalyzer.temperature_avg
       QualityAnalyzer.filamentFlow_avg QualityAnalyzer.bedTemp QualityAnalyzer.humidity
       QualityAnalyzer.temperature opt_ltb opt_gtb andb] in Hi.
  change (gtb 50 60) with false in Hi.
  repeat match type of Hi with
         | context [if ?c then _ else _] => destruct c
         | context [match ?c with Some _ => _ | None => _ end] => destruct c
         end;
    cbn in Hi; intuition (subst; discriminate).
Qed.

End Reports.

(** ** The simulated visual analysis *)

Section VisualFacts.

Import SpaghettiDetector.

(** X25.  The visual analysis draws a random number only when the camera
    has a snapshot.  Without one it answers confidence 0 and leaves the
    random stream untouched; with one it consumes exactly one draw [r] and
    answers 0 for [r <= 0.8], 0.75 (one pattern) for [0.8 < r <= 0.9] and
    0.8 (the mean of 0.75 and 0.85, two patterns) for [r > 0.9]. *)
Theorem X25_visual_analysis :
  (forall (cameraData : option CameraData) (env : Env),
      (forall c, cameraData = Some c -> lastSnapshot c = None) ->
      analyzeVisualPatterns cameraData env
      = ({| visual_confidence := 0; patterns := [] |}, env))
  /\ (forall (c : CameraData) (s : CameraSnapshot) (env : Env),
         lastSnapshot c = Some s ->
         let '(visualAnalysis, env') := analyzeVisualPatterns (Some c) env in
         let r := random env 0%nat in
         (forall n, random env' n = random env (S n))
         /\ evaluations env' = evaluations env
         /\ (r <= 0.8 ->
             visual_confidence visualAnalysis == 0 /\ patterns visualAnalysis = [])
         /\ (0.8 < r <= 0.9 ->
             visual_confidence visualAnalysis == 0.75
             /\ patterns visualAnalysis = [stringyPattern])
         /\ (0.9 < r ->
             visual_confidence visualAnalysis == 0.8
             /\ patterns visualAnalysis = [stringyPattern; buildupPattern])).
Proof.
  split.
  - intros cameraData env H. unfold analyzeVisualPatterns.
    destruct cameraData as [[snap] |]; [| reflexivity].
    specialize (H _ eq_refl). cbn in H. now rewrite H.
  - intros [snap] s env H. cbn in H. subst snap.
    unfold analyzeVisualPatterns, mbind, Eff_bind, Math_random, mret, Eff_ret.
    cbn [random evaluations].
    split; [reflexivity |]. split; [reflexivity |].
    destruct (gtb (random env 0%nat) 0.8) eqn:E8, (gtb (random env 0%nat) 0.9) eqn:E9;
      [apply gtb_gt in E8 | apply gtb_gt in E8 | apply gtb_le in E8 | apply gtb_le in E8];
      [apply gtb_gt in E9 | apply gtb_le in E9 | apply gtb_gt in E9 | apply gtb_le in E9];
      cbn [app length Nat.ltb Nat.leb visual_confidence patterns];
      (split; [| split]); intros Hr; try (exfalso; lra);
      (split; [vm_compute; reflexivity | reflexivity]).
Qed.

End VisualFacts.

(** ** The listeners of index.js *)

Section AppFacts.

Import PrintMonitor Observations.

Lemma sameSession_steps (i s : Z) :
  keptByUpdateSteps
    (fun m => isMonitoring m = true
              /\ exists p, currentPrint m = Some p /\ id p = i /\ startTime p = s).
Proof.
  unfold keptByUpdateSteps. split; [| split; [| split]].
  - intros b m H. exact H.
  - intros l m H. exact H.
  - intros printerData m (Hm & p & Hp & Hi & Hs). unfold estimateProgress. rewrite Hp.
    destruct (position printerData).
    + cbn. split; [exact Hm |]. eexists. split; [reflexivity |]. now split.
    + split; [exact Hm |]. now exists p.
  - intros now m env H.
    pose proof (runSpaghettiDetection_frame now m env) as Hf.
    destruct (runSpaghettiDetection now m env) as [[d m'] e'].
    destruct Hf as (_ & Hm & Hp & _). cbn [fst snd]. now rewrite Hm, Hp.
Qed.

(** X26.  As index.js wires it, a 'connected' event on an idle monitor
    starts a session named 'Auto-detected print', and nothing ends or
    replaces a session: once the monitor is monitoring, every later event
    (sensor message, printer line, another 'connected') leaves it monitoring
    the same print, with the same id and start time. *)
Theorem X26_wired_session_is_never_replaced :
  (forall (now : Z) (a : App.t) (env : SpaghettiDetector.Env),
      isMonitoring (App.printMonitor a) = false ->
      let m' := App.printMonitor (fst (App.handle now App.PrinterConnected a env)) in
      isMonitoring m' = true
      /\ exists p, currentPrint m' = Some p /\ startTime p = now
                   /\ name p = "Auto-detected print"%string /\ status p = printing)
  /\ (forall (events : list (Z * App.Event)) (a : App.t) (env : SpaghettiDetector.Env)
             (p : PrintSession),
         isMonitoring (App.printMonitor a) = true ->
         currentPrint (App.printMonitor a) = Some p ->
         let m' := App.printMonitor (fst (App.handleAll events a env)) in
         isMonitoring m' = true
         /\ exists p', currentPrint m' = Some p' /\ id p' = id p
                       /\ startTime p' = startTime p).
Proof.
  split.
  - intros now a env Hidle. cbn [App.handle]. rewrite Hidle. cbn.
    split; [reflexivity |]. eexists. split; [reflexivity |]. now repeat split.
  - intros events a env p Hmon Hp.
    set (P := fun m : t =>
                isMonitoring m = true
                /\ exists p', currentPrint m = Some p' /\ id p' = id p
                              /\ startTime p' = startTime p).
    assert (HP : P (App.printMonitor a)) by (split; [exact Hmon | now exists p]).
    clear Hmon Hp. revert a env HP.
    induction events as [| [now e] rest IH]; intros a env HP; [exact HP |].
    cbn [App.handleAll]. unfold mbind, SpaghettiDetector.Eff_bind.
    assert (H1 : P (App.printMonitor (fst (App.handle now e a env)))).
    { destruct e as [data | | data]; cbn [App.handle].
      - destruct (App.handleESP32Data data (App.esp32 a)) as [sensors [s |]];
          cbn [mret SpaghettiDetector.Eff_ret fst App.printMonitor]; [| exact HP].
        destruct HP as [Hm Hs]. unfold P, updateSensorData. rewrite Hm. cbn. now split.
      - destruct HP as [Hm Hs]. rewrite Hm. cbn. now split.
      - unfold mbind, SpaghettiDetector.Eff_bind.
        pose proof (updatePrinterData_keeps P now data (App.printMonitor a) env
                      (sameSession_steps (id p) (startTime p)) HP) as H.
        destruct (updatePrinterData now data (App.printMonitor a) env) as [m1 e1].
        exact H. }
    destruct (App.handle now e a env) as [a1 e1]. now apply IH.
Qed.

(** X27.  Every ESP32 message that parses is recorded on all three sensor
    channels, also when it carries only some of the fields: a field the
    message lacks is recorded with the value last seen on that channel
    (0 before any).  A message that does not parse changes nothing. *)
Theorem X27_esp32_messages_fill_every_channel
    (now : Z) (a : App.t) (env : SpaghettiDetector.Env) :
  App.handle now (App.Esp32Message None) a env = (a, env)
  /\ forall data : SensorData,
       isMonitoring (App.printMonitor a) = true ->
       let a' := fst (App.handle now (App.Esp32Message (Some data)) a env) in
       let buf := dataBuffer (App.printMonitor a) in
       let buf' := dataBuffer (App.printMonitor a') in
       App.temperature (App.esp32 a')
       = default (App.temperature (App.esp32 a)) (sensor_temperature data)
       /\ temperature buf'
          = slice_last 100
              (temperature buf
               ++ [default (App.temperature (App.esp32 a)) (sensor_temperature data)])
       /\ vibration buf'
          = slice_last 100
              (vibration buf
               ++ [default (App.vibration (App.esp32 a)) (sensor_vibration data)])
       /\ filamentFlow buf'
          = slice_last 100
              (filamentFlow buf
               ++ [default (App.filamentFlow (App.esp32 a)) (sensor_filamentFlow data)]).
Proof.
  split.
  - destruct a. reflexivity.
  - intros data Hmon. cbn [App.handle App.handleESP32Data].
    cbn [mret SpaghettiDetector.Eff_ret fst App.printMonitor App.esp32 App.temperature].
    split; [reflexivity |].
    match goal with
    | |- context [updateSensorData now ?sd (App.printMonitor a)] =>
        pose proof (updateSensorData_buffer now sd (App.printMonitor a) Hmon)
          as (_ & Ht & Hv & Hf & _)
    end.
    cbn [App.asSensorData sensor_temperature sensor_vibration sensor_filamentFlow
         App.temperature App.vibration App.filamentFlow] in Ht, Hv, Hf.
    now rewrite Ht, Hv, Hf.
Qed.

End AppFacts.

(** ** Risk factors and the simulated analysis *)

Section SimulatedAnalysis.

Import PrintMonitor.

(** X28.  The explanatory factor list agrees with the score: a factor of
    risk high or medium is listed only when a risk zone has triggered, that
    is only with a positive score; the first-layers factor is listed exactly
    up to layer 3; and at most six factors are listed. *)
Theorem X28_risk_factors_agree_with_score
    (g : SpaghettiDetector.GcodeAnalysis) (currentLayer : Z) :
  let factors := SpaghettiDetector.identifyRiskFactors g currentLayer in
  ((exists f, In f factors /\ SpaghettiDetector.risk f <> SpaghettiDetector.low) ->
   0 < SpaghettiDetector.calculateRiskScore g currentLayer)
  /\ (In {| SpaghettiDetector.factor := SpaghettiDetector.first_layers;
            SpaghettiDetector.risk := SpaghettiDetector.high |} factors
      <-> (currentLayer <= 3)%Z)
  /\ (length factors <= 6)%nat.
Proof.
  intros factors.
  pose proof (calculateRiskScore_factors g currentLayer) as Hfac.
  destruct Hfac as (base & Hbase & Hscore & _).
  set (ld := SpaghettiDetector.layerDataOf g currentLayer) in *.
  assert (Hf1 : 0.9 <= (if gtb (SpaghettiDetector.solidInfill ld) 0.8 then 0.9 else 1) <= 1)
    by (destruct (gtb (SpaghettiDetector.solidInfill ld) 0.8); lra).
  assert (Hf2 : 0.9 <= (if SpaghettiDetector.supportMaterial ld then 0.9 else 1) <= 1)
    by (destruct (SpaghettiDetector.supportMaterial ld); lra).
  unfold factors, SpaghettiDetector.identifyRiskFactors. fold ld.
  split; [| split].
  - intros (f & Hin & Hrisk). rewrite Hscore.
    apply Qmult_lt_0_compat; [apply Qmult_lt_0_compat |]; try lra.
    assert (Htrig : gtb (SpaghettiDetector.overhangs ld) 0
                    || gtb (SpaghettiDetector.bridges ld) 0
                    || gtb (SpaghettiDetector.smallFeatures ld) 0
                    || (currentLayer <=? 3)%Z = true).
    { destruct (currentLayer <=? 3)%Z; [now rewrite !orb_true_r |].
      destruct (gtb (SpaghettiDetector.overhangs ld) 0); [reflexivity |].
      destruct (gtb (SpaghettiDetector.bridges ld) 0); [reflexivity |].
      destruct (gtb (SpaghettiDetector.smallFeatures ld) 0) eqn:Es; [reflexivity |].
      exfalso. cbn [app] in Hin.
      destruct (gtb (SpaghettiDetector.smallFeatures ld) 10) eqn:E10.
      - apply gtb_gt in E10. apply gtb_le in Es. lra.
      - cbn [app] in Hin.
        destruct (gtb (SpaghettiDetector.solidInfill ld) 0.8),
          (SpaghettiDetector.supportMaterial ld); cbn in Hin;
          intuition (subst; cbn in Hrisk; congruence). }
    rewrite Htrig in Hbase. lra.
  - destruct (currentLayer <=? 3)%Z eqn:E.
    + split; [intros _; now apply Z.leb_le | intros _; now left].
    + apply Z.leb_gt in E. split; [| lia].
      cbn [app]. intros Hin.
      repeat (apply in_app_or in Hin; destruct Hin as [Hin | Hin]);
        repeat match type of Hin with
               | In _ (if ?c then _ else _) => destruct c
               end; cbn in Hin; intuition discriminate.
  - destruct (currentLayer <=? 3)%Z, (gtb (SpaghettiDetector.overhangs ld) 0),
      (gtb (SpaghettiDetector.bridges ld) 0), (gtb (SpaghettiDetector.smallFeatures ld) 10),
      (gtb (SpaghettiDetector.solidInfill ld) 0.8), (SpaghettiDetector.supportMaterial ld);
      cbn; lia.
Qed.

Lemma floor_scaled_bounds (r : Q) (k : Z) :
  0 <= r < 1 -> (0 < k)%Z ->
  0 <= inject_Z (Math_floor (r * inject_Z k)) <= inject_Z (k - 1).
Proof.
  intros [H0 H1] Hk. unfold Math_floor.
  assert (Hkq : 0 < inject_Z k) by (change 0 with (inject_Z 0); rewrite <- Zlt_Qlt; lia).
  split.
  - change 0 with (inject_Z 0). rewrite <- Zle_Qle.
    rewrite <- (Qfloor_Z 0). apply Qfloor_resp_le.
    change (inject_Z 0) with 0. apply Qmult_le_0_compat; lra.
  - rewrite <- Zle_Qle.
    pose proof (Qfloor_le (r * inject_Z k)) as Hfl.
    assert (Hlt : inject_Z (Qfloor (r * inject_Z k)) < inject_Z k).
    { eapply Qle_lt_trans; [exact Hfl |].
      rewrite <- (Qmult_1_l (inject_Z k)) at 2.
      apply Qmult_lt_compat_r; assumption. }
    rewrite <- Zlt_Qlt in Hlt. lia.
Qed.

(** What the simulated G-code analysis can produce from draws in [0, 1). *)
Lemma simulatedLayer_bounds (currentLayer : Z) (env : SpaghettiDetector.Env) :
  (forall n, 0 <= SpaghettiDetector.random env n < 1) ->
  let ld := fst (simulatedLayer currentLayer env) in
  0 <= SpaghettiDetector.overhangs ld <= 2
  /\ 0 <= SpaghettiDetector.bridges ld <= 1
  /\ 0 <= SpaghettiDetector.smallFeatures ld <= 4
  /\ 0 <= SpaghettiDetector.solidInfill ld < 1
  /\ ((currentLayer <= 10)%Z -> SpaghettiDetector.overhangs ld = 0)
  /\ ((currentLayer <= 15)%Z -> SpaghettiDetector.bridges ld = 0).
Proof.
  intros Hr.
  assert (H3 : forall n, 0 <= inject_Z (Math_floor (SpaghettiDetector.random env n * 3)) <= 2)
    by (intros n; apply (floor_scaled_bounds _ 3); [apply Hr | lia]).
  assert (H2 : forall n, 0 <= inject_Z (Math_floor (SpaghettiDetector.random env n * 2)) <= 1)
    by (intros n; apply (floor_scaled_bounds _ 2); [apply Hr | lia]).
  assert (H5 : forall n, 0 <= inject_Z (Math_floor (SpaghettiDetector.random env n * 5)) <= 4)
    by (intros n; apply (floor_scaled_bounds _ 5); [apply Hr | lia]).
  unfold simulatedLayer, mbind, SpaghettiDetector.Eff_bind, mret, SpaghettiDetector.Eff_ret,
    SpaghettiDetector.Math_random.
  destruct (10 <? currentLayer)%Z eqn:E10, (15 <? currentLayer)%Z eqn:E15;
    cbn [fst snd SpaghettiDetector.random SpaghettiDetector.overhangs
         SpaghettiDetector.bridges SpaghettiDetector.smallFeatures
         SpaghettiDetector.solidInfill];
    try apply Z.ltb_lt in E10; try apply Z.ltb_lt in E15;
    try apply Z.ltb_ge in E10; try apply Z.ltb_ge in E15;
    repeat split; try apply H3; try apply H2; try apply H5; try apply Hr;
    try lra; try (intros; lia); try reflexivity.
Qed.

(** A layer above 3 with at most 2 overhangs, 1 bridge and 4 small
    features scores at most a quarter. *)
Lemma calculateRiskScore_few_features (ld : SpaghettiDetector.LayerData) (currentLayer : Z) :
  (3 < currentLayer)%Z ->
  SpaghettiDetector.overhangs ld <= 2 ->
  SpaghettiDetector.bridges ld <= 1 ->
  SpaghettiDetector.smallFeatures ld <= 4 ->
  SpaghettiDetector.calculateRiskScore
    {| SpaghettiDetector.layers := Some {[ currentLayer := ld ]} |} currentLayer <= 0.25.
Proof.
  intros Hl Ho Hb Hs. unfold SpaghettiDetector.calculateRiskScore.
  rewrite layerDataOf_singleton.
  apply Z.leb_gt in Hl. rewrite Hl.
  cbn [SpaghettiDetector.weight SpaghettiDetector.riskZones_overhangs
       SpaghettiDetector.riskZones_bridges SpaghettiDetector.riskZones_smallFeatures
       SpaghettiDetector.riskZones_firstLayers SpaghettiDetector.safeZones_solidInfill
       SpaghettiDetector.safeZones_supported].
  assert (Hshare : forall c k, 0 < c -> 0 < k -> c <= 0.2 * k ->
                               0 < Math_min (c / k) 1 <= 0.2).
  { intros c k Hc Hk Hck. split; [apply share_pos; assumption |].
    eapply Qle_trans; [apply Math_min_le_l |]. apply Qle_shift_div_r; lra. }
  destruct (gtb (SpaghettiDetector.overhangs ld) 0) eqn:Eo;
    [ apply gtb_gt in Eo;
      pose proof (Hshare (SpaghettiDetector.overhangs ld) 10 Eo ltac:(lra) ltac:(lra));
      set (so := Math_min (SpaghettiDetector.overhangs ld / 10) 1) in * | ];
  (destruct (gtb (SpaghettiDetector.bridges ld) 0) eqn:Eb;
    [ apply gtb_gt in Eb;
      pose proof (Hshare (SpaghettiDetector.bridges ld) 5 Eb ltac:(lra) ltac:(lra));
      set (sb := Math_min (SpaghettiDetector.bridges ld / 5) 1) in * | ]);
  (destruct (gtb (SpaghettiDetector.smallFeatures ld) 0) eqn:Es;
    [ apply gtb_gt in Es;
      pose proof (Hshare (SpaghettiDetector.smallFeatures ld) 20 Es ltac:(lra) ltac:(lra));
      set (ss := Math_min (SpaghettiDetector.smallFeatures ld / 20) 1) in * | ]);
  destruct (gtb (SpaghettiDetector.solidInfill ld) 0.8);
  destruct (SpaghettiDetector.supportMaterial ld);
  match goal with
  | |- context [if gtb ?w 0 then _ else _] =>
      destruct (gtb w 0) eqn:Hw; [apply gtb_gt in Hw | lra]
  end;
  (eapply Qle_trans; [apply Math_min_le_l |]); apply Qle_shift_div_r; lra.
Qed.

(** X29.  With the simulated G-code analysis and random draws in [0, 1),
    an evaluation on a layer above 3 has a risk score of at most a quarter,
    under both thresholds of the policy: there the recommendation is never
    [monitor_closely], and it is [immediate_intervention] exactly when a
    high-severity sensor alert is present. *)
Theorem X29_simulated_risk_is_low_above_layer_3
    (now : Z) (m : t) (env : SpaghettiDetector.Env) :
  (forall n, 0 <= SpaghettiDetector.random env n < 1) ->
  (3 < currentLayer m)%Z ->
  let detection := fst (fst (runSpaghettiDetection now m env)) in
  SpaghettiDetector.riskScore detection <= 0.25
  /\ SpaghettiDetector.action (SpaghettiDetector.recommendation detection)
     <> SpaghettiDetector.monitor_closely
  /\ (SpaghettiDetector.action (SpaghettiDetector.recommendation detection)
      = SpaghettiDetector.immediate_intervention
      <-> exists a, In a (SpaghettiDetector.alerts detection)
                    /\ SpaghettiDetector.severity a = SpaghettiDetector.high).
Proof.
  intros Hr Hl.
  pose proof (simulatedLayer_bounds (currentLayer m) env Hr) as (Ho & Hb & Hs & _).
  unfold runSpaghettiDetection, mbind, SpaghettiDetector.Eff_bind.
  destruct (simulatedLayer (currentLayer m) env) as [ld e1]. cbn [fst] in Ho, Hb, Hs.
  unfold SpaghettiDetector.analyzeCurrentPrint, mbind, SpaghettiDetector.Eff_bind.
  destruct (SpaghettiDetector.analyzeVisualPatterns _ e1) as [va e2].
  unfold mret, SpaghettiDetector.Eff_ret.
  match goal with
  | |- context [SpaghettiDetector.record_evaluation ?d ?e] =>
      destruct (SpaghettiDetector.record_evaluation d e) as [u e3]
  end.
  cbn [fst snd SpaghettiDetector.riskScore SpaghettiDetector.recommendation
       SpaghettiDetector.alerts].
  pose proof (calculateRiskScore_few_features ld (currentLayer m) Hl
                ltac:(lra) ltac:(lra) ltac:(lra)) as Hrisk.
  set (risk := SpaghettiDetector.calculateRiskScore _ _) in *.
  set (sensorAlerts := SpaghettiDetector.analyzeSensorPatterns _).
  assert (H8 : gtb risk 0.8 = false) by (apply gtb_le; lra).
  assert (H5 : gtb risk 0.5 = false) by (apply gtb_le; lra).
  split; [exact Hrisk |].
  unfold SpaghettiDetector.generateRecommendation. rewrite H8, H5. cbn [orb].
  destruct (existsb (SpaghettiDetector.has_severity SpaghettiDetector.high) sensorAlerts)
    eqn:E; cbn [SpaghettiDetector.action].
  - split; [discriminate |]. split; [intros _; now apply existsb_high_spec | reflexivity].
  - split; [discriminate |]. split; [discriminate |].
    intros H. apply existsb_high_spec in H. congruence.
Qed.

End SimulatedAnalysis.

(** ** The further properties at concrete inputs *)

Section FurtherInstances.

Import PrintMonitor Scenarios Observations.

Lemma X1_witness :
  (length [205.3%Q] <= 1)%nat
  /\ QualityAnalyzer.calculateVariation [205.3] == 0
  /\ QualityAnalyzer.stability (QualityAnalyzer.analyzeTemperatureProfile [205.3]) == 100.
Proof.
  assert (H : (length [205.3%Q] <= 1)%nat) by (cbn; lia).
  split; [exact H |].
  exact (proj2 (proj2 (proj2 (X1_temperature_stability [205.3]))) H).
Defined.

Lemma X2_witness :
  0 < highestZ 0 [Some 0.2; None; Some 0.4; Some 0.1]
  /\ Forall (fun h => h <= highestZ 0 [Some 0.2; None; Some 0.4; Some 0.1])
            (QualityAnalyzer.extractLayerHeights [Some 0.2; None; Some 0.4; Some 0.1]).
Proof.
  assert (H : 0 < highestZ 0 [Some 0.2; None; Some 0.4; Some 0.1])
    by (apply ltb_lt; reflexivity).
  split; [exact H |].
  exact (proj1 (proj2 (proj2 (proj2
           (X2_layer_heights [Some 0.2; None; Some 0.4; Some 0.1])))) H).
Defined.

Lemma X3_witness :
  exists v,
    QualityAnalyzer.vib_score (QualityAnalyzer.analyzeVibrationData [60; 80]) = Some v
    /\ 0 <= v.
Proof.
  destruct (proj2 X3_vibration_score [60; 80] ltac:(discriminate)) as (v & Hv & H0 & _).
  exists v. split; [exact Hv | exact H0].
Defined.

Lemma X6_witness :
  79 <= 91
  /\ (gradeRank (QualityAnalyzer.getQualityGrade 79)
      <= gradeRank (QualityAnalyzer.getQualityGrade 91))%nat.
Proof.
  assert (H : 79 <= 91) by (apply Qle_bool_iff; reflexivity).
  split; [exact H |].
  exact (proj1 (X6_grade_monotone 79 91) H).
Defined.

Lemma X7_witness :
  let sensorData :=
    {| QualityAnalyzer.vibration := Some [20; 30];
       QualityAnalyzer.filamentFlow := None;
       QualityAnalyzer.filamentFlow_avg := None;
       QualityAnalyzer.temperature := None;
       QualityAnalyzer.humidity := None |} in
  let printerData :=
    {| QualityAnalyzer.temperatures := Some [200; 210];
       QualityAnalyzer.temperature_avg := None;
       QualityAnalyzer.bedTemp := None |} in
  (QualityAnalyzer.overallScore
     (QualityAnalyzer.generateQualityReport 0 printerData sensorData []) <= 100)%Z.
Proof.
  intros sensorData printerData.
  refine (proj2 (proj2 (proj1 X7_report_score_and_grade 0%Z printerData sensorData [])) _).
  repeat constructor; apply Qle_bool_iff; reflexivity.
Defined.

Lemma X8_witness :
  SpaghettiDetector.analyzeSensorPatterns (flowOnly [0; 0; 0; 0; 0]) = [].
Proof.
  apply (proj1 (X8_short_windows_raise_nothing (flowOnly [0; 0; 0; 0; 0])));
    intros data H; try discriminate H.
  injection H as <-. cbn. lia.
Defined.

Lemma X9_witness :
  0 < SpaghettiDetector.calculateRiskScore layerTwo 2.
Proof.
  apply (proj2 (X9_risk_zero_iff_no_zone layerTwo 2)).
  intros (_ & _ & _ & H). lia.
Defined.

Lemma X10_witness :
  SpaghettiDetector.calculateRiskScore layerTwo 7 == 0
  /\ SpaghettiDetector.identifyRiskFactors layerTwo 7 = [].
Proof.
  apply (X10_missing_layer_snapshot layerTwo 7).
  intros ls H. injection H as <-. reflexivity.
Defined.

Lemma X11_witness :
  let snapshot (i : Q) (sup : bool) :=
    {| SpaghettiDetector.layers := Some {[ 12%Z :=
         {| SpaghettiDetector.overhangs := 3; SpaghettiDetector.bridges := 1;
            SpaghettiDetector.smallFeatures := 0; SpaghettiDetector.solidInfill := i;
            SpaghettiDetector.supportMaterial := sup |} ]} |} in
  0.5 <= 0.8
  /\ SpaghettiDetector.calculateRiskScore (snapshot 0.95 true) 12
     <= SpaghettiDetector.calculateRiskScore (snapshot 0.5 false) 12
  /\ 0.8 * SpaghettiDetector.calculateRiskScore (snapshot 0.5 false) 12
     <= SpaghettiDetector.calculateRiskScore (snapshot 0.95 true) 12.
Proof.
  intros snapshot.
  assert (H : 0.5 <= 0.8) by (apply Qle_bool_iff; reflexivity).
  split; [exact H |].
  destruct (X11_safe_zones_only_dampen 3 1 0 0.5 0.95 true 12 H) as (H1 & H2 & H3).
  split; [| exact H3].
  eapply Qle_trans; [exact H2 |].
  exact (proj1 (X11_safe_zones_only_dampen 3 1 0 0.5 0.5 true 12 H)).
Defined.

Lemma X13_witness :
  let d := SpaghettiDetector.reportFeedback false SpaghettiDetector.constructor in
  SpaghettiDetector.calculateConfidence d 1 [SpaghettiDetector.lowFlowAlert]
    {| SpaghettiDetector.visual_confidence := 0.8; SpaghettiDetector.patterns := [] |}
  == 0.
Proof.
  intros d. apply (proj1 X13_false_alarms_silence_detector d); [reflexivity | discriminate].
Defined.

Lemma X14_witness :
  let m := fst (run (repeated (UpdatePrinterData (printerAt 2)) 60) freshSession quietEnv) in
  (SpaghettiDetector.totalDetections (getSpaghettiStats m) <= 50)%nat.
Proof.
  intros m.
  refine (proj1 (proj2 X14_detection_history_capacity
                   (repeated (UpdatePrinterData (printerAt 2)) 60) freshSession quietEnv _)).
  cbn. lia.
Defined.

Lemma X16_witness :
  In (realTimeAlert error TemperatureDrop (Some 150) 40)
     (alerts (updateSensorData 40 (temperatureReading 150) freshSession)).
Proof.
  refine (proj2 (proj2 X16_monitoring_has_open_session) 40%Z (temperatureReading 150)
            freshSession 150 _ eq_refl eq_refl _).
  - intros _. eexists. split; reflexivity.
  - apply ltb_lt. reflexivity.
Defined.

Lemma X17_witness :
  run [(1%Z, UpdateSensorData (temperatureReading 300));
       (2%Z, UpdatePrinterData (printerAt 2))] constructor quietEnv
  = (constructor, quietEnv).
Proof.
  apply X17_idle_monitor_ignores_updates; [reflexivity |].
  repeat constructor.
Defined.

Lemma X18_witness :
  temperature
    (dataBuffer
       (fst (run (map (fun u => (fst u, UpdateSensorData (snd u)))
                    [(1%Z, temperatureReading 200); (2%Z, temperatureReading 210)])
               freshSession quietEnv)))
  = slice_last 100 (temperature (dataBuffer freshSession) ++ [200; 210]).
Proof.
  refine (proj1 (X18_sensor_channels_are_fifo
                   [(1%Z, temperatureReading 200); (2%Z, temperatureReading 210)]
                   freshSession quietEnv eq_refl _ _ _)); cbn; lia.
Defined.

Lemma X19_witness :
  nominal (temperatureReading 210)
  /\ alerts (updateSensorData 40 (temperatureReading 210) freshSession)
     = List.filter (fun a => (40 - oneHour <? timestamp a)%Z) (alerts freshSession).
Proof.
  assert (H : nominal (temperatureReading 210)).
  { unfold nominal. split; [| split]; intros v Hv; try discriminate Hv.
    injection Hv as <-. split; apply Qle_bool_iff; reflexivity. }
  split; [exact H |].
  exact (proj2 (X19_real_time_alert_rules 40 (temperatureReading 210) freshSession eq_refl) H).
Defined.

Lemma X20_witness :
  exists v : Z,
    currentPrint (estimateProgress (printerAt 50) freshSession)
    = Some {| id := 0; name := "benchy"; startTime := 0; endTime := None;
              status := printing; progress := v |}
    /\ alerts (estimateProgress (printerAt 50) freshSession) = alerts freshSession
    /\ (0 <= v <= 100)%Z.
Proof.
  destruct (X20_progress_bounds (printerAt 50) freshSession _ _ eq_refl eq_refl)
    as (v & Heq & Hle & Hge & _).
  exists v. rewrite Heq. split; [reflexivity | split; [reflexivity |]].
  split; [apply Hge; apply Qle_bool_iff; reflexivity | exact Hle].
Defined.

Lemma X24_witness :
  exists r,
    generateFinalReport 40 freshSession = Some r
    /\ forall i, In i (QualityAnalyzer.issues (quality r)) ->
                 i <> QualityAnalyzer.UnderExtrusion /\ i <> QualityAnalyzer.OverExtrusion
                 /\ i <> QualityAnalyzer.WarpingRisk
                 /\ i <> QualityAnalyzer.HumidityStringing.
Proof.
  eexists. split; [reflexivity |].
  apply (X24_final_report_has_no_common_issue 40 freshSession _ eq_refl).
Defined.

Lemma X26_witness :
  isMonitoring
    (App.printMonitor (fst (App.handle 40 App.PrinterConnected App.start quietEnv)))
  = true.
Proof.
  exact (proj1 (proj1 X26_wired_session_is_never_replaced 40%Z App.start quietEnv eq_refl)).
Defined.

Lemma X29_witness :
  let m := fst (run (repeated (UpdatePrinterData (printerAt 2)) 1) freshSession quietEnv) in
  SpaghettiDetector.riskScore (fst (fst (runSpaghettiDetection 40 m quietEnv))) <= 0.25.
Proof.
  intros m.
  refine (proj1 (X29_simulated_risk_is_low_above_layer_3 40 m quietEnv _ _)).
  - intros n. split; [apply Qle_bool_iff | apply ltb_lt]; reflexivity.
  - apply Z.ltb_lt. reflexivity.
Defined.

End FurtherInstances.
